(** * Zamane store: the order pipeline

    A shallow embedding of the checkout, payment-webhook, cancellation and
    cart-merge handlers of the Express/Prisma backend
    ([backend/src/routes/orders.ts], [backend/src/routes/webhooks.ts], the
    cart router and the order-number helper), followed by the properties the
    specification states about them.

    Conventions.
    - A JavaScript [number] that carries money is an IEEE-754 binary64 value,
      modelled by Rocq's primitive [float]; the arithmetic below is therefore
      the arithmetic the handlers perform.  A money column is [numeric(10,2)]:
      a [number] written to it is rounded to hundredths ([decimal2]), and the
      column reads back as the nearest double.  Integer columns ([quantity],
      [usedCount], [maxUses]) and timestamps are [Z].
    - A string holds Unicode text in UTF-8; [toUpperCase] and [toLowerCase]
      are the full Unicode case mappings.
    - The relational store is the record [World]; tables addressed by primary
      key only are [gmap]s from the key, tables that are scanned ([findMany],
      [findFirst]) are lists of rows in store order.
    - A handler is a [Task]: a state transformer over [World] that may throw.
      Nothing is rolled back when a handler throws, as in the source, where no
      handler opens a transaction.
    - The payment gateway is the record [Stripe] of the client calls the
      handlers make; clock, random source and generated keys come in [Env]. *)

From Stdlib Require Import ZArith Lia Floats.PrimFloat Numbers.Cyclic.Int63.Uint63.
From Stdlib Require Floats.SpecFloat Floats.FloatOps.
From Stdlib Require Import Strings.Ascii.
From stdpp Require Import gmap strings list fin_maps.

Open Scope Z_scope.

(** ** JavaScript values *)

Module Js.

Abbreviation number := float.

(** An integer column read into a [number]. *)
Definition ofInt (z : Z) : number :=
  match z with
  | Z0 => PrimFloat.zero
  | Zpos _ => PrimFloat.of_uint63 (Uint63.of_Z z)
  | Zneg _ => PrimFloat.opp (PrimFloat.of_uint63 (Uint63.of_Z (- z)))
  end.

(** Truthiness of [string | null | undefined]: the empty string is falsy. *)
Definition truthy (s : option string) : bool :=
  match s with
  | Some s => negb (String.eqb s "")
  | None => false
  end.

(** Truthiness of [number | null] for an integer column: [0] is falsy. *)
Definition truthyInt (n : option Z) : bool :=
  match n with
  | Some n => negb (n =? 0)
  | None => false
  end.

(** [a || b] on optional strings. *)
Definition orElse (a b : option string) : option string :=
  if truthy a then a else b.

Definition isLower (c : ascii) : bool :=
  let n := nat_of_ascii c in (97 <=? n)%nat && (n <=? 122)%nat.

Definition isUpper (c : ascii) : bool :=
  let n := nat_of_ascii c in (65 <=? n)%nat && (n <=? 90)%nat.

Definition isDigit (c : ascii) : bool :=
  let n := nat_of_ascii c in (48 <=? n)%nat && (n <=? 57)%nat.

(** The uppercase mapping on the ASCII letters. *)
Definition upperChar (c : ascii) : ascii :=
  if isLower c then ascii_of_nat (nat_of_ascii c - 32) else c.

(** *** Strings

    A JavaScript string is a sequence of Unicode code points; a [string]
    here holds it in UTF-8, as the database and the wire do. *)

Definition byte (c : ascii) : Z := Z.of_N (N_of_ascii c).
Definition char (b : Z) : ascii := ascii_of_N (Z.to_N b).

Definition isContinuation (b : Z) : bool := (0x80 <=? b) && (b <=? 0xBF).

Definition isSurrogate (cp : Z) : bool := (0xD800 <=? cp) && (cp <=? 0xDFFF).

(** A code point a well-formed string can hold. *)
Definition isScalar (cp : Z) : bool :=
  (0 <=? cp) && (cp <=? 0x10FFFF) && negb (isSurrogate cp).

Definition decode2 (b0 b1 : Z) : option Z :=
  if (0xC2 <=? b0) && (b0 <=? 0xDF) && isContinuation b1
  then Some ((b0 - 0xC0) * 64 + (b1 - 0x80))
  else None.

Definition decode3 (b0 b1 b2 : Z) : option Z :=
  let cp := (b0 - 0xE0) * 4096 + (b1 - 0x80) * 64 + (b2 - 0x80) in
  if (0xE0 <=? b0) && (b0 <=? 0xEF) && isContinuation b1 && isContinuation b2
     && (0x800 <=? cp) && negb (isSurrogate cp)
  then Some cp
  else None.

Definition decode4 (b0 b1 b2 b3 : Z) : option Z :=
  let cp := (b0 - 0xF0) * 262144 + (b1 - 0x80) * 4096 + (b2 - 0x80) * 64 + (b3 - 0x80) in
  if (0xF0 <=? b0) && (b0 <=? 0xF4)
     && isContinuation b1 && isContinuation b2 && isContinuation b3
     && (0x10000 <=? cp) && (cp <=? 0x10FFFF)
  then Some cp
  else None.

(** The code points of a string.  A byte that starts no well-formed sequence
    reads as U+FFFD. *)
Fixpoint decode (s : string) : list Z :=
  match s with
  | EmptyString => []
  | String c0 s1 =>
      let b0 := byte c0 in
      if b0 <? 0x80 then b0 :: decode s1
      else
        match s1 with
        | EmptyString => [0xFFFD]
        | String c1 s2 =>
            match decode2 b0 (byte c1) with
            | Some cp => cp :: decode s2
            | None =>
                match s2 with
                | EmptyString => 0xFFFD :: decode s1
                | String c2 s3 =>
                    match decode3 b0 (byte c1) (byte c2) with
                    | Some cp => cp :: decode s3
                    | None =>
                        match s3 with
                        | EmptyString => 0xFFFD :: decode s1
                        | String c3 s4 =>
                            match decode4 b0 (byte c1) (byte c2) (byte c3) with
                            | Some cp => cp :: decode s4
                            | None => 0xFFFD :: decode s1
                            end
                        end
                    end
                end
            end
        end
  end.

Definition encode1 (cp : Z) : string :=
  if cp <? 0x80 then String (char cp) EmptyString
  else if cp <? 0x800 then
    String (char (0xC0 + cp / 64)) (String (char (0x80 + cp mod 64)) EmptyString)
  else if cp <? 0x10000 then
    String (char (0xE0 + cp / 4096))
      (String (char (0x80 + (cp / 64) mod 64))
         (String (char (0x80 + cp mod 64)) EmptyString))
  else
    String (char (0xF0 + cp / 262144))
      (String (char (0x80 + (cp / 4096) mod 64))
         (String (char (0x80 + (cp / 64) mod 64))
            (String (char (0x80 + cp mod 64)) EmptyString))).

Fixpoint encode (l : list Z) : string :=
  match l with
  | [] => EmptyString
  | cp :: l => encode1 cp +:+ encode l
  end.

(** The uppercase mappings of the code points above U+007F, by code point
    (UnicodeData.txt and the unconditional mappings of SpecialCasing.txt,
    Unicode 14.0). *)
Definition upperTable : list (Z * list Z) :=
  [(181, [924]); (223, [83; 83]); (224, [192]); (225, [193]); (226, [194]); (227, [195]);
    (228, [196]); (229, [197]); (230, [198]); (231, [199]); (232, [200]); (233, [201]);
    (234, [202]); (235, [203]); (236, [204]); (237, [205]); (238, [206]); (239, [207]);
    (240, [208]); (241, [209]); (242, [210]); (243, [211]); (244, [212]); (245, [213]);
    (246, [214]); (248, [216]); (249, [217]); (250, [218]); (251, [219]); (252, [220]);
    (253, [221]); (254, [222]); (255, [376]); (257, [256]); (259, [258]); (261, [260]);
    (263, [262]); (265, [264]); (267, [266]); (269, [268]); (271, [270]); (273, [272]);
    (275, [274]); (277, [276]); (279, [278]); (281, [280]); (283, [282]); (285, [284]);
    (287, [286]); (289, [288]); (291, [290]); (293, [292]); (295, [294]); (297, [296]);
    (299, [298]); (301, [300]); (303, [302]); (305, [73]); (307, [306]); (309, [308]);
    (311, [310]); (314, [313]); (316, [315]); (318, [317]); (320, [319]); (322, [321]);
    (324, [323]); (326, [325]); (328, [327]); (329, [700; 78]); (331, [330]); (333, [332]);
    (335, [334]); (337, [336]); (339, [338]); (341, [340]); (343, [342]); (345, [344]);
    (347, [346]); (349, [348]); (351, [350]); (353, [352]); (355, [354]); (357, [356]);
    (359, [358]); (361, [360]); (363, [362]); (365, [364]); (367, [366]); (369, [368]);
    (371, [370]); (373, [372]); (375, [374]); (378, [377]); (380, [379]); (382, [381]);
    (383, [83]); (384, [579]); (387, [386]); (389, [388]); (392, [391]); (396, [395]);
    (402, [401]); (405, [502]); (409, [408]); (410, [573]); (414, [544]); (417, [416]);
    (419, [418]); (421, [420]); (424, [423]); (429, [428]); (432, [431]); (436, [435]);
    (438, [437]); (441, [440]); (445, [444]); (447, [503]); (453, [452]); (454, [452]);
    (456, [455]); (457, [455]); (459, [458]); (460, [458]); (462, [461]); (464, [463]);
    (466, [465]); (468, [467]); (470, [469]); (472, [471]); (474, [473]); (476, [475]);
    (477, [398]); (479, [478]); (481, [480]); (483, [482]); (485, [484]); (487, [486]);
    (489, [488]); (491, [490]); (493, [492]); (495, [494]); (496, [74; 780]); (498, [497]);
    (499, [497]); (501, [500]); (505, [504]); (507, [506]); (509, [508]); (511, [510]);
    (513, [512]); (515, [514]); (517, [516]); (519, [518]); (521, [520]); (523, [522]);
    (525, [524]); (527, [526]); (529, [528]); (531, [530]); (533, [532]); (535, [534]);
    (537, [536]); (539, [538]); (541, [540]); (543, [542]); (547, [546]); (549, [548]);
    (551, [550]); (553, [552]); (555, [554]); (557, [556]); (559, [558]); (561, [560]);
    (563, [562]); (572, [571]); (575, [11390]); (576, [11391]); (578, [577]); (583, [582]);
    (585, [584]); (587, [586]); (589, [588]); (591, [590]); (592, [11375]); (593, [11373]);
    (594, [11376]); (595, [385]); (596, [390]); (598, [393]); (599, [394]); (601, [399]);
    (603, [400]); (604, [42923]); (608, [403]); (609, [42924]); (611, [404]);
    (613, [42893]); (614, [42922]); (616, [407]); (617, [406]); (618, [42926]);
    (619, [11362]); (620, [42925]); (623, [412]); (625, [11374]); (626, [413]);
    (629, [415]); (637, [11364]); (640, [422]); (642, [42949]); (643, [425]);
    (647, [42929]); (648, [430]); (649, [580]); (650, [433]); (651, [434]); (652, [581]);
    (658, [439]); (669, [42930]); (670, [42928]); (837, [921]); (881, [880]); (883, [882]);
    (887, [886]); (891, [1021]); (892, [1022]); (893, [1023]); (912, [921; 776; 769]);
    (940, [902]); (941, [904]); (942, [905]); (943, [906]); (944, [933; 776; 769]);
    (945, [913]); (946, [914]); (947, [915]); (948, [916]); (949, [917]); (950, [918]);
    (951, [919]); (952, [920]); (953, [921]); (954, [922]); (955, [923]); (956, [924]);
    (957, [925]); (958, [926]); (959, [927]); (960, [928]); (961, [929]); (962, [931]);
    (963, [931]); (964, [932]); (965, [933]); (966, [934]); (967, [935]); (968, [936]);
    (969, [937]); (970, [938]); (971, [939]); (972, [908]); (973, [910]); (974, [911]);
    (976, [914]); (977, [920]); (981, [934]); (982, [928]); (983, [975]); (985, [984]);
    (987, [986]); (989, [988]); (991, [990]); (993, [992]); (995, [994]); (997, [996]);
    (999, [998]); (1001, [1000]); (1003, [1002]); (1005, [1004]); (1007, [1006]);
    (1008, [922]); (1009, [929]); (1010, [1017]); (1011, [895]); (1013, [917]);
    (1016, [1015]); (1019, [1018]); (1072, [1040]); (1073, [1041]); (1074, [1042]);
    (1075, [1043]); (1076, [1044]); (1077, [1045]); (1078, [1046]); (1079, [1047]);
    (1080, [1048]); (1081, [1049]); (1082, [1050]); (1083, [1051]); (1084, [1052]);
    (1085, [1053]); (1086, [1054]); (1087, [1055]); (1088, [1056]); (1089, [1057]);
    (1090, [1058]); (1091, [1059]); (1092, [1060]); (1093, [1061]); (1094, [1062]);
    (1095, [1063]); (1096, [1064]); (1097, [1065]); (1098, [1066]); (1099, [1067]);
    (1100, [1068]); (1101, [1069]); (1102, [1070]); (1103, [1071]); (1104, [1024]);
    (1105, [1025]); (1106, [1026]); (1107, [1027]); (1108, [1028]); (1109, [1029]);
    (1110, [1030]); (1111, [1031]); (1112, [1032]); (1113, [1033]); (1114, [1034]);
    (1115, [1035]); (1116, [1036]); (1117, [1037]); (1118, [1038]); (1119, [1039]);
    (1121, [1120]); (1123, [1122]); (1125, [1124]); (1127, [1126]); (1129, [1128]);
    (1131, [1130]); (1133, [1132]); (1135, [1134]); (1137, [1136]); (1139, [1138]);
    (1141, [1140]); (1143, [1142]); (1145, [1144]); (1147, [1146]); (1149, [1148]);
    (1151, [1150]); (1153, [1152]); (1163, [1162]); (1165, [1164]); (1167, [1166]);
    (1169, [1168]); (1171, [1170]); (1173, [1172]); (1175, [1174]); (1177, [1176]);
    (1179, [1178]); (1181, [1180]); (1183, [1182]); (1185, [1184]); (1187, [1186]);
    (1189, [1188]); (1191, [1190]); (1193, [1192]); (1195, [1194]); (1197, [1196]);
    (1199, [1198]); (1201, [1200]); (1203, [1202]); (1205, [1204]); (1207, [1206]);
    (1209, [1208]); (1211, [1210]); (1213, [1212]); (1215, [1214]); (1218, [1217]);
    (1220, [1219]); (1222, [1221]); (1224, [1223]); (1226, [1225]); (1228, [1227]);
    (1230, [1229]); (1231, [1216]); (1233, [1232]); (1235, [1234]); (1237, [1236]);
    (1239, [1238]); (1241, [1240]); (1243, [1242]); (1245, [1244]); (1247, [1246]);
    (1249, [1248]); (1251, [1250]); (1253, [1252]); (1255, [1254]); (1257, [1256]);
    (1259, [1258]); (1261, [1260]); (1263, [1262]); (1265, [1264]); (1267, [1266]);
    (1269, [1268]); (1271, [1270]); (1273, [1272]); (1275, [1274]); (1277, [1276]);
    (1279, [1278]); (1281, [1280]); (1283, [1282]); (1285, [1284]); (1287, [1286]);
    (1289, [1288]); (1291, [1290]); (1293, [1292]); (1295, [1294]); (1297, [1296]);
    (1299, [1298]); (1301, [1300]); (1303, [1302]); (1305, [1304]); (1307, [1306]);
    (1309, [1308]); (1311, [1310]); (1313, [1312]); (1315, [1314]); (1317, [1316]);
    (1319, [1318]); (1321, [1320]); (1323, [1322]); (1325, [1324]); (1327, [1326]);
    (1377, [1329]); (1378, [1330]); (1379, [1331]); (1380, [1332]); (1381, [1333]);
    (1382, [1334]); (1383, [1335]); (1384, [1336]); (1385, [1337]); (1386, [1338]);
    (1387, [1339]); (1388, [1340]); (1389, [1341]); (1390, [1342]); (1391, [1343]);
    (1392, [1344]); (1393, [1345]); (1394, [1346]); (1395, [1347]); (1396, [1348]);
    (1397, [1349]); (1398, [1350]); (1399, [1351]); (1400, [1352]); (1401, [1353]);
    (1402, [1354]); (1403, [1355]); (1404, [1356]); (1405, [1357]); (1406, [1358]);
    (1407, [1359]); (1408, [1360]); (1409, [1361]); (1410, [1362]); (1411, [1363]);
    (1412, [1364]); (1413, [1365]); (1414, [1366]); (1415, [1333; 1362]); (4304, [7312]);
    (4305, [7313]); (4306, [7314]); (4307, [7315]); (4308, [7316]); (4309, [7317]);
    (4310, [7318]); (4311, [7319]); (4312, [7320]); (4313, [7321]); (4314, [7322]);
    (4315, [7323]); (4316, [7324]); (4317, [7325]); (4318, [7326]); (4319, [7327]);
    (4320, [7328]); (4321, [7329]); (4322, [7330]); (4323, [7331]); (4324, [7332]);
    (4325, [7333]); (4326, [7334]); (4327, [7335]); (4328, [7336]); (4329, [7337]);
    (4330, [7338]); (4331, [7339]); (4332, [7340]); (4333, [7341]); (4334, [7342]);
    (4335, [7343]); (4336, [7344]); (4337, [7345]); (4338, [7346]); (4339, [7347]);
    (4340, [7348]); (4341, [7349]); (4342, [7350]); (4343, [7351]); (4344, [7352]);
    (4345, [7353]); (4346, [7354]); (4349, [7357]); (4350, [7358]); (4351, [7359]);
    (5112, [5104]); (5113, [5105]); (5114, [5106]); (5115, [5107]); (5116, [5108]);
    (5117, [5109]); (7296, [1042]); (7297, [1044]); (7298, [1054]); (7299, [1057]);
    (7300, [1058]); (7301, [1058]); (7302, [1066]); (7303, [1122]); (7304, [42570]);
    (7545, [42877]); (7549, [11363]); (7566, [42950]); (7681, [7680]); (7683, [7682]);
    (7685, [7684]); (7687, [7686]); (7689, [7688]); (7691, [7690]); (7693, [7692]);
    (7695, [7694]); (7697, [7696]); (7699, [7698]); (7701, [7700]); (7703, [7702]);
    (7705, [7704]); (7707, [7706]); (7709, [7708]); (7711, [7710]); (7713, [7712]);
    (7715, [7714]); (7717, [7716]); (7719, [7718]); (7721, [7720]); (7723, [7722]);
    (7725, [7724]); (7727, [7726]); (7729, [7728]); (7731, [7730]); (7733, [7732]);
    (7735, [7734]); (7737, [7736]); (7739, [7738]); (7741, [7740]); (7743, [7742]);
    (7745, [7744]); (7747, [7746]); (7749, [7748]); (7751, [7750]); (7753, [7752]);
    (7755, [7754]); (7757, [7756]); (7759, [7758]); (7761, [7760]); (7763, [7762]);
    (7765, [7764]); (7767, [7766]); (7769, [7768]); (7771, [7770]); (7773, [7772]);
    (7775, [7774]); (7777, [7776]); (7779, [7778]); (7781, [7780]); (7783, [7782]);
    (7785, [7784]); (7787, [7786]); (7789, [7788]); (7791, [7790]); (7793, [7792]);
    (7795, [7794]); (7797, [7796]); (7799, [7798]); (7801, [7800]); (7803, [7802]);
    (7805, [7804]); (7807, [7806]); (7809, [7808]); (7811, [7810]); (7813, [7812]);
    (7815, [7814]); (7817, [7816]); (7819, [7818]); (7821, [7820]); (7823, [7822]);
    (7825, [7824]); (7827, [7826]); (7829, [7828]); (7830, [72; 817]); (7831, [84; 776]);
    (7832, [87; 778]); (7833, [89; 778]); (7834, [65; 702]); (7835, [7776]);
    (7841, [7840]); (7843, [7842]); (7845, [7844]); (7847, [7846]); (7849, [7848]);
    (7851, [7850]); (7853, [7852]); (7855, [7854]); (7857, [7856]); (7859, [7858]);
    (7861, [7860]); (7863, [7862]); (7865, [7864]); (7867, [7866]); (7869, [7868]);
    (7871, [7870]); (7873, [7872]); (7875, [7874]); (7877, [7876]); (7879, [7878]);
    (7881, [7880]); (7883, [7882]); (7885, [7884]); (7887, [7886]); (7889, [7888]);
    (7891, [7890]); (7893, [7892]); (7895, [7894]); (7897, [7896]); (7899, [7898]);
    (7901, [7900]); (7903, [7902]); (7905, [7904]); (7907, [7906]); (7909, [7908]);
    (7911, [7910]); (7913, [7912]); (7915, [7914]); (7917, [7916]); (7919, [7918]);
    (7921, [7920]); (7923, [7922]); (7925, [7924]); (7927, [7926]); (7929, [7928]);
    (7931, [7930]); (7933, [7932]); (7935, [7934]); (7936, [7944]); (7937, [7945]);
    (7938, [7946]); (7939, [7947]); (7940, [7948]); (7941, [7949]); (7942, [7950]);
    (7943, [7951]); (7952, [7960]); (7953, [7961]); (7954, [7962]); (7955, [7963]);
    (7956, [7964]); (7957, [7965]); (7968, [7976]); (7969, [7977]); (7970, [7978]);
    (7971, [7979]); (7972, [7980]); (7973, [7981]); (7974, [7982]); (7975, [7983]);
    (7984, [7992]); (7985, [7993]); (7986, [7994]); (7987, [7995]); (7988, [7996]);
    (7989, [7997]); (7990, [7998]); (7991, [7999]); (8000, [8008]); (8001, [8009]);
    (8002, [8010]); (8003, [8011]); (8004, [8012]); (8005, [8013]); (8016, [933; 787]);
    (8017, [8025]); (8018, [933; 787; 768]); (8019, [8027]); (8020, [933; 787; 769]);
    (8021, [8029]); (8022, [933; 787; 834]); (8023, [8031]); (8032, [8040]);
    (8033, [8041]); (8034, [8042]); (8035, [8043]); (8036, [8044]); (8037, [8045]);
    (8038, [8046]); (8039, [8047]); (8048, [8122]); (8049, [8123]); (8050, [8136]);
    (8051, [8137]); (8052, [8138]); (8053, [8139]); (8054, [8154]); (8055, [8155]);
    (8056, [8184]); (8057, [8185]); (8058, [8170]); (8059, [8171]); (8060, [8186]);
    (8061, [8187]); (8064, [7944; 921]); (8065, [7945; 921]); (8066, [7946; 921]);
    (8067, [7947; 921]); (8068, [7948; 921]); (8069, [7949; 921]); (8070, [7950; 921]);
    (8071, [7951; 921]); (8072, [7944; 921]); (8073, [7945; 921]); (8074, [7946; 921]);
    (8075, [7947; 921]); (8076, [7948; 921]); (8077, [7949; 921]); (8078, [7950; 921]);
    (8079, [7951; 921]); (8080, [7976; 921]); (8081, [7977; 921]); (8082, [7978; 921]);
    (8083, [7979; 921]); (8084, [7980; 921]); (8085, [7981; 921]); (8086, [7982; 921]);
    (8087, [7983; 921]); (8088, [7976; 921]); (8089, [7977; 921]); (8090, [7978; 921]);
    (8091, [7979; 921]); (8092, [7980; 921]); (8093, [7981; 921]); (8094, [7982; 921]);
    (8095, [7983; 921]); (8096, [8040; 921]); (8097, [8041; 921]); (8098, [8042; 921]);
    (8099, [8043; 921]); (8100, [8044; 921]); (8101, [8045; 921]); (8102, [8046; 921]);
    (8103, [8047; 921]); (8104, [8040; 921]); (8105, [8041; 921]); (8106, [8042; 921]);
    (8107, [8043; 921]); (8108, [8044; 921]); (8109, [8045; 921]); (8110, [8046; 921]);
    (8111, [8047; 921]); (8112, [8120]); (8113, [8121]); (8114, [8122; 921]);
    (8115, [913; 921]); (8116, [902; 921]); (8118, [913; 834]); (8119, [913; 834; 921]);
    (8124, [913; 921]); (8126, [921]); (8130, [8138; 921]); (8131, [919; 921]);
    (8132, [905; 921]); (8134, [919; 834]); (8135, [919; 834; 921]); (8140, [919; 921]);
    (8144, [8152]); (8145, [8153]); (8146, [921; 776; 768]); (8147, [921; 776; 769]);
    (8150, [921; 834]); (8151, [921; 776; 834]); (8160, [8168]); (8161, [8169]);
    (8162, [933; 776; 768]); (8163, [933; 776; 769]); (8164, [929; 787]); (8165, [8172]);
    (8166, [933; 834]); (8167, [933; 776; 834]); (8178, [8186; 921]); (8179, [937; 921]);
    (8180, [911; 921]); (8182, [937; 834]); (8183, [937; 834; 921]); (8188, [937; 921]);
    (8526, [8498]); (8560, [8544]); (8561, [8545]); (8562, [8546]); (8563, [8547]);
    (8564, [8548]); (8565, [8549]); (8566, [8550]); (8567, [8551]); (8568, [8552]);
    (8569, [8553]); (8570, [8554]); (8571, [8555]); (8572, [8556]); (8573, [8557]);
    (8574, [8558]); (8575, [8559]); (8580, [8579]); (9424, [9398]); (9425, [9399]);
    (9426, [9400]); (9427, [9401]); (9428, [9402]); (9429, [9403]); (9430, [9404]);
    (9431, [9405]); (9432, [9406]); (9433, [9407]); (9434, [9408]); (9435, [9409]);
    (9436, [9410]); (9437, [9411]); (9438, [9412]); (9439, [9413]); (9440, [9414]);
    (9441, [9415]); (9442, [9416]); (9443, [9417]); (9444, [9418]); (9445, [9419]);
    (9446, [9420]); (9447, [9421]); (9448, [9422]); (9449, [9423]); (11312, [11264]);
    (11313, [11265]); (11314, [11266]); (11315, [11267]); (11316, [11268]);
    (11317, [11269]); (11318, [11270]); (11319, [11271]); (11320, [11272]);
    (11321, [11273]); (11322, [11274]); (11323, [11275]); (11324, [11276]);
    (11325, [11277]); (11326, [11278]); (11327, [11279]); (11328, [11280]);
    (11329, [11281]); (11330, [11282]); (11331, [11283]); (11332, [11284]);
    (11333, [11285]); (11334, [11286]); (11335, [11287]); (11336, [11288]);
    (11337, [11289]); (11338, [11290]); (11339, [11291]); (11340, [11292]);
    (11341, [11293]); (11342, [11294]); (11343, [11295]); (11344, [11296]);
    (11345, [11297]); (11346, [11298]); (11347, [11299]); (11348, [11300]);
    (11349, [11301]); (11350, [11302]); (11351, [11303]); (11352, [11304]);
    (11353, [11305]); (11354, [11306]); (11355, [11307]); (11356, [11308]);
    (11357, [11309]); (11358, [11310]); (11359, [11311]); (11361, [11360]); (11365, [570]);
    (11366, [574]); (11368, [11367]); (11370, [11369]); (11372, [11371]); (11379, [11378]);
    (11382, [11381]); (11393, [11392]); (11395, [11394]); (11397, [11396]);
    (11399, [11398]); (11401, [11400]); (11403, [11402]); (11405, [11404]);
    (11407, [11406]); (11409, [11408]); (11411, [11410]); (11413, [11412]);
    (11415, [11414]); (11417, [11416]); (11419, [11418]); (11421, [11420]);
    (11423, [11422]); (11425, [11424]); (11427, [11426]); (11429, [11428]);
    (11431, [11430]); (11433, [11432]); (11435, [11434]); (11437, [11436]);
    (11439, [11438]); (11441, [11440]); (11443, [11442]); (11445, [11444]);
    (11447, [11446]); (11449, [11448]); (11451, [11450]); (11453, [11452]);
    (11455, [11454]); (11457, [11456]); (11459, [11458]); (11461, [11460]);
    (11463, [11462]); (11465, [11464]); (11467, [11466]); (11469, [11468]);
    (11471, [11470]); (11473, [11472]); (11475, [11474]); (11477, [11476]);
    (11479, [11478]); (11481, [11480]); (11483, [11482]); (11485, [11484]);
    (11487, [11486]); (11489, [11488]); (11491, [11490]); (11500, [11499]);
    (11502, [11501]); (11507, [11506]); (11520, [4256]); (11521, [4257]); (11522, [4258]);
    (11523, [4259]); (11524, [4260]); (11525, [4261]); (11526, [4262]); (11527, [4263]);
    (11528, [4264]); (11529, [4265]); (11530, [4266]); (11531, [4267]); (11532, [4268]);
    (11533, [4269]); (11534, [4270]); (11535, [4271]); (11536, [4272]); (11537, [4273]);
    (11538, [4274]); (11539, [4275]); (11540, [4276]); (11541, [4277]); (11542, [4278]);
    (11543, [4279]); (11544, [4280]); (11545, [4281]); (11546, [4282]); (11547, [4283]);
    (11548, [4284]); (11549, [4285]); (11550, [4286]); (11551, [4287]); (11552, [4288]);
    (11553, [4289]); (11554, [4290]); (11555, [4291]); (11556, [4292]); (11557, [4293]);
    (11559, [4295]); (11565, [4301]); (42561, [42560]); (42563, [42562]); (42565, [42564]);
    (42567, [42566]); (42569, [42568]); (42571, [42570]); (42573, [42572]);
    (42575, [42574]); (42577, [42576]); (42579, [42578]); (42581, [42580]);
    (42583, [42582]); (42585, [42584]); (42587, [42586]); (42589, [42588]);
    (42591, [42590]); (42593, [42592]); (42595, [42594]); (42597, [42596]);
    (42599, [42598]); (42601, [42600]); (42603, [42602]); (42605, [42604]);
    (42625, [42624]); (42627, [42626]); (42629, [42628]); (42631, [42630]);
    (42633, [42632]); (42635, [42634]); (42637, [42636]); (42639, [42638]);
    (42641, [42640]); (42643, [42642]); (42645, [42644]); (42647, [42646]);
    (42649, [42648]); (42651, [42650]); (42787, [42786]); (42789, [42788]);
    (42791, [42790]); (42793, [42792]); (42795, [42794]); (42797, [42796]);
    (42799, [42798]); (42803, [42802]); (42805, [42804]); (42807, [42806]);
    (42809, [42808]); (42811, [42810]); (42813, [42812]); (42815, [42814]);
    (42817, [42816]); (42819, [42818]); (42821, [42820]); (42823, [42822]);
    (42825, [42824]); (42827, [42826]); (42829, [42828]); (42831, [42830]);
    (42833, [42832]); (42835, [42834]); (42837, [42836]); (42839, [42838]);
    (42841, [42840]); (42843, [42842]); (42845, [42844]); (42847, [42846]);
    (42849, [42848]); (42851, [42850]); (42853, [42852]); (42855, [42854]);
    (42857, [42856]); (42859, [42858]); (42861, [42860]); (42863, [42862]);
    (42874, [42873]); (42876, [42875]); (42879, [42878]); (42881, [42880]);
    (42883, [42882]); (42885, [42884]); (42887, [42886]); (42892, [42891]);
    (42897, [42896]); (42899, [42898]); (42900, [42948]); (42903, [42902]);
    (42905, [42904]); (42907, [42906]); (42909, [42908]); (42911, [42910]);
    (42913, [42912]); (42915, [42914]); (42917, [42916]); (42919, [42918]);
    (42921, [42920]); (42933, [42932]); (42935, [42934]); (42937, [42936]);
    (42939, [42938]); (42941, [42940]); (42943, [42942]); (42945, [42944]);
    (42947, [42946]); (42952, [42951]); (42954, [42953]); (42961, [42960]);
    (42967, [42966]); (42969, [42968]); (42998, [42997]); (43859, [42931]);
    (43888, [5024]); (43889, [5025]); (43890, [5026]); (43891, [5027]); (43892, [5028]);
    (43893, [5029]); (43894, [5030]); (43895, [5031]); (43896, [5032]); (43897, [5033]);
    (43898, [5034]); (43899, [5035]); (43900, [5036]); (43901, [5037]); (43902, [5038]);
    (43903, [5039]); (43904, [5040]); (43905, [5041]); (43906, [5042]); (43907, [5043]);
    (43908, [5044]); (43909, [5045]); (43910, [5046]); (43911, [5047]); (43912, [5048]);
    (43913, [5049]); (43914, [5050]); (43915, [5051]); (43916, [5052]); (43917, [5053]);
    (43918, [5054]); (43919, [5055]); (43920, [5056]); (43921, [5057]); (43922, [5058]);
    (43923, [5059]); (43924, [5060]); (43925, [5061]); (43926, [5062]); (43927, [5063]);
    (43928, [5064]); (43929, [5065]); (43930, [5066]); (43931, [5067]); (43932, [5068]);
    (43933, [5069]); (43934, [5070]); (43935, [5071]); (43936, [5072]); (43937, [5073]);
    (43938, [5074]); (43939, [5075]); (43940, [5076]); (43941, [5077]); (43942, [5078]);
    (43943, [5079]); (43944, [5080]); (43945, [5081]); (43946, [5082]); (43947, [5083]);
    (43948, [5084]); (43949, [5085]); (43950, [5086]); (43951, [5087]); (43952, [5088]);
    (43953, [5089]); (43954, [5090]); (43955, [5091]); (43956, [5092]); (43957, [5093]);
    (43958, [5094]); (43959, [5095]); (43960, [5096]); (43961, [5097]); (43962, [5098]);
    (43963, [5099]); (43964, [5100]); (43965, [5101]); (43966, [5102]); (43967, [5103]);
    (64256, [70; 70]); (64257, [70; 73]); (64258, [70; 76]); (64259, [70; 70; 73]);
    (64260, [70; 70; 76]); (64261, [83; 84]); (64262, [83; 84]); (64275, [1348; 1350]);
    (64276, [1348; 1333]); (64277, [1348; 1339]); (64278, [1358; 1350]);
    (64279, [1348; 1341]); (65345, [65313]); (65346, [65314]); (65347, [65315]);
    (65348, [65316]); (65349, [65317]); (65350, [65318]); (65351, [65319]);
    (65352, [65320]); (65353, [65321]); (65354, [65322]); (65355, [65323]);
    (65356, [65324]); (65357, [65325]); (65358, [65326]); (65359, [65327]);
    (65360, [65328]); (65361, [65329]); (65362, [65330]); (65363, [65331]);
    (65364, [65332]); (65365, [65333]); (65366, [65334]); (65367, [65335]);
    (65368, [65336]); (65369, [65337]); (65370, [65338]); (66600, [66560]);
    (66601, [66561]); (66602, [66562]); (66603, [66563]); (66604, [66564]);
    (66605, [66565]); (66606, [66566]); (66607, [66567]); (66608, [66568]);
    (66609, [66569]); (66610, [66570]); (66611, [66571]); (66612, [66572]);
    (66613, [66573]); (66614, [66574]); (66615, [66575]); (66616, [66576]);
    (66617, [66577]); (66618, [66578]); (66619, [66579]); (66620, [66580]);
    (66621, [66581]); (66622, [66582]); (66623, [66583]); (66624, [66584]);
    (66625, [66585]); (66626, [66586]); (66627, [66587]); (66628, [66588]);
    (66629, [66589]); (66630, [66590]); (66631, [66591]); (66632, [66592]);
    (66633, [66593]); (66634, [66594]); (66635, [66595]); (66636, [66596]);
    (66637, [66597]); (66638, [66598]); (66639, [66599]); (66776, [66736]);
    (66777, [66737]); (66778, [66738]); (66779, [66739]); (66780, [66740]);
    (66781, [66741]); (66782, [66742]); (66783, [66743]); (66784, [66744]);
    (66785, [66745]); (66786, [66746]); (66787, [66747]); (66788, [66748]);
    (66789, [66749]); (66790, [66750]); (66791, [66751]); (66792, [66752]);
    (66793, [66753]); (66794, [66754]); (66795, [66755]); (66796, [66756]);
    (66797, [66757]); (66798, [66758]); (66799, [66759]); (66800, [66760]);
    (66801, [66761]); (66802, [66762]); (66803, [66763]); (66804, [66764]);
    (66805, [66765]); (66806, [66766]); (66807, [66767]); (66808, [66768]);
    (66809, [66769]); (66810, [66770]); (66811, [66771]); (66967, [66928]);
    (66968, [66929]); (66969, [66930]); (66970, [66931]); (66971, [66932]);
    (66972, [66933]); (66973, [66934]); (66974, [66935]); (66975, [66936]);
    (66976, [66937]); (66977, [66938]); (66979, [66940]); (66980, [66941]);
    (66981, [66942]); (66982, [66943]); (66983, [66944]); (66984, [66945]);
    (66985, [66946]); (66986, [66947]); (66987, [66948]); (66988, [66949]);
    (66989, [66950]); (66990, [66951]); (66991, [66952]); (66992, [66953]);
    (66993, [66954]); (66995, [66956]); (66996, [66957]); (66997, [66958]);
    (66998, [66959]); (66999, [66960]); (67000, [66961]); (67001, [66962]);
    (67003, [66964]); (67004, [66965]); (68800, [68736]); (68801, [68737]);
    (68802, [68738]); (68803, [68739]); (68804, [68740]); (68805, [68741]);
    (68806, [68742]); (68807, [68743]); (68808, [68744]); (68809, [68745]);
    (68810, [68746]); (68811, [68747]); (68812, [68748]); (68813, [68749]);
    (68814, [68750]); (68815, [68751]); (68816, [68752]); (68817, [68753]);
    (68818, [68754]); (68819, [68755]); (68820, [68756]); (68821, [68757]);
    (68822, [68758]); (68823, [68759]); (68824, [68760]); (68825, [68761]);
    (68826, [68762]); (68827, [68763]); (68828, [68764]); (68829, [68765]);
    (68830, [68766]); (68831, [68767]); (68832, [68768]); (68833, [68769]);
    (68834, [68770]); (68835, [68771]); (68836, [68772]); (68837, [68773]);
    (68838, [68774]); (68839, [68775]); (68840, [68776]); (68841, [68777]);
    (68842, [68778]); (68843, [68779]); (68844, [68780]); (68845, [68781]);
    (68846, [68782]); (68847, [68783]); (68848, [68784]); (68849, [68785]);
    (68850, [68786]); (71872, [71840]); (71873, [71841]); (71874, [71842]);
    (71875, [71843]); (71876, [71844]); (71877, [71845]); (71878, [71846]);
    (71879, [71847]); (71880, [71848]); (71881, [71849]); (71882, [71850]);
    (71883, [71851]); (71884, [71852]); (71885, [71853]); (71886, [71854]);
    (71887, [71855]); (71888, [71856]); (71889, [71857]); (71890, [71858]);
    (71891, [71859]); (71892, [71860]); (71893, [71861]); (71894, [71862]);
    (71895, [71863]); (71896, [71864]); (71897, [71865]); (71898, [71866]);
    (71899, [71867]); (71900, [71868]); (71901, [71869]); (71902, [71870]);
    (71903, [71871]); (93792, [93760]); (93793, [93761]); (93794, [93762]);
    (93795, [93763]); (93796, [93764]); (93797, [93765]); (93798, [93766]);
    (93799, [93767]); (93800, [93768]); (93801, [93769]); (93802, [93770]);
    (93803, [93771]); (93804, [93772]); (93805, [93773]); (93806, [93774]);
    (93807, [93775]); (93808, [93776]); (93809, [93777]); (93810, [93778]);
    (93811, [93779]); (93812, [93780]); (93813, [93781]); (93814, [93782]);
    (93815, [93783]); (93816, [93784]); (93817, [93785]); (93818, [93786]);
    (93819, [93787]); (93820, [93788]); (93821, [93789]); (93822, [93790]);
    (93823, [93791]); (125218, [125184]); (125219, [125185]); (125220, [125186]);
    (125221, [125187]); (125222, [125188]); (125223, [125189]); (125224, [125190]);
    (125225, [125191]); (125226, [125192]); (125227, [125193]); (125228, [125194]);
    (125229, [125195]); (125230, [125196]); (125231, [125197]); (125232, [125198]);
    (125233, [125199]); (125234, [125200]); (125235, [125201]); (125236, [125202]);
    (125237, [125203]); (125238, [125204]); (125239, [125205]); (125240, [125206]);
    (125241, [125207]); (125242, [125208]); (125243, [125209]); (125244, [125210]);
    (125245, [125211]); (125246, [125212]); (125247, [125213]); (125248, [125214]);
    (125249, [125215]); (125250, [125216]); (125251, [125217]) ].

(** The lowercase mappings of the code points above U+007F. *)
Definition lowerTable : list (Z * list Z) :=
  [(192, [224]); (193, [225]); (194, [226]); (195, [227]); (196, [228]); (197, [229]);
    (198, [230]); (199, [231]); (200, [232]); (201, [233]); (202, [234]); (203, [235]);
    (204, [236]); (205, [237]); (206, [238]); (207, [239]); (208, [240]); (209, [241]);
    (210, [242]); (211, [243]); (212, [244]); (213, [245]); (214, [246]); (216, [248]);
    (217, [249]); (218, [250]); (219, [251]); (220, [252]); (221, [253]); (222, [254]);
    (256, [257]); (258, [259]); (260, [261]); (262, [263]); (264, [265]); (266, [267]);
    (268, [269]); (270, [271]); (272, [273]); (274, [275]); (276, [277]); (278, [279]);
    (280, [281]); (282, [283]); (284, [285]); (286, [287]); (288, [289]); (290, [291]);
    (292, [293]); (294, [295]); (296, [297]); (298, [299]); (300, [301]); (302, [303]);
    (304, [105; 775]); (306, [307]); (308, [309]); (310, [311]); (313, [314]);
    (315, [316]); (317, [318]); (319, [320]); (321, [322]); (323, [324]); (325, [326]);
    (327, [328]); (330, [331]); (332, [333]); (334, [335]); (336, [337]); (338, [339]);
    (340, [341]); (342, [343]); (344, [345]); (346, [347]); (348, [349]); (350, [351]);
    (352, [353]); (354, [355]); (356, [357]); (358, [359]); (360, [361]); (362, [363]);
    (364, [365]); (366, [367]); (368, [369]); (370, [371]); (372, [373]); (374, [375]);
    (376, [255]); (377, [378]); (379, [380]); (381, [382]); (385, [595]); (386, [387]);
    (388, [389]); (390, [596]); (391, [392]); (393, [598]); (394, [599]); (395, [396]);
    (398, [477]); (399, [601]); (400, [603]); (401, [402]); (403, [608]); (404, [611]);
    (406, [617]); (407, [616]); (408, [409]); (412, [623]); (413, [626]); (415, [629]);
    (416, [417]); (418, [419]); (420, [421]); (422, [640]); (423, [424]); (425, [643]);
    (428, [429]); (430, [648]); (431, [432]); (433, [650]); (434, [651]); (435, [436]);
    (437, [438]); (439, [658]); (440, [441]); (444, [445]); (452, [454]); (453, [454]);
    (455, [457]); (456, [457]); (458, [460]); (459, [460]); (461, [462]); (463, [464]);
    (465, [466]); (467, [468]); (469, [470]); (471, [472]); (473, [474]); (475, [476]);
    (478, [479]); (480, [481]); (482, [483]); (484, [485]); (486, [487]); (488, [489]);
    (490, [491]); (492, [493]); (494, [495]); (497, [499]); (498, [499]); (500, [501]);
    (502, [405]); (503, [447]); (504, [505]); (506, [507]); (508, [509]); (510, [511]);
    (512, [513]); (514, [515]); (516, [517]); (518, [519]); (520, [521]); (522, [523]);
    (524, [525]); (526, [527]); (528, [529]); (530, [531]); (532, [533]); (534, [535]);
    (536, [537]); (538, [539]); (540, [541]); (542, [543]); (544, [414]); (546, [547]);
    (548, [549]); (550, [551]); (552, [553]); (554, [555]); (556, [557]); (558, [559]);
    (560, [561]); (562, [563]); (570, [11365]); (571, [572]); (573, [410]); (574, [11366]);
    (577, [578]); (579, [384]); (580, [649]); (581, [652]); (582, [583]); (584, [585]);
    (586, [587]); (588, [589]); (590, [591]); (880, [881]); (882, [883]); (886, [887]);
    (895, [1011]); (902, [940]); (904, [941]); (905, [942]); (906, [943]); (908, [972]);
    (910, [973]); (911, [974]); (913, [945]); (914, [946]); (915, [947]); (916, [948]);
    (917, [949]); (918, [950]); (919, [951]); (920, [952]); (921, [953]); (922, [954]);
    (923, [955]); (924, [956]); (925, [957]); (926, [958]); (927, [959]); (928, [960]);
    (929, [961]); (931, [963]); (932, [964]); (933, [965]); (934, [966]); (935, [967]);
    (936, [968]); (937, [969]); (938, [970]); (939, [971]); (975, [983]); (984, [985]);
    (986, [987]); (988, [989]); (990, [991]); (992, [993]); (994, [995]); (996, [997]);
    (998, [999]); (1000, [1001]); (1002, [1003]); (1004, [1005]); (1006, [1007]);
    (1012, [952]); (1015, [1016]); (1017, [1010]); (1018, [1019]); (1021, [891]);
    (1022, [892]); (1023, [893]); (1024, [1104]); (1025, [1105]); (1026, [1106]);
    (1027, [1107]); (1028, [1108]); (1029, [1109]); (1030, [1110]); (1031, [1111]);
    (1032, [1112]); (1033, [1113]); (1034, [1114]); (1035, [1115]); (1036, [1116]);
    (1037, [1117]); (1038, [1118]); (1039, [1119]); (1040, [1072]); (1041, [1073]);
    (1042, [1074]); (1043, [1075]); (1044, [1076]); (1045, [1077]); (1046, [1078]);
    (1047, [1079]); (1048, [1080]); (1049, [1081]); (1050, [1082]); (1051, [1083]);
    (1052, [1084]); (1053, [1085]); (1054, [1086]); (1055, [1087]); (1056, [1088]);
    (1057, [1089]); (1058, [1090]); (1059, [1091]); (1060, [1092]); (1061, [1093]);
    (1062, [1094]); (1063, [1095]); (1064, [1096]); (1065, [1097]); (1066, [1098]);
    (1067, [1099]); (1068, [1100]); (1069, [1101]); (1070, [1102]); (1071, [1103]);
    (1120, [1121]); (1122, [1123]); (1124, [1125]); (1126, [1127]); (1128, [1129]);
    (1130, [1131]); (1132, [1133]); (1134, [1135]); (1136, [1137]); (1138, [1139]);
    (1140, [1141]); (1142, [1143]); (1144, [1145]); (1146, [1147]); (1148, [1149]);
    (1150, [1151]); (1152, [1153]); (1162, [1163]); (1164, [1165]); (1166, [1167]);
    (1168, [1169]); (1170, [1171]); (1172, [1173]); (1174, [1175]); (1176, [1177]);
    (1178, [1179]); (1180, [1181]); (1182, [1183]); (1184, [1185]); (1186, [1187]);
    (1188, [1189]); (1190, [1191]); (1192, [1193]); (1194, [1195]); (1196, [1197]);
    (1198, [1199]); (1200, [1201]); (1202, [1203]); (1204, [1205]); (1206, [1207]);
    (1208, [1209]); (1210, [1211]); (1212, [1213]); (1214, [1215]); (1216, [1231]);
    (1217, [1218]); (1219, [1220]); (1221, [1222]); (1223, [1224]); (1225, [1226]);
    (1227, [1228]); (1229, [1230]); (1232, [1233]); (1234, [1235]); (1236, [1237]);
    (1238, [1239]); (1240, [1241]); (1242, [1243]); (1244, [1245]); (1246, [1247]);
    (1248, [1249]); (1250, [1251]); (1252, [1253]); (1254, [1255]); (1256, [1257]);
    (1258, [1259]); (1260, [1261]); (1262, [1263]); (1264, [1265]); (1266, [1267]);
    (1268, [1269]); (1270, [1271]); (1272, [1273]); (1274, [1275]); (1276, [1277]);
    (1278, [1279]); (1280, [1281]); (1282, [1283]); (1284, [1285]); (1286, [1287]);
    (1288, [1289]); (1290, [1291]); (1292, [1293]); (1294, [1295]); (1296, [1297]);
    (1298, [1299]); (1300, [1301]); (1302, [1303]); (1304, [1305]); (1306, [1307]);
    (1308, [1309]); (1310, [1311]); (1312, [1313]); (1314, [1315]); (1316, [1317]);
    (1318, [1319]); (1320, [1321]); (1322, [1323]); (1324, [1325]); (1326, [1327]);
    (1329, [1377]); (1330, [1378]); (1331, [1379]); (1332, [1380]); (1333, [1381]);
    (1334, [1382]); (1335, [1383]); (1336, [1384]); (1337, [1385]); (1338, [1386]);
    (1339, [1387]); (1340, [1388]); (1341, [1389]); (1342, [1390]); (1343, [1391]);
    (1344, [1392]); (1345, [1393]); (1346, [1394]); (1347, [1395]); (1348, [1396]);
    (1349, [1397]); (1350, [1398]); (1351, [1399]); (1352, [1400]); (1353, [1401]);
    (1354, [1402]); (1355, [1403]); (1356, [1404]); (1357, [1405]); (1358, [1406]);
    (1359, [1407]); (1360, [1408]); (1361, [1409]); (1362, [1410]); (1363, [1411]);
    (1364, [1412]); (1365, [1413]); (1366, [1414]); (4256, [11520]); (4257, [11521]);
    (4258, [11522]); (4259, [11523]); (4260, [11524]); (4261, [11525]); (4262, [11526]);
    (4263, [11527]); (4264, [11528]); (4265, [11529]); (4266, [11530]); (4267, [11531]);
    (4268, [11532]); (4269, [11533]); (4270, [11534]); (4271, [11535]); (4272, [11536]);
    (4273, [11537]); (4274, [11538]); (4275, [11539]); (4276, [11540]); (4277, [11541]);
    (4278, [11542]); (4279, [11543]); (4280, [11544]); (4281, [11545]); (4282, [11546]);
    (4283, [11547]); (4284, [11548]); (4285, [11549]); (4286, [11550]); (4287, [11551]);
    (4288, [11552]); (4289, [11553]); (4290, [11554]); (4291, [11555]); (4292, [11556]);
    (4293, [11557]); (4295, [11559]); (4301, [11565]); (5024, [43888]); (5025, [43889]);
    (5026, [43890]); (5027, [43891]); (5028, [43892]); (5029, [43893]); (5030, [43894]);
    (5031, [43895]); (5032, [43896]); (5033, [43897]); (5034, [43898]); (5035, [43899]);
    (5036, [43900]); (5037, [43901]); (5038, [43902]); (5039, [43903]); (5040, [43904]);
    (5041, [43905]); (5042, [43906]); (5043, [43907]); (5044, [43908]); (5045, [43909]);
    (5046, [43910]); (5047, [43911]); (5048, [43912]); (5049, [43913]); (5050, [43914]);
    (5051, [43915]); (5052, [43916]); (5053, [43917]); (5054, [43918]); (5055, [43919]);
    (5056, [43920]); (5057, [43921]); (5058, [43922]); (5059, [43923]); (5060, [43924]);
    (5061, [43925]); (5062, [43926]); (5063, [43927]); (5064, [43928]); (5065, [43929]);
    (5066, [43930]); (5067, [43931]); (5068, [43932]); (5069, [43933]); (5070, [43934]);
    (5071, [43935]); (5072, [43936]); (5073, [43937]); (5074, [43938]); (5075, [43939]);
    (5076, [43940]); (5077, [43941]); (5078, [43942]); (5079, [43943]); (5080, [43944]);
    (5081, [43945]); (5082, [43946]); (5083, [43947]); (5084, [43948]); (5085, [43949]);
    (5086, [43950]); (5087, [43951]); (5088, [43952]); (5089, [43953]); (5090, [43954]);
    (5091, [43955]); (5092, [43956]); (5093, [43957]); (5094, [43958]); (5095, [43959]);
    (5096, [43960]); (5097, [43961]); (5098, [43962]); (5099, [43963]); (5100, [43964]);
    (5101, [43965]); (5102, [43966]); (5103, [43967]); (5104, [5112]); (5105, [5113]);
    (5106, [5114]); (5107, [5115]); (5108, [5116]); (5109, [5117]); (7312, [4304]);
    (7313, [4305]); (7314, [4306]); (7315, [4307]); (7316, [4308]); (7317, [4309]);
    (7318, [4310]); (7319, [4311]); (7320, [4312]); (7321, [4313]); (7322, [4314]);
    (7323, [4315]); (7324, [4316]); (7325, [4317]); (7326, [4318]); (7327, [4319]);
    (7328, [4320]); (7329, [4321]); (7330, [4322]); (7331, [4323]); (7332, [4324]);
    (7333, [4325]); (7334, [4326]); (7335, [4327]); (7336, [4328]); (7337, [4329]);
    (7338, [4330]); (7339, [4331]); (7340, [4332]); (7341, [4333]); (7342, [4334]);
    (7343, [4335]); (7344, [4336]); (7345, [4337]); (7346, [4338]); (7347, [4339]);
    (7348, [4340]); (7349, [4341]); (7350, [4342]); (7351, [4343]); (7352, [4344]);
    (7353, [4345]); (7354, [4346]); (7357, [4349]); (7358, [4350]); (7359, [4351]);
    (7680, [7681]); (7682, [7683]); (7684, [7685]); (7686, [7687]); (7688, [7689]);
    (7690, [7691]); (7692, [7693]); (7694, [7695]); (7696, [7697]); (7698, [7699]);
    (7700, [7701]); (7702, [7703]); (7704, [7705]); (7706, [7707]); (7708, [7709]);
    (7710, [7711]); (7712, [7713]); (7714, [7715]); (7716, [7717]); (7718, [7719]);
    (7720, [7721]); (7722, [7723]); (7724, [7725]); (7726, [7727]); (7728, [7729]);
    (7730, [7731]); (7732, [7733]); (7734, [7735]); (7736, [7737]); (7738, [7739]);
    (7740, [7741]); (7742, [7743]); (7744, [7745]); (7746, [7747]); (7748, [7749]);
    (7750, [7751]); (7752, [7753]); (7754, [7755]); (7756, [7757]); (7758, [7759]);
    (7760, [7761]); (7762, [7763]); (7764, [7765]); (7766, [7767]); (7768, [7769]);
    (7770, [7771]); (7772, [7773]); (7774, [7775]); (7776, [7777]); (7778, [7779]);
    (7780, [7781]); (7782, [7783]); (7784, [7785]); (7786, [7787]); (7788, [7789]);
    (7790, [7791]); (7792, [7793]); (7794, [7795]); (7796, [7797]); (7798, [7799]);
    (7800, [7801]); (7802, [7803]); (7804, [7805]); (7806, [7807]); (7808, [7809]);
    (7810, [7811]); (7812, [7813]); (7814, [7815]); (7816, [7817]); (7818, [7819]);
    (7820, [7821]); (7822, [7823]); (7824, [7825]); (7826, [7827]); (7828, [7829]);
    (7838, [223]); (7840, [7841]); (7842, [7843]); (7844, [7845]); (7846, [7847]);
    (7848, [7849]); (7850, [7851]); (7852, [7853]); (7854, [7855]); (7856, [7857]);
    (7858, [7859]); (7860, [7861]); (7862, [7863]); (7864, [7865]); (7866, [7867]);
    (7868, [7869]); (7870, [7871]); (7872, [7873]); (7874, [7875]); (7876, [7877]);
    (7878, [7879]); (7880, [7881]); (7882, [7883]); (7884, [7885]); (7886, [7887]);
    (7888, [7889]); (7890, [7891]); (7892, [7893]); (7894, [7895]); (7896, [7897]);
    (7898, [7899]); (7900, [7901]); (7902, [7903]); (7904, [7905]); (7906, [7907]);
    (7908, [7909]); (7910, [7911]); (7912, [7913]); (7914, [7915]); (7916, [7917]);
    (7918, [7919]); (7920, [7921]); (7922, [7923]); (7924, [7925]); (7926, [7927]);
    (7928, [7929]); (7930, [7931]); (7932, [7933]); (7934, [7935]); (7944, [7936]);
    (7945, [7937]); (7946, [7938]); (7947, [7939]); (7948, [7940]); (7949, [7941]);
    (7950, [7942]); (7951, [7943]); (7960, [7952]); (7961, [7953]); (7962, [7954]);
    (7963, [7955]); (7964, [7956]); (7965, [7957]); (7976, [7968]); (7977, [7969]);
    (7978, [7970]); (7979, [7971]); (7980, [7972]); (7981, [7973]); (7982, [7974]);
    (7983, [7975]); (7992, [7984]); (7993, [7985]); (7994, [7986]); (7995, [7987]);
    (7996, [7988]); (7997, [7989]); (7998, [7990]); (7999, [7991]); (8008, [8000]);
    (8009, [8001]); (8010, [8002]); (8011, [8003]); (8012, [8004]); (8013, [8005]);
    (8025, [8017]); (8027, [8019]); (8029, [8021]); (8031, [8023]); (8040, [8032]);
    (8041, [8033]); (8042, [8034]); (8043, [8035]); (8044, [8036]); (8045, [8037]);
    (8046, [8038]); (8047, [8039]); (8072, [8064]); (8073, [8065]); (8074, [8066]);
    (8075, [8067]); (8076, [8068]); (8077, [8069]); (8078, [8070]); (8079, [8071]);
    (8088, [8080]); (8089, [8081]); (8090, [8082]); (8091, [8083]); (8092, [8084]);
    (8093, [8085]); (8094, [8086]); (8095, [8087]); (8104, [8096]); (8105, [8097]);
    (8106, [8098]); (8107, [8099]); (8108, [8100]); (8109, [8101]); (8110, [8102]);
    (8111, [8103]); (8120, [8112]); (8121, [8113]); (8122, [8048]); (8123, [8049]);
    (8124, [8115]); (8136, [8050]); (8137, [8051]); (8138, [8052]); (8139, [8053]);
    (8140, [8131]); (8152, [8144]); (8153, [8145]); (8154, [8054]); (8155, [8055]);
    (8168, [8160]); (8169, [8161]); (8170, [8058]); (8171, [8059]); (8172, [8165]);
    (8184, [8056]); (8185, [8057]); (8186, [8060]); (8187, [8061]); (8188, [8179]);
    (8486, [969]); (8490, [107]); (8491, [229]); (8498, [8526]); (8544, [8560]);
    (8545, [8561]); (8546, [8562]); (8547, [8563]); (8548, [8564]); (8549, [8565]);
    (8550, [8566]); (8551, [8567]); (8552, [8568]); (8553, [8569]); (8554, [8570]);
    (8555, [8571]); (8556, [8572]); (8557, [8573]); (8558, [8574]); (8559, [8575]);
    (8579, [8580]); (9398, [9424]); (9399, [9425]); (9400, [9426]); (9401, [9427]);
    (9402, [9428]); (9403, [9429]); (9404, [9430]); (9405, [9431]); (9406, [9432]);
    (9407, [9433]); (9408, [9434]); (9409, [9435]); (9410, [9436]); (9411, [9437]);
    (9412, [9438]); (9413, [9439]); (9414, [9440]); (9415, [9441]); (9416, [9442]);
    (9417, [9443]); (9418, [9444]); (9419, [9445]); (9420, [9446]); (9421, [9447]);
    (9422, [9448]); (9423, [9449]); (11264, [11312]); (11265, [11313]); (11266, [11314]);
    (11267, [11315]); (11268, [11316]); (11269, [11317]); (11270, [11318]);
    (11271, [11319]); (11272, [11320]); (11273, [11321]); (11274, [11322]);
    (11275, [11323]); (11276, [11324]); (11277, [11325]); (11278, [11326]);
    (11279, [11327]); (11280, [11328]); (11281, [11329]); (11282, [11330]);
    (11283, [11331]); (11284, [11332]); (11285, [11333]); (11286, [11334]);
    (11287, [11335]); (11288, [11336]); (11289, [11337]); (11290, [11338]);
    (11291, [11339]); (11292, [11340]); (11293, [11341]); (11294, [11342]);
    (11295, [11343]); (11296, [11344]); (11297, [11345]); (11298, [11346]);
    (11299, [11347]); (11300, [11348]); (11301, [11349]); (11302, [11350]);
    (11303, [11351]); (11304, [11352]); (11305, [11353]); (11306, [11354]);
    (11307, [11355]); (11308, [11356]); (11309, [11357]); (11310, [11358]);
    (11311, [11359]); (11360, [11361]); (11362, [619]); (11363, [7549]); (11364, [637]);
    (11367, [11368]); (11369, [11370]); (11371, [11372]); (11373, [593]); (11374, [625]);
    (11375, [592]); (11376, [594]); (11378, [11379]); (11381, [11382]); (11390, [575]);
    (11391, [576]); (11392, [11393]); (11394, [11395]); (11396, [11397]); (11398, [11399]);
    (11400, [11401]); (11402, [11403]); (11404, [11405]); (11406, [11407]);
    (11408, [11409]); (11410, [11411]); (11412, [11413]); (11414, [11415]);
    (11416, [11417]); (11418, [11419]); (11420, [11421]); (11422, [11423]);
    (11424, [11425]); (11426, [11427]); (11428, [11429]); (11430, [11431]);
    (11432, [11433]); (11434, [11435]); (11436, [11437]); (11438, [11439]);
    (11440, [11441]); (11442, [11443]); (11444, [11445]); (11446, [11447]);
    (11448, [11449]); (11450, [11451]); (11452, [11453]); (11454, [11455]);
    (11456, [11457]); (11458, [11459]); (11460, [11461]); (11462, [11463]);
    (11464, [11465]); (11466, [11467]); (11468, [11469]); (11470, [11471]);
    (11472, [11473]); (11474, [11475]); (11476, [11477]); (11478, [11479]);
    (11480, [11481]); (11482, [11483]); (11484, [11485]); (11486, [11487]);
    (11488, [11489]); (11490, [11491]); (11499, [11500]); (11501, [11502]);
    (11506, [11507]); (42560, [42561]); (42562, [42563]); (42564, [42565]);
    (42566, [42567]); (42568, [42569]); (42570, [42571]); (42572, [42573]);
    (42574, [42575]); (42576, [42577]); (42578, [42579]); (42580, [42581]);
    (42582, [42583]); (42584, [42585]); (42586, [42587]); (42588, [42589]);
    (42590, [42591]); (42592, [42593]); (42594, [42595]); (42596, [42597]);
    (42598, [42599]); (42600, [42601]); (42602, [42603]); (42604, [42605]);
    (42624, [42625]); (42626, [42627]); (42628, [42629]); (42630, [42631]);
    (42632, [42633]); (42634, [42635]); (42636, [42637]); (42638, [42639]);
    (42640, [42641]); (42642, [42643]); (42644, [42645]); (42646, [42647]);
    (42648, [42649]); (42650, [42651]); (42786, [42787]); (42788, [42789]);
    (42790, [42791]); (42792, [42793]); (42794, [42795]); (42796, [42797]);
    (42798, [42799]); (42802, [42803]); (42804, [42805]); (42806, [42807]);
    (42808, [42809]); (42810, [42811]); (42812, [42813]); (42814, [42815]);
    (42816, [42817]); (42818, [42819]); (42820, [42821]); (42822, [42823]);
    (42824, [42825]); (42826, [42827]); (42828, [42829]); (42830, [42831]);
    (42832, [42833]); (42834, [42835]); (42836, [42837]); (42838, [42839]);
    (42840, [42841]); (42842, [42843]); (42844, [42845]); (42846, [42847]);
    (42848, [42849]); (42850, [42851]); (42852, [42853]); (42854, [42855]);
    (42856, [42857]); (42858, [42859]); (42860, [42861]); (42862, [42863]);
    (42873, [42874]); (42875, [42876]); (42877, [7545]); (42878, [42879]);
    (42880, [42881]); (42882, [42883]); (42884, [42885]); (42886, [42887]);
    (42891, [42892]); (42893, [613]); (42896, [42897]); (42898, [42899]); (42902, [42903]);
    (42904, [42905]); (42906, [42907]); (42908, [42909]); (42910, [42911]);
    (42912, [42913]); (42914, [42915]); (42916, [42917]); (42918, [42919]);
    (42920, [42921]); (42922, [614]); (42923, [604]); (42924, [609]); (42925, [620]);
    (42926, [618]); (42928, [670]); (42929, [647]); (42930, [669]); (42931, [43859]);
    (42932, [42933]); (42934, [42935]); (42936, [42937]); (42938, [42939]);
    (42940, [42941]); (42942, [42943]); (42944, [42945]); (42946, [42947]);
    (42948, [42900]); (42949, [642]); (42950, [7566]); (42951, [42952]); (42953, [42954]);
    (42960, [42961]); (42966, [42967]); (42968, [42969]); (42997, [42998]);
    (65313, [65345]); (65314, [65346]); (65315, [65347]); (65316, [65348]);
    (65317, [65349]); (65318, [65350]); (65319, [65351]); (65320, [65352]);
    (65321, [65353]); (65322, [65354]); (65323, [65355]); (65324, [65356]);
    (65325, [65357]); (65326, [65358]); (65327, [65359]); (65328, [65360]);
    (65329, [65361]); (65330, [65362]); (65331, [65363]); (65332, [65364]);
    (65333, [65365]); (65334, [65366]); (65335, [65367]); (65336, [65368]);
    (65337, [65369]); (65338, [65370]); (66560, [66600]); (66561, [66601]);
    (66562, [66602]); (66563, [66603]); (66564, [66604]); (66565, [66605]);
    (66566, [66606]); (66567, [66607]); (66568, [66608]); (66569, [66609]);
    (66570, [66610]); (66571, [66611]); (66572, [66612]); (66573, [66613]);
    (66574, [66614]); (66575, [66615]); (66576, [66616]); (66577, [66617]);
    (66578, [66618]); (66579, [66619]); (66580, [66620]); (66581, [66621]);
    (66582, [66622]); (66583, [66623]); (66584, [66624]); (66585, [66625]);
    (66586, [66626]); (66587, [66627]); (66588, [66628]); (66589, [66629]);
    (66590, [66630]); (66591, [66631]); (66592, [66632]); (66593, [66633]);
    (66594, [66634]); (66595, [66635]); (66596, [66636]); (66597, [66637]);
    (66598, [66638]); (66599, [66639]); (66736, [66776]); (66737, [66777]);
    (66738, [66778]); (66739, [66779]); (66740, [66780]); (66741, [66781]);
    (66742, [66782]); (66743, [66783]); (66744, [66784]); (66745, [66785]);
    (66746, [66786]); (66747, [66787]); (66748, [66788]); (66749, [66789]);
    (66750, [66790]); (66751, [66791]); (66752, [66792]); (66753, [66793]);
    (66754, [66794]); (66755, [66795]); (66756, [66796]); (66757, [66797]);
    (66758, [66798]); (66759, [66799]); (66760, [66800]); (66761, [66801]);
    (66762, [66802]); (66763, [66803]); (66764, [66804]); (66765, [66805]);
    (66766, [66806]); (66767, [66807]); (66768, [66808]); (66769, [66809]);
    (66770, [66810]); (66771, [66811]); (66928, [66967]); (66929, [66968]);
    (66930, [66969]); (66931, [66970]); (66932, [66971]); (66933, [66972]);
    (66934, [66973]); (66935, [66974]); (66936, [66975]); (66937, [66976]);
    (66938, [66977]); (66940, [66979]); (66941, [66980]); (66942, [66981]);
    (66943, [66982]); (66944, [66983]); (66945, [66984]); (66946, [66985]);
    (66947, [66986]); (66948, [66987]); (66949, [66988]); (66950, [66989]);
    (66951, [66990]); (66952, [66991]); (66953, [66992]); (66954, [66993]);
    (66956, [66995]); (66957, [66996]); (66958, [66997]); (66959, [66998]);
    (66960, [66999]); (66961, [67000]); (66962, [67001]); (66964, [67003]);
    (66965, [67004]); (68736, [68800]); (68737, [68801]); (68738, [68802]);
    (68739, [68803]); (68740, [68804]); (68741, [68805]); (68742, [68806]);
    (68743, [68807]); (68744, [68808]); (68745, [68809]); (68746, [68810]);
    (68747, [68811]); (68748, [68812]); (68749, [68813]); (68750, [68814]);
    (68751, [68815]); (68752, [68816]); (68753, [68817]); (68754, [68818]);
    (68755, [68819]); (68756, [68820]); (68757, [68821]); (68758, [68822]);
    (68759, [68823]); (68760, [68824]); (68761, [68825]); (68762, [68826]);
    (68763, [68827]); (68764, [68828]); (68765, [68829]); (68766, [68830]);
    (68767, [68831]); (68768, [68832]); (68769, [68833]); (68770, [68834]);
    (68771, [68835]); (68772, [68836]); (68773, [68837]); (68774, [68838]);
    (68775, [68839]); (68776, [68840]); (68777, [68841]); (68778, [68842]);
    (68779, [68843]); (68780, [68844]); (68781, [68845]); (68782, [68846]);
    (68783, [68847]); (68784, [68848]); (68785, [68849]); (68786, [68850]);
    (71840, [71872]); (71841, [71873]); (71842, [71874]); (71843, [71875]);
    (71844, [71876]); (71845, [71877]); (71846, [71878]); (71847, [71879]);
    (71848, [71880]); (71849, [71881]); (71850, [71882]); (71851, [71883]);
    (71852, [71884]); (71853, [71885]); (71854, [71886]); (71855, [71887]);
    (71856, [71888]); (71857, [71889]); (71858, [71890]); (71859, [71891]);
    (71860, [71892]); (71861, [71893]); (71862, [71894]); (71863, [71895]);
    (71864, [71896]); (71865, [71897]); (71866, [71898]); (71867, [71899]);
    (71868, [71900]); (71869, [71901]); (71870, [71902]); (71871, [71903]);
    (93760, [93792]); (93761, [93793]); (93762, [93794]); (93763, [93795]);
    (93764, [93796]); (93765, [93797]); (93766, [93798]); (93767, [93799]);
    (93768, [93800]); (93769, [93801]); (93770, [93802]); (93771, [93803]);
    (93772, [93804]); (93773, [93805]); (93774, [93806]); (93775, [93807]);
    (93776, [93808]); (93777, [93809]); (93778, [93810]); (93779, [93811]);
    (93780, [93812]); (93781, [93813]); (93782, [93814]); (93783, [93815]);
    (93784, [93816]); (93785, [93817]); (93786, [93818]); (93787, [93819]);
    (93788, [93820]); (93789, [93821]); (93790, [93822]); (93791, [93823]);
    (125184, [125218]); (125185, [125219]); (125186, [125220]); (125187, [125221]);
    (125188, [125222]); (125189, [125223]); (125190, [125224]); (125191, [125225]);
    (125192, [125226]); (125193, [125227]); (125194, [125228]); (125195, [125229]);
    (125196, [125230]); (125197, [125231]); (125198, [125232]); (125199, [125233]);
    (125200, [125234]); (125201, [125235]); (125202, [125236]); (125203, [125237]);
    (125204, [125238]); (125205, [125239]); (125206, [125240]); (125207, [125241]);
    (125208, [125242]); (125209, [125243]); (125210, [125244]); (125211, [125245]);
    (125212, [125246]); (125213, [125247]); (125214, [125248]); (125215, [125249]);
    (125216, [125250]); (125217, [125251]) ].

(** The code points with the property Case_Ignorable, as inclusive ranges
    (DerivedCoreProperties.txt). *)
Definition caseIgnorableRanges : list (Z * Z) :=
  [(39, 39); (46, 46); (58, 58); (94, 94); (96, 96); (168, 168); (173, 173); (175, 175);
    (180, 180); (183, 184); (688, 879); (884, 885); (890, 890); (900, 901); (903, 903);
    (1155, 1161); (1369, 1369); (1375, 1375); (1425, 1469); (1471, 1471); (1473, 1474);
    (1476, 1477); (1479, 1479); (1524, 1524); (1536, 1541); (1552, 1562); (1564, 1564);
    (1600, 1600); (1611, 1631); (1648, 1648); (1750, 1757); (1759, 1768); (1770, 1773);
    (1807, 1807); (1809, 1809); (1840, 1866); (1958, 1968); (2027, 2037); (2042, 2042);
    (2045, 2045); (2070, 2093); (2137, 2139); (2184, 2184); (2192, 2193); (2200, 2207);
    (2249, 2306); (2362, 2362); (2364, 2364); (2369, 2376); (2381, 2381); (2385, 2391);
    (2402, 2403); (2417, 2417); (2433, 2433); (2492, 2492); (2497, 2500); (2509, 2509);
    (2530, 2531); (2558, 2558); (2561, 2562); (2620, 2620); (2625, 2626); (2631, 2632);
    (2635, 2637); (2641, 2641); (2672, 2673); (2677, 2677); (2689, 2690); (2748, 2748);
    (2753, 2757); (2759, 2760); (2765, 2765); (2786, 2787); (2810, 2815); (2817, 2817);
    (2876, 2876); (2879, 2879); (2881, 2884); (2893, 2893); (2901, 2902); (2914, 2915);
    (2946, 2946); (3008, 3008); (3021, 3021); (3072, 3072); (3076, 3076); (3132, 3132);
    (3134, 3136); (3142, 3144); (3146, 3149); (3157, 3158); (3170, 3171); (3201, 3201);
    (3260, 3260); (3263, 3263); (3270, 3270); (3276, 3277); (3298, 3299); (3328, 3329);
    (3387, 3388); (3393, 3396); (3405, 3405); (3426, 3427); (3457, 3457); (3530, 3530);
    (3538, 3540); (3542, 3542); (3633, 3633); (3636, 3642); (3654, 3662); (3761, 3761);
    (3764, 3772); (3782, 3782); (3784, 3789); (3864, 3865); (3893, 3893); (3895, 3895);
    (3897, 3897); (3953, 3966); (3968, 3972); (3974, 3975); (3981, 3991); (3993, 4028);
    (4038, 4038); (4141, 4144); (4146, 4151); (4153, 4154); (4157, 4158); (4184, 4185);
    (4190, 4192); (4209, 4212); (4226, 4226); (4229, 4230); (4237, 4237); (4253, 4253);
    (4348, 4348); (4957, 4959); (5906, 5908); (5938, 5939); (5970, 5971); (6002, 6003);
    (6068, 6069); (6071, 6077); (6086, 6086); (6089, 6099); (6103, 6103); (6109, 6109);
    (6155, 6159); (6211, 6211); (6277, 6278); (6313, 6313); (6432, 6434); (6439, 6440);
    (6450, 6450); (6457, 6459); (6679, 6680); (6683, 6683); (6742, 6742); (6744, 6750);
    (6752, 6752); (6754, 6754); (6757, 6764); (6771, 6780); (6783, 6783); (6823, 6823);
    (6832, 6862); (6912, 6915); (6964, 6964); (6966, 6970); (6972, 6972); (6978, 6978);
    (7019, 7027); (7040, 7041); (7074, 7077); (7080, 7081); (7083, 7085); (7142, 7142);
    (7144, 7145); (7149, 7149); (7151, 7153); (7212, 7219); (7222, 7223); (7288, 7293);
    (7376, 7378); (7380, 7392); (7394, 7400); (7405, 7405); (7412, 7412); (7416, 7417);
    (7468, 7530); (7544, 7544); (7579, 7679); (8125, 8125); (8127, 8129); (8141, 8143);
    (8157, 8159); (8173, 8175); (8189, 8190); (8203, 8207); (8216, 8217); (8228, 8228);
    (8231, 8231); (8234, 8238); (8288, 8292); (8294, 8303); (8305, 8305); (8319, 8319);
    (8336, 8348); (8400, 8432); (11388, 11389); (11503, 11505); (11631, 11631);
    (11647, 11647); (11744, 11775); (11823, 11823); (12293, 12293); (12330, 12333);
    (12337, 12341); (12347, 12347); (12441, 12446); (12540, 12542); (40981, 40981);
    (42232, 42237); (42508, 42508); (42607, 42610); (42612, 42621); (42623, 42623);
    (42652, 42655); (42736, 42737); (42752, 42785); (42864, 42864); (42888, 42890);
    (42994, 42996); (43000, 43001); (43010, 43010); (43014, 43014); (43019, 43019);
    (43045, 43046); (43052, 43052); (43204, 43205); (43232, 43249); (43263, 43263);
    (43302, 43309); (43335, 43345); (43392, 43394); (43443, 43443); (43446, 43449);
    (43452, 43453); (43471, 43471); (43493, 43494); (43561, 43566); (43569, 43570);
    (43573, 43574); (43587, 43587); (43596, 43596); (43632, 43632); (43644, 43644);
    (43696, 43696); (43698, 43700); (43703, 43704); (43710, 43711); (43713, 43713);
    (43741, 43741); (43756, 43757); (43763, 43764); (43766, 43766); (43867, 43871);
    (43881, 43883); (44005, 44005); (44008, 44008); (44013, 44013); (64286, 64286);
    (64434, 64450); (65024, 65039); (65043, 65043); (65056, 65071); (65106, 65106);
    (65109, 65109); (65279, 65279); (65287, 65287); (65294, 65294); (65306, 65306);
    (65342, 65342); (65344, 65344); (65392, 65392); (65438, 65439); (65507, 65507);
    (65529, 65531); (66045, 66045); (66272, 66272); (66422, 66426); (67456, 67461);
    (67463, 67504); (67506, 67514); (68097, 68099); (68101, 68102); (68108, 68111);
    (68152, 68154); (68159, 68159); (68325, 68326); (68900, 68903); (69291, 69292);
    (69446, 69456); (69506, 69509); (69633, 69633); (69688, 69702); (69744, 69744);
    (69747, 69748); (69759, 69761); (69811, 69814); (69817, 69818); (69821, 69821);
    (69826, 69826); (69837, 69837); (69888, 69890); (69927, 69931); (69933, 69940);
    (70003, 70003); (70016, 70017); (70070, 70078); (70089, 70092); (70095, 70095);
    (70191, 70193); (70196, 70196); (70198, 70199); (70206, 70206); (70367, 70367);
    (70371, 70378); (70400, 70401); (70459, 70460); (70464, 70464); (70502, 70508);
    (70512, 70516); (70712, 70719); (70722, 70724); (70726, 70726); (70750, 70750);
    (70835, 70840); (70842, 70842); (70847, 70848); (70850, 70851); (71090, 71093);
    (71100, 71101); (71103, 71104); (71132, 71133); (71219, 71226); (71229, 71229);
    (71231, 71232); (71339, 71339); (71341, 71341); (71344, 71349); (71351, 71351);
    (71453, 71455); (71458, 71461); (71463, 71467); (71727, 71735); (71737, 71738);
    (71995, 71996); (71998, 71998); (72003, 72003); (72148, 72151); (72154, 72155);
    (72160, 72160); (72193, 72202); (72243, 72248); (72251, 72254); (72263, 72263);
    (72273, 72278); (72281, 72283); (72330, 72342); (72344, 72345); (72752, 72758);
    (72760, 72765); (72767, 72767); (72850, 72871); (72874, 72880); (72882, 72883);
    (72885, 72886); (73009, 73014); (73018, 73018); (73020, 73021); (73023, 73029);
    (73031, 73031); (73104, 73105); (73109, 73109); (73111, 73111); (73459, 73460);
    (78896, 78904); (92912, 92916); (92976, 92982); (92992, 92995); (94031, 94031);
    (94095, 94111); (94176, 94177); (94179, 94180); (110576, 110579); (110581, 110587);
    (110589, 110590); (113821, 113822); (113824, 113827); (118528, 118573);
    (118576, 118598); (119143, 119145); (119155, 119170); (119173, 119179);
    (119210, 119213); (119362, 119364); (121344, 121398); (121403, 121452);
    (121461, 121461); (121476, 121476); (121499, 121503); (121505, 121519);
    (122880, 122886); (122888, 122904); (122907, 122913); (122915, 122916);
    (122918, 122922); (123184, 123197); (123566, 123566); (123628, 123631);
    (125136, 125142); (125252, 125259); (127995, 127999); (917505, 917505);
    (917536, 917631); (917760, 917999) ].

(** The code points with the property Cased that are not Case_Ignorable. *)
Definition casedRanges : list (Z * Z) :=
  [(65, 90); (97, 122); (170, 170); (181, 181); (186, 186); (192, 214); (216, 246);
    (248, 442); (444, 447); (452, 659); (661, 687); (880, 883); (886, 887); (891, 893);
    (895, 895); (902, 902); (904, 906); (908, 908); (910, 929); (931, 1013); (1015, 1153);
    (1162, 1327); (1329, 1366); (1376, 1416); (4256, 4293); (4295, 4295); (4301, 4301);
    (4304, 4346); (4349, 4351); (5024, 5109); (5112, 5117); (7296, 7304); (7312, 7354);
    (7357, 7359); (7424, 7467); (7531, 7543); (7545, 7578); (7680, 7957); (7960, 7965);
    (7968, 8005); (8008, 8013); (8016, 8023); (8025, 8025); (8027, 8027); (8029, 8029);
    (8031, 8061); (8064, 8116); (8118, 8124); (8126, 8126); (8130, 8132); (8134, 8140);
    (8144, 8147); (8150, 8155); (8160, 8172); (8178, 8180); (8182, 8188); (8450, 8450);
    (8455, 8455); (8458, 8467); (8469, 8469); (8473, 8477); (8484, 8484); (8486, 8486);
    (8488, 8488); (8490, 8493); (8495, 8500); (8505, 8505); (8508, 8511); (8517, 8521);
    (8526, 8526); (8544, 8575); (8579, 8580); (9398, 9449); (11264, 11387); (11390, 11492);
    (11499, 11502); (11506, 11507); (11520, 11557); (11559, 11559); (11565, 11565);
    (42560, 42605); (42624, 42651); (42786, 42863); (42865, 42887); (42891, 42894);
    (42896, 42954); (42960, 42961); (42963, 42963); (42965, 42969); (42997, 42998);
    (43002, 43002); (43824, 43866); (43872, 43880); (43888, 43967); (64256, 64262);
    (64275, 64279); (65313, 65338); (65345, 65370); (66560, 66639); (66736, 66771);
    (66776, 66811); (66928, 66938); (66940, 66954); (66956, 66962); (66964, 66965);
    (66967, 66977); (66979, 66993); (66995, 67001); (67003, 67004); (68736, 68786);
    (68800, 68850); (71840, 71903); (93760, 93823); (119808, 119892); (119894, 119964);
    (119966, 119967); (119970, 119970); (119973, 119974); (119977, 119980);
    (119982, 119993); (119995, 119995); (119997, 120003); (120005, 120069);
    (120071, 120074); (120077, 120084); (120086, 120092); (120094, 120121);
    (120123, 120126); (120128, 120132); (120134, 120134); (120138, 120144);
    (120146, 120485); (120488, 120512); (120514, 120538); (120540, 120570);
    (120572, 120596); (120598, 120628); (120630, 120654); (120656, 120686);
    (120688, 120712); (120714, 120744); (120746, 120770); (120772, 120779);
    (122624, 122633); (122635, 122654); (125184, 125251); (127280, 127305);
    (127312, 127337); (127344, 127369) ].

Definition inRanges (ranges : list (Z * Z)) (cp : Z) : bool :=
  existsb (λ r, (r.1 <=? cp) && (cp <=? r.2)) ranges.

Definition mapping (table : list (Z * list Z)) (cp : Z) : list Z :=
  match List.find (λ entry, entry.1 =? cp) table with
  | Some entry => entry.2
  | None => [cp]
  end.

(** The full uppercase mapping of a code point: one code point or several
    (U+00DF gives "SS"). *)
Definition upperCodePoint (cp : Z) : list Z :=
  if cp <? 0x80 then [if (0x61 <=? cp) && (cp <=? 0x7A) then cp - 32 else cp]
  else mapping upperTable cp.

(** [s.toUpperCase()] *)
Definition toUpperCase (s : string) : string :=
  encode (flat_map upperCodePoint (decode s)).

Definition lowerCodePoint (cp : Z) : list Z :=
  if cp <? 0x80 then [if (0x41 <=? cp) && (cp <=? 0x5A) then cp + 32 else cp]
  else mapping lowerTable cp.

(** Whether the first code point that is not Case_Ignorable is Cased. *)
Fixpoint casedNext (l : list Z) : bool :=
  match l with
  | [] => false
  | cp :: l => if inRanges caseIgnorableRanges cp then casedNext l else inRanges casedRanges cp
  end.

(** Lowercasing is per code point, except for the capital sigma U+03A3: it
    becomes the final sigma U+03C2 after a cased letter when no cased letter
    follows, and U+03C3 otherwise.  [before] holds the code points already
    read, the last one first. *)
Fixpoint lowerFrom (before l : list Z) : list Z :=
  match l with
  | [] => []
  | cp :: l =>
      (if cp =? 0x3A3
       then [if casedNext before && negb (casedNext l) then 0x3C2 else 0x3C3]
       else lowerCodePoint cp)
      ++ lowerFrom (cp :: before) l
  end.

(** [s.toLowerCase()] *)
Definition toLowerCase (s : string) : string :=
  encode (lowerFrom [] (decode s)).

(** [s.substring(from, to)] for [from <= to], on ASCII text. *)
Definition substring (from to : nat) (s : string) : string :=
  String.substring from (to - from) s.

(** [s.slice(0, n)] for a non-negative [n], on ASCII text. *)
Definition slice0 (n : nat) (s : string) : string :=
  String.substring 0 n s.

(** [s.replace(/-/g, '')]. *)
Fixpoint removeDashes (s : string) : string :=
  match s with
  | EmptyString => EmptyString
  | String c s' =>
      if Ascii.eqb c "-" then removeDashes s' else String c (removeDashes s')
  end.

(** *** Money columns *)

(** [Number::toString]: the decimal [t × 10^p] that JavaScript prints for the
    positive double [m × 2^e]. Of the decimals that read back as this double
    it is one with the fewest digits, and of those the closest.  A decimal
    reads back as the double when it lies between the midpoints to the two
    neighbouring doubles (the midpoints included when [m] is even). *)
Definition shortestAt (m e p : Z) : option Z :=
  let low := if (m =? 2 ^ 52) && (-1074 <? e) then 4 * m - 1 else 4 * m - 2 in
  let high := 4 * m + 2 in
  (* in units of [10^p], the double is [4 m a / b] *)
  let a := 2 ^ Z.max (e - 2) 0 * 10 ^ Z.max (- p) 0 in
  let b := 2 ^ Z.max (2 - e) 0 * 10 ^ Z.max p 0 in
  let readsBack t :=
    if Z.even m then (low * a <=? t * b) && (t * b <=? high * a)
    else (low * a <? t * b) && (t * b <? high * a) in
  let t := (4 * m * a) / b in
  match readsBack t, readsBack (t + 1) with
  | true, false => Some t
  | false, true => Some (t + 1)
  | false, false => None
  | true, true =>
      let below := 4 * m * a - t * b in
      let above := (t + 1) * b - 4 * m * a in
      if below <? above then Some t
      else if above <? below then Some (t + 1)
      else Some (if Z.even t then t else t + 1)
  end.

Fixpoint shortestFrom (fuel : nat) (m e p : Z) : Z * Z :=
  match fuel with
  | O => if 0 <=? e then (m * 2 ^ e, 0) else (m * 5 ^ (- e), e)
  | S fuel =>
      match shortestAt m e p with
      | Some t => (t, p)
      | None => shortestFrom fuel m e (p - 1)
      end
  end.

(** The search starts above the leading digit and ends at the latest at
    [10^e] for a negative [e], where the double itself is a decimal. *)
Definition shortest (m e : Z) : Z * Z :=
  let start := Z.max 0 (Z.log2 m + e + 1) in
  shortestFrom (Z.to_nat (start - Z.min e 0 + 1)) m e start.

(** A decimal [t × 10^p] in a [numeric(_, 2)] column, in hundredths: the
    database rounds to the nearest hundredth, a half away from zero. *)
Definition roundedHundredths (d : Z * Z) : Z :=
  let (t, p) := d in
  if -2 <=? p then t * 10 ^ (p + 2)
  else
    let unit := 10 ^ (- p - 2) in
    if unit <=? 2 * (t mod unit) then t / unit + 1 else t / unit.

(** The hundredths a [number] becomes when it is written to a money column:
    the client sends the number as JavaScript prints it, and the database
    rounds that decimal. *)
Definition hundredths (x : number) : Z :=
  match FloatOps.Prim2SF x with
  | SpecFloat.S754_finite s m e =>
      let n := roundedHundredths (shortest (Zpos m) e) in
      if s then - n else n
  | _ => 0
  end.

(** The [number] that reads a money column of [n] hundredths:
    [Number(decimal)], the double nearest to [n / 100]. *)
Definition ofHundredths (n : Z) : number := (ofInt n / 100)%float.

(** A [number] after a round trip through a money column. *)
Definition decimal2 (x : number) : number :=
  match FloatOps.Prim2SF x with
  | SpecFloat.S754_finite _ _ _ => ofHundredths (hundredths x)
  | _ => x
  end.

End Js.

Import Js.

(** ** The schema

    Columns that no modelled handler reads or writes (creation stamps, images,
    descriptions, …) are left out of the rows. *)

Inductive OrderStatus :=
  PENDING | CONFIRMED | PROCESSING | SHIPPED | DELIVERED | CANCELLED | REFUNDED.

Inductive PaymentStatus :=
  PAYMENT_PENDING | PAID | FAILED | PAYMENT_REFUNDED | PARTIALLY_REFUNDED.

Inductive DiscountType := PERCENTAGE | FIXED_AMOUNT | FREE_SHIPPING.

#[global] Instance OrderStatus_eq_dec : EqDecision OrderStatus.
Proof. solve_decision. Defined.

#[global] Instance PaymentStatus_eq_dec : EqDecision PaymentStatus.
Proof. solve_decision. Defined.

Record Product := {
  p_name : string;
  p_sku : option string;
  p_price : number;
  p_quantity : Z;
  p_allowBackorder : bool;
  p_isActive : bool;
}.

Record ProductVariant := {
  v_productId : string;
  v_name : string;
  v_sku : option string;
  v_price : number;
  v_quantity : Z;
  v_isActive : bool;
}.

Record CartItem := {
  ci_id : string;
  ci_userId : option string;
  ci_sessionId : option string;
  ci_productId : string;
  ci_variantId : option string;
  ci_quantity : Z;
}.

Record DiscountCode := {
  dc_code : string;
  dc_type : DiscountType;
  dc_value : number;
  dc_minOrderAmount : option number;
  dc_maxUses : option Z;
  dc_usedCount : Z;
  dc_expiresAt : option Z;
  dc_isActive : bool;
}.

Record ShippingAddress := {
  sa_firstName : string;
  sa_lastName : string;
  sa_phone : string;
  sa_street : string;
  sa_city : string;
  sa_state : option string;
  sa_postalCode : option string;
  sa_country : string;
}.

Record Address := {
  a_id : string;
  a_userId : string;
  a_fields : ShippingAddress;
}.

Record Order := {
  o_orderNumber : string;
  o_userId : option string;
  o_email : string;
  o_phone : option string;
  o_status : OrderStatus;
  o_paymentStatus : PaymentStatus;
  o_paymentMethod : option string;
  o_stripePaymentId : option string;
  o_subtotal : number;
  o_shippingCost : number;
  o_discountAmount : number;
  o_total : number;
  o_currency : string;
  o_notes : option string;
  o_shippingAddressId : option string;
  o_discountCodeId : option string;
  o_trackingNumber : option string;
  o_shippedAt : option Z;
  o_deliveredAt : option Z;
  o_cancelledAt : option Z;
}.

Record OrderItem := {
  oi_orderId : string;
  oi_productId : string;
  oi_variantId : option string;
  oi_name : string;
  oi_sku : option string;
  oi_price : number;
  oi_quantity : Z;
  oi_total : number;
}.

Record OrderTimeline := {
  tl_orderId : string;
  tl_status : OrderStatus;
  tl_note : string;
}.

(** ** The store and the gateway's refund ledger *)

Record World := {
  products : gmap string Product;
  productVariants : gmap string ProductVariant;
  discountCodes : gmap string DiscountCode;
  orders : gmap string Order;
  cartItems : list CartItem;
  orderItems : list OrderItem;
  orderTimeline : list OrderTimeline;
  addresses : list Address;
  (** Every [stripe.refunds.create] call issued so far, by payment intent,
      most recent first. *)
  refundCalls : list string;
}.

Definition set_products (f : gmap string Product → gmap string Product) (w : World) : World :=
  {| products := f (products w); productVariants := productVariants w;
     discountCodes := discountCodes w; orders := orders w;
     cartItems := cartItems w; orderItems := orderItems w;
     orderTimeline := orderTimeline w; addresses := addresses w;
     refundCalls := refundCalls w |}.

Definition set_productVariants
    (f : gmap string ProductVariant → gmap string ProductVariant) (w : World) : World :=
  {| products := products w; productVariants := f (productVariants w);
     discountCodes := discountCodes w; orders := orders w;
     cartItems := cartItems w; orderItems := orderItems w;
     orderTimeline := orderTimeline w; addresses := addresses w;
     refundCalls := refundCalls w |}.

Definition set_discountCodes
    (f : gmap string DiscountCode → gmap string DiscountCode) (w : World) : World :=
  {| products := products w; productVariants := productVariants w;
     discountCodes := f (discountCodes w); orders := orders w;
     cartItems := cartItems w; orderItems := orderItems w;
     orderTimeline := orderTimeline w; addresses := addresses w;
     refundCalls := refundCalls w |}.

Definition set_orders (f : gmap string Order → gmap string Order) (w : World) : World :=
  {| products := products w; productVariants := productVariants w;
     discountCodes := discountCodes w; orders := f (orders w);
     cartItems := cartItems w; orderItems := orderItems w;
     orderTimeline := orderTimeline w; addresses := addresses w;
     refundCalls := refundCalls w |}.

Definition set_cartItems (f : list CartItem → list CartItem) (w : World) : World :=
  {| products := products w; productVariants := productVariants w;
     discountCodes := discountCodes w; orders := orders w;
     cartItems := f (cartItems w); orderItems := orderItems w;
     orderTimeline := orderTimeline w; addresses := addresses w;
     refundCalls := refundCalls w |}.

Definition set_orderItems (f : list OrderItem → list OrderItem) (w : World) : World :=
  {| products := products w; productVariants := productVariants w;
     discountCodes := discountCodes w; orders := orders w;
     cartItems := cartItems w; orderItems := f (orderItems w);
     orderTimeline := orderTimeline w; addresses := addresses w;
     refundCalls := refundCalls w |}.

Definition set_orderTimeline (f : list OrderTimeline → list OrderTimeline) (w : World) : World :=
  {| products := products w; productVariants := productVariants w;
     discountCodes := discountCodes w; orders := orders w;
     cartItems := cartItems w; orderItems := orderItems w;
     orderTimeline := f (orderTimeline w); addresses := addresses w;
     refundCalls := refundCalls w |}.

Definition set_addresses (f : list Address → list Address) (w : World) : World :=
  {| products := products w; productVariants := productVariants w;
     discountCodes := discountCodes w; orders := orders w;
     cartItems := cartItems w; orderItems := orderItems w;
     orderTimeline := orderTimeline w; addresses := f (addresses w);
     refundCalls := refundCalls w |}.

Definition set_refundCalls (f : list string → list string) (w : World) : World :=
  {| products := products w; productVariants := productVariants w;
     discountCodes := discountCodes w; orders := orders w;
     cartItems := cartItems w; orderItems := orderItems w;
     orderTimeline := orderTimeline w; addresses := addresses w;
     refundCalls := f (refundCalls w) |}.

(** ** Handlers as tasks *)

Inductive outcome (A : Type) :=
  | Done (a : A)
  | Thrown (e : string).

Arguments Done {A} a.
Arguments Thrown {A} e.

Definition Task (A : Type) : Type := World → outcome A * World.

Definition ret {A} (a : A) : Task A := λ w, (Done a, w).

Definition throw {A} (e : string) : Task A := λ w, (Thrown e, w).

Definition bind {A B} (m : Task A) (k : A → Task B) : Task B :=
  λ w, match m w with
       | (Done a, w') => k a w'
       | (Thrown e, w') => (Thrown e, w')
       end.

(** [try { m } catch (error) { console.error(...) }]. *)
Definition tryCatch (m : Task unit) : Task unit :=
  λ w, match m w with
       | (Done _, w') => (Done tt, w')
       | (Thrown _, w') => (Done tt, w')
       end.

Definition gets {A} (f : World → A) : Task A := λ w, (Done (f w), w).

Definition modify (f : World → World) : Task unit := λ w, (Done tt, f w).

Notation "x ⇐ m ;; k" := (bind m (λ x, k))
  (at level 100, m at next level, right associativity, only parsing).
Notation "m ;;; k" := (bind m (λ _, k))
  (at level 100, right associativity, only parsing).

(** [for (const x of xs) { await body(x) }]. *)
Fixpoint forEach {A} (xs : list A) (body : A → Task unit) : Task unit :=
  match xs with
  | [] => ret tt
  | x :: xs' => body x ;;; forEach xs' body
  end.

(** ** The Prisma client calls the handlers make

    [update] and [delete] on a key that matches no row throw ("record to
    update not found"); [create] throws when a unique index is violated. *)

Definition recordNotFound : string := "Record to update not found".
Definition uniqueConstraintFailed : string := "Unique constraint failed".

(** [{ increment: n }] and [{ decrement: n }] on an integer column. *)
Inductive NumberOp :=
  | increment (n : Z)
  | decrement (n : Z).

Definition applyOp (op : NumberOp) (x : Z) : Z :=
  match op with
  | increment n => x + n
  | decrement n => x - n
  end.

Definition product_withQuantity (q : Z) (p : Product) : Product :=
  {| p_name := p_name p; p_sku := p_sku p; p_price := p_price p;
     p_quantity := q; p_allowBackorder := p_allowBackorder p;
     p_isActive := p_isActive p |}.

Definition variant_withQuantity (q : Z) (v : ProductVariant) : ProductVariant :=
  {| v_productId := v_productId v; v_name := v_name v; v_sku := v_sku v;
     v_price := v_price v; v_quantity := q; v_isActive := v_isActive v |}.

Definition discount_withUsedCount (n : Z) (d : DiscountCode) : DiscountCode :=
  {| dc_code := dc_code d; dc_type := dc_type d; dc_value := dc_value d;
     dc_minOrderAmount := dc_minOrderAmount d; dc_maxUses := dc_maxUses d;
     dc_usedCount := n; dc_expiresAt := dc_expiresAt d;
     dc_isActive := dc_isActive d |}.

(** [prisma.product.update({ where: { id }, data: { quantity: op } })]. *)
Definition product_update (id : string) (op : NumberOp) : Task unit :=
  λ w, match products w !! id with
       | Some p =>
           (Done tt,
            set_products (insert id (product_withQuantity (applyOp op (p_quantity p)) p)) w)
       | None => (Thrown recordNotFound, w)
       end.

(** [prisma.productVariant.update({ where: { id }, data: { quantity: op } })]. *)
Definition productVariant_update (id : string) (op : NumberOp) : Task unit :=
  λ w, match productVariants w !! id with
       | Some v =>
           (Done tt,
            set_productVariants
              (insert id (variant_withQuantity (applyOp op (v_quantity v)) v)) w)
       | None => (Thrown recordNotFound, w)
       end.

(** [prisma.discountCode.update({ where: { id }, data: { usedCount: op } })]. *)
Definition discountCode_update (id : string) (op : NumberOp) : Task unit :=
  λ w, match discountCodes w !! id with
       | Some d =>
           (Done tt,
            set_discountCodes
              (insert id (discount_withUsedCount (applyOp op (dc_usedCount d)) d)) w)
       | None => (Thrown recordNotFound, w)
       end.

(** [prisma.discountCode.findUnique({ where: { code } })]: the row and its key. *)
Definition discountCode_findUnique (code : string) (w : World)
    : option (string * DiscountCode) :=
  snd <$> list_find (λ kv, dc_code kv.2 = code) (map_to_list (discountCodes w)).

(** [prisma.order.findUnique({ where: { id } })]. *)
Definition order_findUnique (id : string) : Task (option Order) :=
  gets (λ w, orders w !! id).

(** [prisma.order.update({ where: { id }, data })], where [data] may carry a
    nested [timeline: { create }]; the nested write is part of the same
    statement. *)
Definition order_update (id : string) (data : Order → Order)
    (timeline : list OrderTimeline) : Task Order :=
  λ w, match orders w !! id with
       | Some o =>
           (Done (data o),
            set_orders (insert id (data o))
              (set_orderTimeline (λ t, t ++ timeline) w))
       | None => (Thrown recordNotFound, w)
       end.

(** The row the database holds for the order data of a create: the money
    columns [subtotal], [shippingCost], [discountAmount] and [total] are
    [DECIMAL(10,2)], each rounded on its own.  (Amounts of 10^8 and more,
    which the column refuses, are outside the model.) *)
Definition order_stored (o : Order) : Order :=
  {| o_orderNumber := o_orderNumber o; o_userId := o_userId o; o_email := o_email o;
     o_phone := o_phone o; o_status := o_status o;
     o_paymentStatus := o_paymentStatus o; o_paymentMethod := o_paymentMethod o;
     o_stripePaymentId := o_stripePaymentId o;
     o_subtotal := decimal2 (o_subtotal o);
     o_shippingCost := decimal2 (o_shippingCost o);
     o_discountAmount := decimal2 (o_discountAmount o);
     o_total := decimal2 (o_total o);
     o_currency := o_currency o; o_notes := o_notes o;
     o_shippingAddressId := o_shippingAddressId o;
     o_discountCodeId := o_discountCodeId o;
     o_trackingNumber := o_trackingNumber o; o_shippedAt := o_shippedAt o;
     o_deliveredAt := o_deliveredAt o; o_cancelledAt := o_cancelledAt o |}.

(** The row the database holds for a line item: [price] and [total] are
    [DECIMAL(10,2)]. *)
Definition orderItem_stored (it : OrderItem) : OrderItem :=
  {| oi_orderId := oi_orderId it; oi_productId := oi_productId it;
     oi_variantId := oi_variantId it; oi_name := oi_name it; oi_sku := oi_sku it;
     oi_price := decimal2 (oi_price it); oi_quantity := oi_quantity it;
     oi_total := decimal2 (oi_total it) |}.

(** [prisma.order.create({ data })] with nested [items] and [timeline]
    creates; the answer is the stored row.  The primary key and
    [Order_orderNumber_key] are unique indexes. *)
Definition order_create (id : string) (o : Order) (items : list OrderItem)
    (timeline : list OrderTimeline) : Task Order :=
  λ w, if decide (is_Some (orders w !! id)) then (Thrown uniqueConstraintFailed, w)
       else if decide (map_Exists (λ _ o', o_orderNumber o' = o_orderNumber o) (orders w))
       then (Thrown uniqueConstraintFailed, w)
       else (Done (order_stored o),
             set_orders (insert id (order_stored o))
               (set_orderItems (λ l, l ++ (orderItem_stored <$> items))
                  (set_orderTimeline (λ t, t ++ timeline) w))).

(** [prisma.orderItem.findMany({ where: { orderId } })], also the
    [include: { items }] of an order query. *)
Definition orderItem_findMany (orderId : string) (w : World) : list OrderItem :=
  filter (λ it, oi_orderId it = orderId) (orderItems w).

(** [prisma.address.create({ data: { userId, ...shippingAddress } })]. *)
Definition address_create (id userId : string) (fields : ShippingAddress) : Task Address :=
  let a := {| a_id := id; a_userId := userId; a_fields := fields |} in
  λ w, if decide (Exists (λ a', a_id a' = id) (addresses w))
       then (Thrown uniqueConstraintFailed, w)
       else (Done a, set_addresses (λ l, l ++ [a]) w).

(** A [where] clause on the cart: a field left [undefined] does not filter. *)
Definition cartWhere (userId sessionId productId : option string)
    (variantId : option (option string)) (c : CartItem) : bool :=
  match userId with Some u => bool_decide (ci_userId c = Some u) | None => true end
  && match sessionId with Some s => bool_decide (ci_sessionId c = Some s) | None => true end
  && match productId with Some p => bool_decide (ci_productId c = p) | None => true end
  && match variantId with Some v => bool_decide (ci_variantId c = v) | None => true end.

(** [prisma.cartItem.deleteMany({ where: { userId } })]. *)
Definition cartItem_deleteMany (userId : string) : Task unit :=
  modify (set_cartItems (filter (λ c, ci_userId c ≠ Some userId))).

Definition cart_withQuantity (q : Z) (c : CartItem) : CartItem :=
  {| ci_id := ci_id c; ci_userId := ci_userId c; ci_sessionId := ci_sessionId c;
     ci_productId := ci_productId c; ci_variantId := ci_variantId c;
     ci_quantity := q |}.

Definition cart_withOwner (userId sessionId : option string) (c : CartItem) : CartItem :=
  {| ci_id := ci_id c; ci_userId := userId; ci_sessionId := sessionId;
     ci_productId := ci_productId c; ci_variantId := ci_variantId c;
     ci_quantity := ci_quantity c |}.

Definition updateRow (id : string) (data : CartItem → CartItem) (c : CartItem) : CartItem :=
  if decide (ci_id c = id) then data c else c.

(** [prisma.cartItem.update({ where: { id }, data })]. *)
Definition cartItem_update (id : string) (data : CartItem → CartItem) : Task unit :=
  λ w, if decide (Exists (λ c, ci_id c = id) (cartItems w))
       then (Done tt, set_cartItems (map (updateRow id data)) w)
       else (Thrown recordNotFound, w).

(** [prisma.cartItem.delete({ where: { id } })]. *)
Definition cartItem_delete (id : string) : Task unit :=
  λ w, if decide (Exists (λ c, ci_id c = id) (cartItems w))
       then (Done tt, set_cartItems (filter (λ c, ci_id c ≠ id)) w)
       else (Thrown recordNotFound, w).

(** ** The payment gateway and the environment *)

(** A checkout session or payment intent as the handlers read it. *)
Record StripeObject := {
  so_id : string;
  so_url : option string;
  so_payment_intent : option string;
  (** [metadata?.orderId] *)
  so_orderId : option string;
}.

Record StripeEvent := {
  ev_type : string;
  ev_object : StripeObject;
}.

Record LineItem := {
  li_name : string;
  li_description : option string;
  li_unit_amount : number;
  li_quantity : Z;
}.

Record CouponParams := {
  cp_id : string;
  cp_percent_off : option number;
  cp_amount_off : option number;
}.

Record SessionParams := {
  sp_line_items : list LineItem;
  sp_coupon : option string;
  sp_shipping_amount : number;
  sp_customer_email : string;
  sp_orderId : string;
  sp_orderNumber : string;
}.

(** The Stripe client.  A call that throws answers [None] (or [false]). *)
Record Stripe := {
  webhooks_constructEvent : string → string → string → option StripeEvent;
  coupons_retrieve : string → option string;
  coupons_create : CouponParams → option string;
  checkout_sessions_create : SessionParams → option StripeObject;
  checkout_sessions_retrieve : string → option StripeObject;
  refunds_create : string → bool;
}.

Record Env := {
  (** [new Date()] as milliseconds since the epoch *)
  env_now : Z;
  (** [new Date().toISOString()] *)
  env_isoNow : string;
  (** [Math.random().toString(36)] *)
  env_random36 : string;
  (** primary keys generated for the rows this request creates *)
  env_orderId : string;
  env_addressId : string;
}.

(** ** The order number ([generateOrderNumber])

    [ZPS-YYYYMMDD-XXXX], from the ISO date and the base-36 rendering of a
    random number. *)
Definition generateOrderNumber (isoNow random36 : string) : string :=
  let dateStr := removeDashes (slice0 10 isoNow) in
  let random := toUpperCase (substring 2 6 random36) in
  "ZPS-" +:+ dateStr +:+ "-" +:+ random.

(** ** Checkout ([POST /checkout]) *)

Inductive CheckoutError :=
  | EmptyCartError
  | InsufficientStockError (productId : string) (available : Z)
  | InvalidDiscountError
  | DiscountInactiveError
  | DiscountExpiredError
  | DiscountExhaustedError
  | DiscountMinimumNotMetError (minOrderAmount : number).

Inductive CheckoutResponse :=
  | CheckoutCreated (checkoutUrl : option string) (sessionId orderId orderNumber : string)
  (** [res.status(status).json({ error, ... })] *)
  | CheckoutRejected (status : Z) (e : CheckoutError).

Record CheckoutRequest := {
  rq_userId : option string;
  (** [req.cookies?.cart_session || req.headers['x-cart-session']] *)
  rq_cartSession : option string;
  rq_email : string;
  rq_phone : option string;
  rq_shippingAddress : ShippingAddress;
  rq_discountCode : option string;
  rq_notes : option string;
}.

(** A cart row with [include: { product, variant: true }]. *)
Record CartRow := {
  row_item : CartItem;
  row_product : Product;
  row_variant : option ProductVariant;
}.

Definition includeProductVariant (w : World) (c : CartItem) : option CartRow :=
  p ← products w !! ci_productId c;
  Some {| row_item := c; row_product := p;
          row_variant := v ← ci_variantId c; productVariants w !! v |}.

(** [prisma.cartItem.findMany({ where, include })]. *)
Definition cartItem_findManyInclude (where_ : CartItem → bool) : Task (list CartRow) :=
  λ w, match mapM (includeProductVariant w) (List.filter where_ (cartItems w)) with
       | Some rows => (Done rows, w)
       | None => (Thrown "Inconsistent query result", w)
       end.

(** [req.userId ? { userId: req.userId } : { sessionId }] *)
Definition checkoutCartWhere (rq : CheckoutRequest) : CartItem → bool :=
  if truthy (rq_userId rq) then cartWhere (rq_userId rq) None None None
  else cartWhere None (rq_cartSession rq) None None.

(** The rows [checkout] loads for a request, when the query succeeds. *)
Definition loadedCart (rq : CheckoutRequest) (w : World) : option (list CartRow) :=
  mapM (includeProductVariant w) (List.filter (checkoutCartWhere rq) (cartItems w)).

(** The data of one [orderItems.push({ ... })]. *)
Record OrderItemInput := {
  in_productId : string;
  in_variantId : option string;
  in_name : string;
  in_sku : option string;
  in_price : number;
  in_quantity : Z;
  in_total : number;
}.

Record CheckoutAcc := {
  acc_subtotal : number;
  acc_lineItems : list LineItem;
  acc_orderItems : list OrderItemInput;
}.

Definition rowPrice (row : CartRow) : number :=
  match row_variant row with
  | Some v => v_price v
  | None => p_price (row_product row)
  end.

Definition rowAvailableQty (row : CartRow) : Z :=
  match row_variant row with
  | Some v => v_quantity v
  | None => p_quantity (row_product row)
  end.

Definition rowOutOfStock (row : CartRow) : bool :=
  negb (p_allowBackorder (row_product row))
  && (rowAvailableQty row <? ci_quantity (row_item row)).

Definition rowLineItem (Math_round : number → number) (row : CartRow) : LineItem :=
  {| li_name := p_name (row_product row);
     li_description := v_name <$> row_variant row;
     li_unit_amount := Math_round (rowPrice row * 100)%float;
     li_quantity := ci_quantity (row_item row) |}.

Definition rowOrderItem (row : CartRow) : OrderItemInput :=
  {| in_productId := ci_productId (row_item row);
     in_variantId := ci_variantId (row_item row);
     in_name := p_name (row_product row)
                +:+ match row_variant row with
                    | Some v => " - " +:+ v_name v
                    | None => ""
                    end;
     in_sku := orElse (v ← row_variant row; v_sku v) (p_sku (row_product row));
     in_price := rowPrice row;
     in_quantity := ci_quantity (row_item row);
     in_total := (rowPrice row * ofInt (ci_quantity (row_item row)))%float |}.

Definition emptyAcc : CheckoutAcc :=
  {| acc_subtotal := 0%float; acc_lineItems := []; acc_orderItems := [] |}.

(** The loop "Verify stock and calculate totals": the first row that is out
    of stock ends the request. *)
Fixpoint verifyStock (Math_round : number → number) (rows : list CartRow)
    (acc : CheckoutAcc) : CheckoutError + CheckoutAcc :=
  match rows with
  | [] => inr acc
  | row :: rest =>
      if rowOutOfStock row
      then inl (InsufficientStockError (ci_productId (row_item row)) (rowAvailableQty row))
      else verifyStock Math_round rest
             {| acc_subtotal :=
                  (acc_subtotal acc + rowPrice row * ofInt (ci_quantity (row_item row)))%float;
                acc_lineItems := acc_lineItems acc ++ [rowLineItem Math_round row];
                acc_orderItems := acc_orderItems acc ++ [rowOrderItem row] |}
  end.

Definition discountValue (d : DiscountCode) (subtotal : number) : number :=
  match dc_type d with
  | PERCENTAGE => (subtotal * (dc_value d / 100))%float
  | FIXED_AMOUNT => dc_value d
  | FREE_SHIPPING => 0%float
  end.

(** [expiresAt && expiresAt < new Date()] *)
Definition discountExpired (now : Z) (d : DiscountCode) : bool :=
  match dc_expiresAt d with
  | Some expiresAt => expiresAt <? now
  | None => false
  end.

(** [maxUses && usedCount >= maxUses]: a [maxUses] of [0] is falsy, like
    [null]. *)
Definition discountExhausted (d : DiscountCode) : bool :=
  truthyInt (dc_maxUses d)
  && match dc_maxUses d with
     | Some maxUses => maxUses <=? dc_usedCount d
     | None => false
     end.

(** The block "Apply discount if provided": the discount amount and the
    matched row with its key, or the rejection.  [minOrderAmount] is a
    [Decimal] object when it is not [null], hence truthy whatever its
    value. *)
Definition applyDiscount (w : World) (now : Z) (discountCode : option string)
    (subtotal : number) : CheckoutError + (number * option (string * DiscountCode)) :=
  match discountCode with
  | Some code =>
      if truthy (Some code) then
        match discountCode_findUnique (toUpperCase code) w with
        | None => inl InvalidDiscountError
        | Some (id, d) =>
            if negb (dc_isActive d) then inl DiscountInactiveError
            else if discountExpired now d then inl DiscountExpiredError
            else if discountExhausted d then inl DiscountExhaustedError
            else match dc_minOrderAmount d with
                 | Some minOrderAmount =>
                     if PrimFloat.ltb subtotal minOrderAmount
                     then inl (DiscountMinimumNotMetError minOrderAmount)
                     else inr (discountValue d subtotal, Some (id, d))
                 | None => inr (discountValue d subtotal, Some (id, d))
                 end
        end
      else inr (0%float, None)
  | None => inr (0%float, None)
  end.

(** "Free shipping over 200 ILS". *)
Definition shippingCostFor (subtotal : number) : number :=
  if PrimFloat.ltb 200 subtotal then 0%float else 25%float.

Definition orderItem_ofInput (orderId : string) (i : OrderItemInput) : OrderItem :=
  {| oi_orderId := orderId; oi_productId := in_productId i;
     oi_variantId := in_variantId i; oi_name := in_name i; oi_sku := in_sku i;
     oi_price := in_price i; oi_quantity := in_quantity i; oi_total := in_total i |}.

Definition order_withStripePaymentId (sid : string) (o : Order) : Order :=
  {| o_orderNumber := o_orderNumber o; o_userId := o_userId o; o_email := o_email o;
     o_phone := o_phone o; o_status := o_status o;
     o_paymentStatus := o_paymentStatus o; o_paymentMethod := o_paymentMethod o;
     o_stripePaymentId := Some sid;
     o_subtotal := o_subtotal o; o_shippingCost := o_shippingCost o;
     o_discountAmount := o_discountAmount o; o_total := o_total o;
     o_currency := o_currency o; o_notes := o_notes o;
     o_shippingAddressId := o_shippingAddressId o;
     o_discountCodeId := o_discountCodeId o;
     o_trackingNumber := o_trackingNumber o; o_shippedAt := o_shippedAt o;
     o_deliveredAt := o_deliveredAt o; o_cancelledAt := o_cancelledAt o |}.

(** The [data] of the [prisma.order.create] call in [checkout], without the
    nested writes. *)
Definition orderData (env : Env) (rq : CheckoutRequest)
    (subtotal shippingCost discountAmount total : number)
    (addressId discountCodeId : option string) : Order :=
  {| o_orderNumber := generateOrderNumber (env_isoNow env) (env_random36 env);
     o_userId := rq_userId rq;
     o_email := rq_email rq;
     o_phone := rq_phone rq;
     o_status := PENDING;
     o_paymentStatus := PAYMENT_PENDING;
     o_paymentMethod := None;
     o_stripePaymentId := None;
     o_subtotal := subtotal;
     o_shippingCost := shippingCost;
     o_discountAmount := discountAmount;
     o_total := total;
     o_currency := "ILS";
     o_notes := rq_notes rq;
     o_shippingAddressId := addressId;
     o_discountCodeId := discountCodeId;
     o_trackingNumber := None;
     o_shippedAt := None;
     o_deliveredAt := None;
     o_cancelledAt := None |}.

Definition stripeError : string := "StripeError".

(** A gateway call inside a handler. *)
Definition await {A} (reply : option A) : Task A :=
  match reply with
  | Some a => ret a
  | None => throw stripeError
  end.

Section Handlers.

Variable stripe : Stripe.
(** [Math.round], used only for the amounts sent to the gateway. *)
Variable Math_round : number → number.
(** [process.env.STRIPE_WEBHOOK_SECRET] *)
Variable webhookSecret : string.

(** [getOrCreateStripeCoupon]: retrieve the coupon named after the code, and
    create it when the retrieval throws. *)
Definition getOrCreateStripeCoupon (d : DiscountCode) : Task string :=
  match coupons_retrieve stripe (dc_code d) with
  | Some couponId => ret couponId
  | None =>
      await (coupons_create stripe
               match dc_type d with
               | PERCENTAGE =>
                   {| cp_id := dc_code d; cp_percent_off := Some (dc_value d);
                      cp_amount_off := None |}
               | _ =>
                   {| cp_id := dc_code d; cp_percent_off := None;
                      cp_amount_off := Some (Math_round (dc_value d * 100)%float) |}
               end)
  end.

Definition checkout (env : Env) (rq : CheckoutRequest) : Task CheckoutResponse :=
  cartRows ⇐ cartItem_findManyInclude (checkoutCartWhere rq) ;;
  if (length cartRows =? 0)%nat then ret (CheckoutRejected 400 EmptyCartError)
  else
    match verifyStock Math_round cartRows emptyAcc with
    | inl e => ret (CheckoutRejected 400 e)
    | inr acc =>
        let subtotal := acc_subtotal acc in
        discount ⇐ gets (λ w, applyDiscount w (env_now env) (rq_discountCode rq) subtotal) ;;
        match discount with
        | inl e => ret (CheckoutRejected 400 e)
        | inr (discountAmount, discountCodeRecord) =>
            let shippingCost := shippingCostFor subtotal in
            let total := (subtotal - discountAmount + shippingCost)%float in
            addressId ⇐
              (match rq_userId rq with
               | Some userId =>
                   if truthy (Some userId) then
                     address ⇐ address_create (env_addressId env) userId
                                 (rq_shippingAddress rq) ;;
                     ret (Some (a_id address))
                   else ret None
               | None => ret None
               end) ;;
            order ⇐
              order_create (env_orderId env)
                (orderData env rq subtotal shippingCost discountAmount total
                   addressId (fst <$> discountCodeRecord))
                (orderItem_ofInput (env_orderId env) <$> acc_orderItems acc)
                [ {| tl_orderId := env_orderId env; tl_status := PENDING;
                     tl_note := "Order created, awaiting payment" |} ] ;;
            coupon ⇐
              (match discountCodeRecord with
               | Some (_, d) => c ⇐ getOrCreateStripeCoupon d ;; ret (Some c)
               | None => ret None
               end) ;;
            checkoutSession ⇐
              await (checkout_sessions_create stripe
                       {| sp_line_items := acc_lineItems acc;
                          sp_coupon := coupon;
                          sp_shipping_amount := Math_round (shippingCost * 100)%float;
                          sp_customer_email := rq_email rq;
                          sp_orderId := env_orderId env;
                          sp_orderNumber := o_orderNumber order |}) ;;
            order_update (env_orderId env)
              (order_withStripePaymentId (so_id checkoutSession)) [] ;;;
            ret (CheckoutCreated (so_url checkoutSession) (so_id checkoutSession)
                   (env_orderId env) (o_orderNumber order))
        end
    end.

(** ** The payment webhook ([POST /stripe]) *)

Inductive WebhookResponse :=
  (** [res.status(400).send(`Webhook Error: ...`)] *)
  | WebhookError (status : Z)
  (** [res.json({ received: true })] *)
  | WebhookReceived.

Definition order_confirmPayment (o : Order) : Order :=
  {| o_orderNumber := o_orderNumber o; o_userId := o_userId o; o_email := o_email o;
     o_phone := o_phone o;
     o_status := CONFIRMED;
     o_paymentStatus := PAID;
     o_paymentMethod := Some "stripe";
     o_stripePaymentId := o_stripePaymentId o;
     o_subtotal := o_subtotal o; o_shippingCost := o_shippingCost o;
     o_discountAmount := o_discountAmount o; o_total := o_total o;
     o_currency := o_currency o; o_notes := o_notes o;
     o_shippingAddressId := o_shippingAddressId o;
     o_discountCodeId := o_discountCodeId o;
     o_trackingNumber := o_trackingNumber o; o_shippedAt := o_shippedAt o;
     o_deliveredAt := o_deliveredAt o; o_cancelledAt := o_cancelledAt o |}.

(** The body of both inventory loops: the variant's stock when the line item
    has a variant, the product's otherwise. *)
Definition updateInventory (op : Z → NumberOp) (item : OrderItem) : Task unit :=
  match oi_variantId item with
  | Some variantId =>
      if truthy (Some variantId)
      then productVariant_update variantId (op (oi_quantity item))
      else product_update (oi_productId item) (op (oi_quantity item))
  | None => product_update (oi_productId item) (op (oi_quantity item))
  end.

Definition handleCheckoutComplete (session : StripeObject) : Task unit :=
  match so_orderId session with
  | Some orderId =>
      if truthy (Some orderId) then
        tryCatch (
          order ⇐ order_update orderId order_confirmPayment
                    [ {| tl_orderId := orderId; tl_status := CONFIRMED;
                         tl_note := "Payment received via Stripe" |} ] ;;
          items ⇐ gets (orderItem_findMany orderId) ;;
          forEach items (updateInventory decrement) ;;;
          (match o_discountCodeId order with
           | Some discountCodeId =>
               if truthy (Some discountCodeId)
               then discountCode_update discountCodeId (increment 1)
               else ret tt
           | None => ret tt
           end) ;;;
          (match o_userId order with
           | Some userId =>
               if truthy (Some userId) then cartItem_deleteMany userId else ret tt
           | None => ret tt
           end))
      else ret tt
  | None => ret tt
  end.

(** [handlePaymentFailed] only logs. *)
Definition handlePaymentFailed (paymentIntent : StripeObject) : Task unit := ret tt.

Definition stripeWebhook (body sig : string) : Task WebhookResponse :=
  match webhooks_constructEvent stripe body sig webhookSecret with
  | None => ret (WebhookError 400)
  | Some event =>
      (if String.eqb (ev_type event) "checkout.session.completed"
       then handleCheckoutComplete (ev_object event)
       else if String.eqb (ev_type event) "payment_intent.succeeded"
       then ret tt
       else if String.eqb (ev_type event) "payment_intent.payment_failed"
       then handlePaymentFailed (ev_object event)
       else ret tt) ;;;
      ret WebhookReceived
  end.

(** ** Cancellation ([POST /:id/cancel]) *)

Inductive CancelResponse :=
  | CancelNotFound
  | CancelDenied
  | CancelTooLate
  | Cancelled (order : Order).

Definition order_cancel (now : Z) (o : Order) : Order :=
  {| o_orderNumber := o_orderNumber o; o_userId := o_userId o; o_email := o_email o;
     o_phone := o_phone o;
     o_status := CANCELLED;
     o_paymentStatus :=
       if decide (o_paymentStatus o = PAID) then PAYMENT_REFUNDED else o_paymentStatus o;
     o_paymentMethod := o_paymentMethod o;
     o_stripePaymentId := o_stripePaymentId o;
     o_subtotal := o_subtotal o; o_shippingCost := o_shippingCost o;
     o_discountAmount := o_discountAmount o; o_total := o_total o;
     o_currency := o_currency o; o_notes := o_notes o;
     o_shippingAddressId := o_shippingAddressId o;
     o_discountCodeId := o_discountCodeId o;
     o_trackingNumber := o_trackingNumber o; o_shippedAt := o_shippedAt o;
     o_deliveredAt := o_deliveredAt o; o_cancelledAt := Some now |}.

(** [stripe.refunds.create({ payment_intent })]: the call is recorded, then
    succeeds or throws. *)
Definition refund (payment_intent : string) : Task unit :=
  modify (set_refundCalls (cons payment_intent)) ;;;
  if refunds_create stripe payment_intent then ret tt else throw stripeError.

(** The block "If paid, initiate refund". *)
Definition refundIfPaid (order : Order) : Task unit :=
  if bool_decide (o_paymentStatus order = PAID) && truthy (o_stripePaymentId order)
  then
    session ⇐ await (sid ← o_stripePaymentId order;
                      checkout_sessions_retrieve stripe sid) ;;
    match so_payment_intent session with
    | Some payment_intent =>
        if truthy (Some payment_intent) then refund payment_intent else ret tt
    | None => ret tt
    end
  else ret tt.

Definition cancelNote (reason : option string) : string :=
  match reason with
  | Some r => if truthy (Some r) then r else "Cancelled by customer"
  | None => "Cancelled by customer"
  end.

Definition cancelOrder (now : Z) (userId id : string) (reason : option string)
    : Task CancelResponse :=
  found ⇐ order_findUnique id ;;
  match found with
  | None => ret CancelNotFound
  | Some order =>
      if negb (bool_decide (o_userId order = Some userId)) then ret CancelDenied
      else if negb (bool_decide (o_status order = PENDING)
                    || bool_decide (o_status order = CONFIRMED))
      then ret CancelTooLate
      else
        refundIfPaid order ;;;
        updated ⇐ order_update id (order_cancel now)
                    [ {| tl_orderId := id; tl_status := CANCELLED;
                         tl_note := cancelNote reason |} ] ;;
        items ⇐ gets (orderItem_findMany id) ;;
        forEach items (updateInventory increment) ;;;
        ret (Cancelled updated)
  end.

(** ** Merging a guest cart ([POST /merge]) *)

Inductive MergeResponse :=
  | MergeUnauthenticated
  | MergeNothing
  | MergeDone.

(** [prisma.cartItem.findFirst({ where })]. *)
Definition cartItem_findFirst (where_ : CartItem → bool) (w : World) : option CartItem :=
  List.find where_ (cartItems w).

Definition mergeGuestItem (userId : string) (guestItem : CartItem) : Task unit :=
  existingUserItem ⇐
    gets (cartItem_findFirst
            (cartWhere (Some userId) None (Some (ci_productId guestItem))
               (Some (ci_variantId guestItem)))) ;;
  match existingUserItem with
  | Some existing =>
      cartItem_update (ci_id existing)
        (cart_withQuantity (ci_quantity existing + ci_quantity guestItem)) ;;;
      cartItem_delete (ci_id guestItem)
  | None =>
      cartItem_update (ci_id guestItem) (cart_withOwner (Some userId) None)
  end.

Definition mergeCart (userId sessionId : option string) : Task MergeResponse :=
  match userId with
  | None => ret MergeUnauthenticated
  | Some userId =>
      if negb (truthy (Some userId)) then ret MergeUnauthenticated
      else if negb (truthy sessionId) then ret MergeNothing
      else
        guestItems ⇐ gets (λ w, List.filter (cartWhere None sessionId None None)
                                   (cartItems w)) ;;
        forEach guestItems (mergeGuestItem userId) ;;;
        ret MergeDone
  end.

End Handlers.

(** ** Reading an order ([GET /:id], [GET /track/:orderNumber]) *)

Inductive GetOrderResponse :=
  | OrderNotFound
  | OrderAccessDenied
  | OrderFound (order : Order).

(** [req.userId === order.userId], where [req.userId] is a string or
    [undefined] and the column a string or [null]: [undefined] and [null] are
    not strictly equal. *)
Definition sameUser (reqUserId orderUserId : option string) : bool :=
  match reqUserId, orderUserId with
  | Some a, Some b => String.eqb a b
  | _, _ => false
  end.

Definition getOrder (userId userRole : option string) (id : string)
    : Task GetOrderResponse :=
  found ⇐ order_findUnique id ;;
  match found with
  | None => ret OrderNotFound
  | Some order =>
      if negb (sameUser userId (o_userId order))
         && negb (bool_decide (userRole = Some "ADMIN"))
      then ret OrderAccessDenied
      else ret (OrderFound order)
  end.

(** [prisma.order.findUnique({ where: { orderNumber } })]. *)
Definition order_findByNumber (orderNumber : string) (w : World) : option Order :=
  (λ kv, snd (snd kv))
    <$> list_find (λ kv, o_orderNumber kv.2 = orderNumber) (map_to_list (orders w)).

Definition trackOrder (orderNumber : string) (email : option string)
    : Task GetOrderResponse :=
  found ⇐ gets (order_findByNumber orderNumber) ;;
  match found with
  | None => ret OrderNotFound
  | Some order =>
      match email with
      | Some email =>
          if truthy (Some email)
             && negb (String.eqb (toLowerCase (o_email order)) (toLowerCase email))
          then ret OrderAccessDenied
          else ret (OrderFound order)
      | None => ret (OrderFound order)
      end
  end.

(** ** Status changes by an administrator ([PATCH /:id/status]) *)

Inductive StatusResponse :=
  | StatusForbidden
  | StatusNotFound
  | StatusUpdated (order : Order).

(** The [isAdmin] middleware lets the request through. *)
Definition isAdmin (userRole : option string) : bool :=
  bool_decide (userRole = Some "ADMIN") || bool_decide (userRole = Some "SUPER_ADMIN").

Definition statusName (s : OrderStatus) : string :=
  match s with
  | PENDING => "PENDING"
  | CONFIRMED => "CONFIRMED"
  | PROCESSING => "PROCESSING"
  | SHIPPED => "SHIPPED"
  | DELIVERED => "DELIVERED"
  | CANCELLED => "CANCELLED"
  | REFUNDED => "REFUNDED"
  end.

(** The [updateData] of the handler applied to the stored row. *)
Definition order_withStatus (now : Z) (status : OrderStatus)
    (trackingNumber : option string) (o : Order) : Order :=
  let shipped := bool_decide (status = SHIPPED) && truthy trackingNumber in
  {| o_orderNumber := o_orderNumber o; o_userId := o_userId o; o_email := o_email o;
     o_phone := o_phone o;
     o_status := status;
     o_paymentStatus := o_paymentStatus o; o_paymentMethod := o_paymentMethod o;
     o_stripePaymentId := o_stripePaymentId o;
     o_subtotal := o_subtotal o; o_shippingCost := o_shippingCost o;
     o_discountAmount := o_discountAmount o; o_total := o_total o;
     o_currency := o_currency o; o_notes := o_notes o;
     o_shippingAddressId := o_shippingAddressId o;
     o_discountCodeId := o_discountCodeId o;
     o_trackingNumber := if shipped then trackingNumber else o_trackingNumber o;
     o_shippedAt := if shipped then Some now else o_shippedAt o;
     o_deliveredAt :=
       if bool_decide (status = DELIVERED) then Some now else o_deliveredAt o;
     o_cancelledAt := o_cancelledAt o |}.

Definition updateOrderStatus (now : Z) (userRole : option string) (id : string)
    (status : OrderStatus) (trackingNumber note : option string)
    : Task StatusResponse :=
  if negb (isAdmin userRole) then ret StatusForbidden
  else
    found ⇐ order_findUnique id ;;
    match found with
    | None => ret StatusNotFound
    | Some _ =>
        updated ⇐ order_update id (order_withStatus now status trackingNumber)
                    [ {| tl_orderId := id; tl_status := status;
                         tl_note := match note with
                                    | Some n =>
                                        if truthy (Some n) then n
                                        else "Status updated to " +:+ statusName status
                                    | None => "Status updated to " +:+ statusName status
                                    end |} ] ;;
        ret (StatusUpdated updated)
    end.

(** ** The cart router *)

Inductive CartResponse :=
  | CartProductNotFound
  | CartVariantNotFound
  | CartNotEnoughStock (available : Z)
  | CartItemNotFound
  | CartSaved (item : CartItem)
  | CartItemRemoved
  | CartCleared.

(** [getSessionId]: the session of the request, or a fresh one. *)
Definition getSessionId (cartSession : option string) (uuid : string) : string :=
  match cartSession with
  | Some s => if truthy (Some s) then s else uuid
  | None => uuid
  end.

(** [...(req.userId ? { userId: req.userId } : { sessionId })] with further
    filters. *)
Definition identityWhere (userId : option string) (sessionId : string)
    (productId : option string) (variantId : option (option string))
    : CartItem → bool :=
  if truthy userId then cartWhere userId None productId variantId
  else cartWhere None (Some sessionId) productId variantId.

(** [product.variants.find(v => v.id === variantId)]. *)
Definition product_variant (w : World) (productId variantId : string)
    : option ProductVariant :=
  v ← productVariants w !! variantId;
  if String.eqb (v_productId v) productId then Some v else None.

Definition foreignKeyFailed : string := "Foreign key constraint failed".

(** [prisma.cartItem.create({ data })]: the key is fresh and the product and
    variant references resolve, or the call throws. *)
Definition cartItem_create (c : CartItem) : Task CartItem :=
  λ w, if decide (Exists (λ c', ci_id c' = ci_id c) (cartItems w))
       then (Thrown uniqueConstraintFailed, w)
       else if bool_decide (is_Some (products w !! ci_productId c))
               && match ci_variantId c with
                  | Some v => bool_decide (is_Some (productVariants w !! v))
                  | None => true
                  end
       then (Done c, set_cartItems (λ l, l ++ [c]) w)
       else (Thrown foreignKeyFailed, w).

(** [prisma.cartItem.deleteMany({ where })]. *)
Definition cartItem_deleteManyWhere (where_ : CartItem → bool) : Task unit :=
  modify (set_cartItems (List.filter (λ c, negb (where_ c)))).

Record CartLine := {
  cl_id : string;
  cl_productId : string;
  cl_variantId : option string;
  cl_quantity : Z;
  cl_inStock : bool;
  cl_availableQuantity : Z;
  cl_price : number;
  cl_total : number;
}.

Record CartView := {
  cv_items : list CartLine;
  cv_itemCount : Z;
  cv_subtotal : number;
}.

Definition cartLine (row : CartRow) : CartLine :=
  {| cl_id := ci_id (row_item row);
     cl_productId := ci_productId (row_item row);
     cl_variantId := ci_variantId (row_item row);
     cl_quantity := ci_quantity (row_item row);
     cl_inStock := (0 <? p_quantity (row_product row))
                   || p_allowBackorder (row_product row);
     cl_availableQuantity := p_quantity (row_product row);
     cl_price := rowPrice row;
     cl_total := (rowPrice row * ofInt (ci_quantity (row_item row)))%float |}.

(** [GET /]. *)
Definition getCart (userId : option string) (sessionId : string) : Task CartView :=
  cartRows ⇐ cartItem_findManyInclude (identityWhere userId sessionId None None) ;;
  let items := cartLine <$> cartRows in
  ret {| cv_items := items;
         cv_itemCount := fold_left (λ sum item, sum + cl_quantity item) items 0;
         cv_subtotal :=
           fold_left (λ subtotal item, (subtotal + cl_total item)%float) items 0%float |}.

(** [POST /add], for a body that passed [addToCartSchema]. *)
Definition addToCart (newId : string) (userId : option string) (sessionId : string)
    (productId : string) (variantId : option string) (quantity : Z)
    : Task CartResponse :=
  product ⇐ gets (λ w, products w !! productId) ;;
  match product with
  | None => ret CartProductNotFound
  | Some product =>
      if negb (p_isActive product) then ret CartProductNotFound
      else
        variant ⇐ gets (λ w, v ← variantId; product_variant w productId v) ;;
        if truthy variantId
           && match variant with
              | Some v => negb (v_isActive v)
              | None => true
              end
        then ret CartVariantNotFound
        else
          let availableQty :=
            if truthy variantId
            then match variant with Some v => v_quantity v | None => 0 end
            else p_quantity product in
          if negb (p_allowBackorder product) && (availableQty <? quantity)
          then ret (CartNotEnoughStock availableQty)
          else
            existingItem ⇐
              gets (cartItem_findFirst
                      (identityWhere userId sessionId (Some productId)
                         (Some (if truthy variantId then variantId else None)))) ;;
            match existingItem with
            | Some existing =>
                let newQuantity := ci_quantity existing + quantity in
                if negb (p_allowBackorder product) && (availableQty <? newQuantity)
                then ret (CartNotEnoughStock availableQty)
                else
                  cartItem_update (ci_id existing) (cart_withQuantity newQuantity) ;;;
                  ret (CartSaved (cart_withQuantity newQuantity existing))
            | None =>
                created ⇐
                  cartItem_create
                    {| ci_id := newId;
                       ci_userId := if truthy userId then userId else None;
                       ci_sessionId := if truthy userId then None else Some sessionId;
                       ci_productId := productId;
                       ci_variantId := variantId;
                       ci_quantity := quantity |} ;;
                ret (CartSaved created)
            end
  end.

Definition ownItem (userId : option string) (sessionId itemId : string)
    (c : CartItem) : bool :=
  String.eqb (ci_id c) itemId && identityWhere userId sessionId None None c.

(** [PUT /:itemId], for a body that passed [updateCartSchema]. *)
Definition updateCartItem (userId : option string) (sessionId itemId : string)
    (quantity : Z) : Task CartResponse :=
  cartItem ⇐ gets (cartItem_findFirst (ownItem userId sessionId itemId)) ;;
  match cartItem with
  | None => ret CartItemNotFound
  | Some item =>
      row ⇐ (λ w, match includeProductVariant w item with
                  | Some row => (Done row, w)
                  | None => (Thrown "Inconsistent query result", w)
                  end) ;;
      if negb (p_allowBackorder (row_product row)) && (rowAvailableQty row <? quantity)
      then ret (CartNotEnoughStock (rowAvailableQty row))
      else
        cartItem_update itemId (cart_withQuantity quantity) ;;;
        ret (CartSaved (cart_withQuantity quantity item))
  end.

(** [DELETE /:itemId]. *)
Definition removeCartItem (userId : option string) (sessionId itemId : string)
    : Task CartResponse :=
  cartItem ⇐ gets (cartItem_findFirst (ownItem userId sessionId itemId)) ;;
  match cartItem with
  | None => ret CartItemNotFound
  | Some _ => cartItem_delete itemId ;;; ret CartItemRemoved
  end.

(** [DELETE /]. *)
Definition clearCart (userId : option string) (sessionId : string) : Task CartResponse :=
  cartItem_deleteManyWhere (identityWhere userId sessionId None None) ;;;
  ret CartCleared.

(** ** A small store to run the handlers on

    The catalogue and the discount codes follow [prisma/seed.ts]. *)

Module Sample.

Definition productA : Product :=
  {| p_name := "Product A"; p_sku := Some "ZPS-A"; p_price := 50%float;
     p_quantity := 10; p_allowBackorder := false; p_isActive := true |}.

Definition variantLarge : ProductVariant :=
  {| v_productId := "prod-a"; v_name := "Large"; v_sku := None;
     v_price := 60%float; v_quantity := 1; v_isActive := true |}.

Definition welcome10 : DiscountCode :=
  {| dc_code := "WELCOME10"; dc_type := PERCENTAGE; dc_value := 10%float;
     dc_minOrderAmount := None; dc_maxUses := None; dc_usedCount := 0;
     dc_expiresAt := None; dc_isActive := true |}.

Definition save20 : DiscountCode :=
  {| dc_code := "SAVE20"; dc_type := FIXED_AMOUNT; dc_value := 20%float;
     dc_minOrderAmount := Some 100%float; dc_maxUses := None; dc_usedCount := 0;
     dc_expiresAt := None; dc_isActive := true |}.

Definition freeship : DiscountCode :=
  {| dc_code := "FREESHIP"; dc_type := FREE_SHIPPING; dc_value := 0%float;
     dc_minOrderAmount := Some 50%float; dc_maxUses := None; dc_usedCount := 0;
     dc_expiresAt := None; dc_isActive := true |}.

(** Codes an administrator can create through [POST /discounts]. *)
Definition never : DiscountCode :=
  {| dc_code := "NEVER"; dc_type := FIXED_AMOUNT; dc_value := 5%float;
     dc_minOrderAmount := None; dc_maxUses := Some 0; dc_usedCount := 0;
     dc_expiresAt := None; dc_isActive := true |}.

Definition retired : DiscountCode :=
  {| dc_code := "RETIRED"; dc_type := FIXED_AMOUNT; dc_value := 5%float;
     dc_minOrderAmount := None; dc_maxUses := None; dc_usedCount := 0;
     dc_expiresAt := None; dc_isActive := false |}.

Definition lapsed : DiscountCode :=
  {| dc_code := "LAPSED"; dc_type := FIXED_AMOUNT; dc_value := 5%float;
     dc_minOrderAmount := None; dc_maxUses := None; dc_usedCount := 0;
     dc_expiresAt := Some 1000; dc_isActive := true |}.

Definition spent : DiscountCode :=
  {| dc_code := "SPENT"; dc_type := FIXED_AMOUNT; dc_value := 5%float;
     dc_minOrderAmount := None; dc_maxUses := Some 3; dc_usedCount := 3;
     dc_expiresAt := None; dc_isActive := true |}.

Definition big500 : DiscountCode :=
  {| dc_code := "BIG500"; dc_type := FIXED_AMOUNT; dc_value := 5%float;
     dc_minOrderAmount := Some 500%float; dc_maxUses := None; dc_usedCount := 0;
     dc_expiresAt := None; dc_isActive := true |}.

Definition cartOf (id : string) (userId sessionId : option string)
    (productId : string) (variantId : option string) (quantity : Z) : CartItem :=
  {| ci_id := id; ci_userId := userId; ci_sessionId := sessionId;
     ci_productId := productId; ci_variantId := variantId; ci_quantity := quantity |}.

(** A signed-in customer with two units of product A in the cart, a guest
    session holding product A and its Large variant, a second guest session
    asking for two Large when one is left, and no order yet. *)
Definition world : World :=
  {| products := {[ "prod-a" := productA ]};
     productVariants := {[ "var-large" := variantLarge ]};
     discountCodes :=
       list_to_map
         [ ("dc-welcome", welcome10); ("dc-save", save20); ("dc-ship", freeship);
           ("dc-never", never); ("dc-retired", retired); ("dc-lapsed", lapsed);
           ("dc-spent", spent); ("dc-big", big500) ];
     orders := ∅;
     cartItems :=
       [ cartOf "ci-1" (Some "user-1") None "prod-a" None 2;
         cartOf "ci-2" None (Some "sess-1") "prod-a" None 3;
         cartOf "ci-3" None (Some "sess-1") "prod-a" (Some "var-large") 1;
         cartOf "ci-4" None (Some "sess-2") "prod-a" (Some "var-large") 2 ];
     orderItems := [];
     orderTimeline := [];
     addresses := [];
     refundCalls := [] |}.

Definition address : ShippingAddress :=
  {| sa_firstName := "Rana"; sa_lastName := "Saleh"; sa_phone := "0590000000";
     sa_street := "1 Main St"; sa_city := "Ramallah"; sa_state := None;
     sa_postalCode := None; sa_country := "PS" |}.

Definition request (discountCode : option string) : CheckoutRequest :=
  {| rq_userId := Some "user-1"; rq_cartSession := None;
     rq_email := "rana@example.com"; rq_phone := None;
     rq_shippingAddress := address; rq_discountCode := discountCode;
     rq_notes := None |}.

Definition env : Env :=
  {| env_now := 1705314600000;
     env_isoNow := "2024-01-15T10:30:00.000Z";
     env_random36 := "0.a3b7k2m9x1";
     env_orderId := "order-1";
     env_addressId := "addr-1" |}.

Definition secret : string := "whsec_test".

(** The event the gateway sends when the session of [orderId] completes. *)
Definition event (orderId : string) : StripeEvent :=
  {| ev_type := "checkout.session.completed";
     ev_object := {| so_id := "cs_1"; so_url := None;
                     so_payment_intent := Some "pi_1";
                     so_orderId := Some orderId |} |}.

(** A gateway that accepts every call; an event verifies when its signature
    header is the secret, and then names the order given in the body. *)
Definition stripe : Stripe :=
  {| webhooks_constructEvent := λ body sig key,
       if String.eqb sig key then Some (event body) else None;
     coupons_retrieve := λ code, Some code;
     coupons_create := λ params, Some (cp_id params);
     checkout_sessions_create := λ params,
       Some {| so_id := "cs_1"; so_url := Some "https://checkout.stripe.com/cs_1";
               so_payment_intent := None; so_orderId := Some (sp_orderId params) |};
     checkout_sessions_retrieve := λ id,
       Some {| so_id := id; so_url := None; so_payment_intent := Some "pi_1";
               so_orderId := None |};
     refunds_create := λ _, true |}.

Definition round : number → number := λ x, x.

Definition guestRequest (session : string) : CheckoutRequest :=
  {| rq_userId := None; rq_cartSession := Some session;
     rq_email := "guest@example.com"; rq_phone := None;
     rq_shippingAddress := address; rq_discountCode := None;
     rq_notes := None |}.

(** The cart of the signed-in customer, as [checkout] loads it. *)
Definition userRows : list CartRow :=
  [ {| row_item := cartOf "ci-1" (Some "user-1") None "prod-a" None 2;
       row_product := productA; row_variant := None |} ].


(** What the stock loop accumulates over [userRows]. *)
Definition userAcc : CheckoutAcc :=
  {| acc_subtotal := 100%float;
     acc_lineItems := [ rowLineItem round
                          {| row_item := cartOf "ci-1" (Some "user-1") None "prod-a" None 2;
                             row_product := productA; row_variant := None |} ];
     acc_orderItems := [ rowOrderItem
                           {| row_item := cartOf "ci-1" (Some "user-1") None "prod-a" None 2;
                              row_product := productA; row_variant := None |} ] |}.

(** The order that checking out with WELCOME10 creates. *)
Definition welcomeOrder : Order :=
  {| o_orderNumber := "ZPS-20240115-A3B7"; o_userId := Some "user-1";
     o_email := "rana@example.com"; o_phone := None;
     o_status := PENDING; o_paymentStatus := PAYMENT_PENDING;
     o_paymentMethod := None; o_stripePaymentId := Some "cs_1";
     o_subtotal := 100%float; o_shippingCost := 25%float;
     o_discountAmount := 10%float; o_total := 115%float;
     o_currency := "ILS"; o_notes := None;
     o_shippingAddressId := Some "addr-1";
     o_discountCodeId := Some "dc-welcome";
     o_trackingNumber := None; o_shippedAt := None; o_deliveredAt := None;
     o_cancelledAt := None |}.

(** The order that checking out without a code creates. *)
Definition plainOrder : Order :=
  {| o_orderNumber := "ZPS-20240115-A3B7"; o_userId := Some "user-1";
     o_email := "rana@example.com"; o_phone := None;
     o_status := PENDING; o_paymentStatus := PAYMENT_PENDING;
     o_paymentMethod := None; o_stripePaymentId := Some "cs_1";
     o_subtotal := 100%float; o_shippingCost := 25%float;
     o_discountAmount := 0%float; o_total := 125%float;
     o_currency := "ILS"; o_notes := None;
     o_shippingAddressId := Some "addr-1";
     o_discountCodeId := None;
     o_trackingNumber := None; o_shippedAt := None; o_deliveredAt := None;
     o_cancelledAt := None |}.

(** The order the first guest session's checkout creates: three units of
    product A and one Large, above the free-shipping threshold. *)
Definition guestOrder : Order :=
  {| o_orderNumber := "ZPS-20240115-A3B7"; o_userId := None;
     o_email := "guest@example.com"; o_phone := None;
     o_status := PENDING; o_paymentStatus := PAYMENT_PENDING;
     o_paymentMethod := None; o_stripePaymentId := Some "cs_1";
     o_subtotal := 210%float; o_shippingCost := 0%float;
     o_discountAmount := 0%float; o_total := 210%float;
     o_currency := "ILS"; o_notes := None;
     o_shippingAddressId := None;
     o_discountCodeId := None;
     o_trackingNumber := None; o_shippedAt := None; o_deliveredAt := None;
     o_cancelledAt := None |}.

(** The store after the first guest session checked out. *)
Definition guestOrdered : World :=
  (checkout stripe round env (guestRequest "sess-1") world).2.

(** The cart of the first guest session. *)
Definition sessionRows : list CartRow :=
  [ {| row_item := cartOf "ci-2" None (Some "sess-1") "prod-a" None 3;
       row_product := productA; row_variant := None |};
    {| row_item := cartOf "ci-3" None (Some "sess-1") "prod-a" (Some "var-large") 1;
       row_product := productA; row_variant := Some variantLarge |} ].

(** The payment session the gateway holds for a stored reference. *)
Definition session (id : string) : StripeObject :=
  {| so_id := id; so_url := None; so_payment_intent := Some "pi_1";
     so_orderId := None |}.

(** A gateway that opens no payment session and refuses refunds. *)
Definition stripeDown : Stripe :=
  {| webhooks_constructEvent := webhooks_constructEvent stripe;
     coupons_retrieve := coupons_retrieve stripe;
     coupons_create := coupons_create stripe;
     checkout_sessions_create := λ _, None;
     checkout_sessions_retrieve := checkout_sessions_retrieve stripe;
     refunds_create := λ _, false |}.

(** A later request at the same instant with the same random draw. *)
Definition env2 : Env :=
  {| env_now := 1705314600000;
     env_isoNow := "2024-01-15T10:30:00.000Z";
     env_random36 := "0.a3b7k2m9x1";
     env_orderId := "order-2";
     env_addressId := "addr-2" |}.

(** A paid order that carries no payment-session reference, and a store
    holding it. *)
Definition unreferencedOrder : Order :=
  {| o_orderNumber := "ZPS-20240110-Q1W2"; o_userId := Some "user-1";
     o_email := "rana@example.com"; o_phone := None;
     o_status := CONFIRMED; o_paymentStatus := PAID;
     o_paymentMethod := Some "stripe"; o_stripePaymentId := None;
     o_subtotal := 100%float; o_shippingCost := 25%float;
     o_discountAmount := 0%float; o_total := 125%float;
     o_currency := "ILS"; o_notes := None;
     o_shippingAddressId := None;
     o_discountCodeId := None;
     o_trackingNumber := None; o_shippedAt := None; o_deliveredAt := None;
     o_cancelledAt := None |}.

Definition unreferenced : World :=
  set_orders (insert "order-9" unreferencedOrder) world.

(** Product W costs 169.99; a third customer holds five of them. *)
Definition productW : Product :=
  {| p_name := "Product W"; p_sku := Some "ZPS-W"; p_price := ofHundredths 16999;
     p_quantity := 20; p_allowBackorder := false; p_isActive := true |}.

Definition boutique : World :=
  set_products (insert "prod-w" productW)
    (set_cartItems (λ l, l ++ [cartOf "ci-5" (Some "user-3") None "prod-w" None 5])
       world).

Definition request3 (discountCode : option string) : CheckoutRequest :=
  {| rq_userId := Some "user-3"; rq_cartSession := None;
     rq_email := "lina@example.com"; rq_phone := None;
     rq_shippingAddress := address; rq_discountCode := discountCode;
     rq_notes := None |}.

Definition checkout (discountCode : option string) : outcome CheckoutResponse * World :=
  checkout stripe round env (request discountCode) world.

(** The store after the customer checked out with [discountCode]. *)
Definition ordered (discountCode : option string) : World :=
  (checkout discountCode).2.

(** The store after the gateway reported that checkout as paid. *)
Definition paid (discountCode : option string) : World :=
  (stripeWebhook stripe secret "order-1" secret (ordered discountCode)).2.

End Sample.

(** ** The order-number format *)

Fixpoint allChars (p : ascii → bool) (s : string) : bool :=
  match s with
  | EmptyString => true
  | String c s' => p c && allChars p s'
  end.

Definition isUpperAlnum (c : ascii) : bool := isDigit c || isUpper c.

(** [ZPS-], eight digits, a dash, four upper-case letters or digits. *)
Definition isOrderNumber (s : string) : bool :=
  (String.length s =? 17)%nat
  && String.eqb (substring 0 4 s) "ZPS-"
  && allChars isDigit (substring 4 12 s)
  && String.eqb (substring 12 13 s) "-"
  && allChars isUpperAlnum (substring 13 17 s).

Definition isBase36 (c : ascii) : bool := isDigit c || isLower c.

(** [YYYY-MM-DD]: the first ten characters of [toISOString()] for the years
    0 to 9999. *)
Definition isIsoDate (s : string) : bool :=
  match s with
  | String y1 (String y2 (String y3 (String y4 (String h1 (String m1 (String m2
      (String h2 (String d1 (String d2 EmptyString))))))))) =>
      isDigit y1 && isDigit y2 && isDigit y3 && isDigit y4 && Ascii.eqb h1 "-"
      && isDigit m1 && isDigit m2 && Ascii.eqb h2 "-" && isDigit d1 && isDigit d2
  | _ => false
  end.

(** ** Notions used in the statements *)

(** The subtotal of a loaded cart: the unit prices times the quantities,
    added up in cart order from zero. *)
Definition cartSubtotal (rows : list CartRow) : number :=
  fold_left (λ s row, (s + rowPrice row * ofInt (ci_quantity (row_item row)))%float)
    rows 0%float.

(** The stock row a line item draws on: [inr] its variant, [inl] its product. *)
Definition stockTarget (it : OrderItem) : string + string :=
  match oi_variantId it with
  | Some v => if truthy (Some v) then inr v else inl (oi_productId it)
  | None => inl (oi_productId it)
  end.

(** Units ordered from one stock row over a list of line items. *)
Fixpoint unitsFor (target : string + string) (items : list OrderItem) : Z :=
  match items with
  | [] => 0
  | it :: rest =>
      (if decide (stockTarget it = target) then oi_quantity it else 0)
      + unitsFor target rest
  end.

(** The stock row of a line item exists (the foreign keys of [OrderItem]). *)
Definition inStore (w : World) (it : OrderItem) : Prop :=
  match stockTarget it with
  | inl p => is_Some (products w !! p)
  | inr v => is_Some (productVariants w !! v)
  end.

Definition restock (n : Z) (p : Product) : Product :=
  product_withQuantity (p_quantity p + n) p.

Definition restockVariant (n : Z) (v : ProductVariant) : ProductVariant :=
  variant_withQuantity (v_quantity v + n) v.

(** The signed change an operation makes. *)
Definition delta (op : NumberOp) : Z := applyOp op 0.

Fixpoint netFor (op : Z → NumberOp) (target : string + string)
    (items : list OrderItem) : Z :=
  match items with
  | [] => 0
  | it :: rest =>
      (if decide (stockTarget it = target) then delta (op (oi_quantity it)) else 0)
      + netFor op target rest
  end.

(** Two stores that differ at most in stock quantities, by [dp] and [dv]. *)
Record StockMoved (dp dv : string → Z) (w w' : World) : Prop := {
  sm_products : ∀ p, products w' !! p = restock (dp p) <$> products w !! p;
  sm_variants : ∀ v, productVariants w' !! v
                     = restockVariant (dv v) <$> productVariants w !! v;
  sm_discountCodes : discountCodes w' = discountCodes w;
  sm_orders : orders w' = orders w;
  sm_cartItems : cartItems w' = cartItems w;
  sm_orderItems : orderItems w' = orderItems w;
  sm_orderTimeline : orderTimeline w' = orderTimeline w;
  sm_addresses : addresses w' = addresses w;
  sm_refundCalls : refundCalls w' = refundCalls w;
}.

Definition redeem (n : Z) (d : DiscountCode) : DiscountCode :=
  discount_withUsedCount (dc_usedCount d + n) d.

(** How often a paid order counts against code [c]: once when it references
    [c], never otherwise. *)
Definition usesOf (o : Order) (c : string) : Z :=
  if decide (o_discountCodeId o = Some c ∧ c ≠ "") then 1 else 0.

(** The effect of one completed-session delivery for order [orderId], which
    was [o] before. *)
Record Delivered (orderId : string) (o : Order) (w w' : World) : Prop := {
  dl_orders : orders w' = <[orderId := order_confirmPayment o]> (orders w);
  dl_products :
    ∀ p, products w' !! p
         = restock (- unitsFor (inl p) (orderItem_findMany orderId w))
             <$> products w !! p;
  dl_variants :
    ∀ v, productVariants w' !! v
         = restockVariant (- unitsFor (inr v) (orderItem_findMany orderId w))
             <$> productVariants w !! v;
  dl_discountCodes :
    ∀ c, discountCodes w' !! c = redeem (usesOf o c) <$> discountCodes w !! c;
  dl_orderItems : orderItems w' = orderItems w;
  dl_cartItems :
    cartItems w'
    = match o_userId o with
      | Some userId =>
          if truthy (Some userId)
          then filter (λ c, ci_userId c ≠ Some userId) (cartItems w)
          else cartItems w
      | None => cartItems w
      end;
  dl_refundCalls : refundCalls w' = refundCalls w;
}.

(** The session of a completed-checkout event names order [orderId]. *)
Definition completedSession (orderId : string) (session : StripeObject) : Prop :=
  so_orderId session = Some orderId ∧ orderId ≠ "".

(** [Order_discountCodeId_fkey]: the code an order references is stored. *)
Definition codeInStore (w : World) (o : Order) : Prop :=
  ∀ c, o_discountCodeId o = Some c → c ≠ "" → is_Some (discountCodes w !! c).

(** The tables checkout has no business with: stock, discount codes, carts
    and the refund ledger. *)
Definition stockAndCart (w : World) :=
  (products w, productVariants w, discountCodes w, cartItems w, refundCalls w).

(** A task that leaves [stockAndCart] alone, however it ends. *)
Definition Preserves {A} (m : Task A) : Prop :=
  ∀ w r w', m w = (r, w') → stockAndCart w' = stockAndCart w.

(** The effect of a cancellation of order [id], which was [o] before, after
    the refund calls [refunds] (most recent first). *)
Record CancelEffect (id : string) (now : Z) (reason : option string) (o : Order)
    (refunds : list string) (w w' : World) : Prop := {
  ce_orders : orders w' = <[id := order_cancel now o]> (orders w);
  ce_products :
    ∀ p, products w' !! p
         = restock (unitsFor (inl p) (orderItem_findMany id w)) <$> products w !! p;
  ce_variants :
    ∀ v, productVariants w' !! v
         = restockVariant (unitsFor (inr v) (orderItem_findMany id w))
             <$> productVariants w !! v;
  ce_discountCodes : discountCodes w' = discountCodes w;
  ce_cartItems : cartItems w' = cartItems w;
  ce_orderItems : orderItems w' = orderItems w;
  ce_orderTimeline :
    orderTimeline w'
    = orderTimeline w ++ [ {| tl_orderId := id; tl_status := CANCELLED;
                              tl_note := cancelNote reason |} ];
  ce_refundCalls : refundCalls w' = refunds ++ refundCalls w;
}.

(** The customer may cancel: the order is theirs and not yet processed. *)
Definition cancellable (userId : string) (o : Order) : Prop :=
  o_userId o = Some userId ∧ (o_status o = PENDING ∨ o_status o = CONFIRMED).

(** ** Notions for the cart merge *)

Definition ofUser (u : string) (c : CartItem) : bool :=
  bool_decide (ci_userId c = Some u).

Definition ofSession (s : string) (c : CartItem) : bool :=
  bool_decide (ci_sessionId c = Some s).

Definition samePair (p : string) (v : option string) (c : CartItem) : bool :=
  bool_decide (ci_productId c = p) && bool_decide (ci_variantId c = v).

Definition sumOver (h : CartItem → Z) (l : list CartItem) : Z :=
  foldr (λ c n, h c + n) 0 l.

(** The quantity an owner's cart holds of one (product, variant) pair. *)
Definition pairQuantity (owner : CartItem → bool) (p : string) (v : option string)
    (l : list CartItem) : Z :=
  sumOver (λ c, if owner c && samePair p v c then ci_quantity c else 0) l.

(** [CartItem_pkey]. *)
Definition uniqueKeys (l : list CartItem) : Prop := NoDup (ci_id <$> l).

(** A cart row belongs to a user or to a session, not to both. *)
Definition exclusiveOwner (u s : string) (l : list CartItem) : Prop :=
  Forall (λ c, ci_sessionId c = Some s → ci_userId c ≠ Some u) l.

(** The loop invariant of the merge: [gs] are the guest rows still to move. *)
Record MergeInv (u s : string) (l gs : list CartItem) : Prop := {
  mi_keys : uniqueKeys l;
  mi_pending : NoDup gs;
  mi_present : ∀ g, g ∈ gs → g ∈ l ∧ ofSession s g = true;
  mi_complete : ∀ c, c ∈ l → ofSession s c = true → c ∈ gs;
  mi_exclusive : ∀ c, c ∈ l → ofSession s c = true → ofUser u c = false;
}.

(** Two stores that differ at most in the cart table. *)
Record CartOnly (w w' : World) : Prop := {
  co_products : products w' = products w;
  co_productVariants : productVariants w' = productVariants w;
  co_discountCodes : discountCodes w' = discountCodes w;
  co_orders : orders w' = orders w;
  co_orderItems : orderItems w' = orderItems w;
  co_orderTimeline : orderTimeline w' = orderTimeline w;
  co_addresses : addresses w' = addresses w;
  co_refundCalls : refundCalls w' = refundCalls w;
}.

Definition heldBy (u s p : string) (v : option string) (c : CartItem) : Z :=
  (if ofUser u c && samePair p v c then ci_quantity c else 0)
  + (if ofSession s c && samePair p v c then ci_quantity c else 0).

(** ** Notions for the cart router *)

(** The rows of one identity: the user's when signed in, the session's
    otherwise. *)
Definition ownedBy (userId : option string) (sessionId : string) : CartItem → bool :=
  identityWhere userId sessionId None None.

(** The stock [POST /add] checks a request against. *)
Definition availableFor (w : World) (productId : string) (variantId : option string)
    : Z :=
  if truthy variantId
  then match v ← variantId; product_variant w productId v with
       | Some v => v_quantity v
       | None => 0
       end
  else match products w !! productId with
       | Some p => p_quantity p
       | None => 0
       end.

(** The variant reference [POST /add] searches the cart with. *)
Definition variantKey (variantId : option string) : option string :=
  if truthy variantId then variantId else None.

(** * Properties *)

Lemma cartItem_findManyInclude_loaded rq w rows :
  loadedCart rq w = Some rows →
  cartItem_findManyInclude (checkoutCartWhere rq) w = (Done rows, w).
Proof. unfold loadedCart, cartItem_findManyInclude. by intros ->. Qed.

(** ** Empty cart *)

(** C7. When the cart of the requesting identity holds no row, checkout
    answers 400 with [EmptyCartError] and the store is left as it was: no
    order is created. *)
Theorem checkout_empty_cart stripe Math_round env rq w :
  List.filter (checkoutCartWhere rq) (cartItems w) = [] →
  checkout stripe Math_round env rq w
  = (Done (CheckoutRejected 400 EmptyCartError), w).
Proof.
  intros Hempty. unfold checkout, bind, cartItem_findManyInclude.
  rewrite Hempty. reflexivity.
Qed.

Lemma checkout_empty_cart_witness :
  let rq := {| rq_userId := Some "user-2"; rq_cartSession := None;
               rq_email := "x@example.com"; rq_phone := None;
               rq_shippingAddress := Sample.address; rq_discountCode := None;
               rq_notes := None |} in
  checkout Sample.stripe Sample.round Sample.env rq Sample.world
  = (Done (CheckoutRejected 400 EmptyCartError), Sample.world).
Proof. apply checkout_empty_cart. reflexivity. Defined.

(** ** Stock *)





(** ** Signature check *)

(** C5. A webhook request whose signature does not verify against the
    webhook secret is answered with status 400 and leaves the whole store as
    it was: no order, stock, discount-usage or cart row changes. *)
Theorem stripeWebhook_bad_signature stripe webhookSecret body sig w :
  webhooks_constructEvent stripe body sig webhookSecret = None →
  stripeWebhook stripe webhookSecret body sig w = (Done (WebhookError 400), w).
Proof. intros Hsig. unfold stripeWebhook. by rewrite Hsig. Qed.

Lemma stripeWebhook_bad_signature_witness :
  stripeWebhook Sample.stripe Sample.secret "order-1" "forged"
    (Sample.ordered None)
  = (Done (WebhookError 400), Sample.ordered None).
Proof. apply stripeWebhook_bad_signature. reflexivity. Defined.

(** ** Case mapping *)

(** *** The codec *)

Lemma byte_range c : 0 ≤ byte c < 256.
Proof.
  unfold byte. pose proof (N_ascii_bounded c) as H. lia.
Qed.

Lemma byte_char b : 0 ≤ b < 256 → byte (char b) = b.
Proof.
  intros Hb. unfold byte, char. rewrite N_ascii_embedding by lia. lia.
Qed.

Lemma append_assoc (s1 s2 s3 : string) : (s1 +:+ s2) +:+ s3 = s1 +:+ (s2 +:+ s3).
Proof.
  induction s1 as [|c s1 IH]; [done|].
  change (String c ((s1 +:+ s2) +:+ s3) = String c (s1 +:+ (s2 +:+ s3))).
  by rewrite IH.
Qed.

Lemma append_String c (s t : string) : String c s +:+ t = String c (s +:+ t).
Proof. done. Qed.

Lemma append_empty (t : string) : EmptyString +:+ t = t.
Proof. done. Qed.

Lemma encode_app l1 l2 : encode (l1 ++ l2) = encode l1 +:+ encode l2.
Proof.
  induction l1 as [|cp l1 IH]; [done|].
  change (encode1 cp +:+ encode (l1 ++ l2) = (encode1 cp +:+ encode l1) +:+ encode l2).
  by rewrite IH, append_assoc.
Qed.

Lemma decode_encode1 cp s :
  isScalar cp = true → decode (encode1 cp +:+ s) = cp :: decode s.
Proof.
  unfold isScalar, isSurrogate. intros Hcp.
  apply andb_true_iff in Hcp as [Hcp Hsur]. apply andb_true_iff in Hcp as [H0 Hmax].
  apply Z.leb_le in H0, Hmax. apply negb_true_iff, andb_false_iff in Hsur.
  rewrite !Z.leb_gt in Hsur.
  unfold encode1.
  destruct (cp <? 0x80) eqn:H1; [apply Z.ltb_lt in H1|apply Z.ltb_ge in H1].
  { rewrite !append_String, append_empty. cbn [decode]. rewrite byte_char by lia.
    by rewrite (proj2 (Z.ltb_lt _ _) H1). }
  destruct (cp <? 0x800) eqn:H2; [apply Z.ltb_lt in H2|apply Z.ltb_ge in H2].
  { rewrite !append_String, append_empty. cbn [decode].
    pose proof (Z.div_mod cp 64 ltac:(lia)) as Hdm.
    pose proof (Z.mod_pos_bound cp 64 ltac:(lia)) as Hm.
    rewrite !byte_char by lia.
    rewrite (proj2 (Z.ltb_ge _ _)) by lia.
    unfold decode2, isContinuation.
    rewrite !(proj2 (Z.leb_le _ _)) by lia. cbn [andb]. f_equal. lia. }
  destruct (cp <? 0x10000) eqn:H3; [apply Z.ltb_lt in H3|apply Z.ltb_ge in H3].
  { rewrite !append_String, append_empty. cbn [decode].
    pose proof (Z.div_mod cp 64 ltac:(lia)) as Hdm.
    pose proof (Z.mod_pos_bound cp 64 ltac:(lia)) as Hm.
    pose proof (Z.div_mod (cp / 64) 64 ltac:(lia)) as Hdm'.
    pose proof (Z.mod_pos_bound (cp / 64) 64 ltac:(lia)) as Hm'.
    assert (cp / 4096 = cp / 64 / 64) as Hq by (rewrite Z.div_div by lia; done).
    rewrite !byte_char by lia.
    rewrite (proj2 (Z.ltb_ge _ _)) by lia.
    unfold decode2. rewrite (proj2 (Z.leb_gt (0xE0 + cp / 4096) 0xDF)) by lia.
    rewrite andb_false_r. cbn [andb].
    unfold decode3, isContinuation, isSurrogate.
    assert ((0xE0 + cp / 4096 - 0xE0) * 4096 + (0x80 + (cp / 64) mod 64 - 0x80) * 64
            + (0x80 + cp mod 64 - 0x80) = cp) as -> by lia.
    rewrite !(proj2 (Z.leb_le _ _)) by lia. cbn [andb].
    destruct (0xD800 <=? cp) eqn:Hs1; cbn [andb negb]; [|done].
    destruct (cp <=? 0xDFFF) eqn:Hs2; cbn [negb]; [|done].
    apply Z.leb_le in Hs1, Hs2. lia. }
  rewrite !append_String, append_empty. cbn [decode].
  pose proof (Z.div_mod cp 64 ltac:(lia)) as Hdm.
  pose proof (Z.mod_pos_bound cp 64 ltac:(lia)) as Hm.
  pose proof (Z.div_mod (cp / 64) 64 ltac:(lia)) as Hdm'.
  pose proof (Z.mod_pos_bound (cp / 64) 64 ltac:(lia)) as Hm'.
  pose proof (Z.div_mod (cp / 4096) 64 ltac:(lia)) as Hdm''.
  pose proof (Z.mod_pos_bound (cp / 4096) 64 ltac:(lia)) as Hm''.
  assert (cp / 4096 = cp / 64 / 64) as Hq by (rewrite Z.div_div by lia; done).
  assert (cp / 262144 = cp / 4096 / 64) as Hq' by (rewrite Z.div_div by lia; done).
  rewrite !byte_char by lia.
  rewrite (proj2 (Z.ltb_ge _ _)) by lia.
  unfold decode2. rewrite (proj2 (Z.leb_gt (0xF0 + cp / 262144) 0xDF)) by lia.
  rewrite andb_false_r. cbn [andb].
  unfold decode3. rewrite (proj2 (Z.leb_gt (0xF0 + cp / 262144) 0xEF)) by lia.
  rewrite andb_false_r. cbn [andb].
  unfold decode4, isContinuation.
  assert ((0xF0 + cp / 262144 - 0xF0) * 262144 + (0x80 + (cp / 4096) mod 64 - 0x80) * 4096
          + (0x80 + (cp / 64) mod 64 - 0x80) * 64 + (0x80 + cp mod 64 - 0x80) = cp)
    as -> by lia.
  by rewrite !(proj2 (Z.leb_le _ _)) by lia.
Qed.

Lemma decode_encode l :
  Forall (λ cp, isScalar cp = true) l → decode (encode l) = l.
Proof.
  induction 1 as [|cp l Hcp _ IH]; [done|]. cbn [encode].
  by rewrite decode_encode1, IH.
Qed.

Lemma decode2_scalar b0 b1 cp :
  0 ≤ b0 < 256 → 0 ≤ b1 < 256 → decode2 b0 b1 = Some cp → isScalar cp = true.
Proof.
  unfold decode2, isContinuation. intros H0 H1. case_match eqn:Hc; [|done].
  intros [= <-]. repeat (apply andb_true_iff in Hc as [Hc ?]).
  rewrite ?Z.leb_le in *. unfold isScalar, isSurrogate.
  rewrite !(proj2 (Z.leb_le _ _)) by lia. cbn [andb].
  by rewrite (proj2 (Z.leb_gt _ _)) by lia.
Qed.

Lemma decode3_scalar b0 b1 b2 cp :
  0 ≤ b0 < 256 → 0 ≤ b1 < 256 → 0 ≤ b2 < 256 →
  decode3 b0 b1 b2 = Some cp → isScalar cp = true.
Proof.
  unfold decode3, isContinuation. intros H0 H1 H2. case_match eqn:Hc; [|done].
  intros [= <-]. repeat (apply andb_true_iff in Hc as [Hc ?]).
  rewrite ?Z.leb_le in *. unfold isScalar.
  rewrite !(proj2 (Z.leb_le _ _)) by lia. by cbn [andb].
Qed.

Lemma decode4_scalar b0 b1 b2 b3 cp :
  decode4 b0 b1 b2 b3 = Some cp → isScalar cp = true.
Proof.
  unfold decode4. case_match eqn:Hc; [|done].
  intros [= <-]. repeat (apply andb_true_iff in Hc as [Hc ?]).
  rewrite ?Z.leb_le in *. unfold isScalar, isSurrogate.
  rewrite !(proj2 (Z.leb_le _ _)) by lia. cbn [andb].
  by rewrite (proj2 (Z.leb_gt _ _)) by lia.
Qed.

Lemma decode_scalar s : Forall (λ cp, isScalar cp = true) (decode s).
Proof.
  assert (∀ n s, (String.length s ≤ n)%nat → Forall (λ cp, isScalar cp = true) (decode s))
    as H; [|by apply (H (String.length s))].
  clear s. induction n as [|n IH]; intros s Hlen.
  { destruct s; [constructor|cbn in Hlen; lia]. }
  destruct s as [|c0 s1]; [constructor|]. cbn [String.length] in Hlen.
  assert (Hbad : Forall (λ cp, isScalar cp = true) (0xFFFD :: decode s1)).
  { constructor; [done|]. apply IH. lia. }
  cbn [decode]. pose proof (byte_range c0) as H0.
  destruct (byte c0 <? 0x80) eqn:Hascii.
  { apply Z.ltb_lt in Hascii. constructor; [|apply IH; lia].
    unfold isScalar, isSurrogate. rewrite !(proj2 (Z.leb_le _ _)) by lia.
    by rewrite (proj2 (Z.leb_gt _ _)) by lia. }
  destruct s1 as [|c1 s2]; [by repeat constructor|]. cbn [String.length] in Hlen.
  destruct (decode2 _ _) as [cp|] eqn:H2.
  { constructor; [|apply IH; lia].
    eapply decode2_scalar; [| |exact H2]; apply byte_range. }
  destruct s2 as [|c2 s3]; [done|]. cbn [String.length] in Hlen.
  destruct (decode3 _ _ _) as [cp|] eqn:H3.
  { constructor; [|apply IH; lia].
    eapply decode3_scalar; [| | |exact H3]; apply byte_range. }
  destruct s3 as [|c3 s4]; [done|]. cbn [String.length] in Hlen.
  destruct (decode4 _ _ _ _) as [cp|] eqn:H4; [|done].
  constructor; [|apply IH; lia]. by eapply decode4_scalar.
Qed.

(** *** Uppercasing twice *)

Lemma upperTable_closed :
  Forall (λ entry, flat_map upperCodePoint entry.2 = entry.2
                   ∧ Forall (λ cp, isScalar cp = true) entry.2) upperTable.
Proof. apply (bool_decide_unpack _). vm_compute. exact I. Qed.

Lemma mapping_elem table cp :
  mapping table cp = [cp] ∨ ∃ entry, entry ∈ table ∧ mapping table cp = entry.2.
Proof.
  unfold mapping. destruct (List.find _ _) as [entry|] eqn:Hfind; [|by left].
  right. exists entry. apply find_some in Hfind as [Hin _].
  split; [by apply list_elem_of_In|done].
Qed.

Lemma upperCodePoint_idem cp :
  flat_map upperCodePoint (upperCodePoint cp) = upperCodePoint cp.
Proof.
  unfold upperCodePoint at 2 3. destruct (cp <? 0x80) eqn:Hascii.
  - pose proof Hascii as Hlt. apply Z.ltb_lt in Hlt. cbn [flat_map]. rewrite app_nil_r.
    unfold upperCodePoint.
    destruct ((0x61 <=? cp) && (cp <=? 0x7A)) eqn:Hc.
    + apply andb_true_iff in Hc as [H1 H2]. apply Z.leb_le in H1, H2.
      rewrite (proj2 (Z.ltb_lt _ _)) by lia.
      by rewrite (proj2 (Z.leb_gt 0x61 (cp - 32))) by lia.
    + by rewrite Hascii, Hc.
  - destruct (mapping_elem upperTable cp) as [Heq|(entry & Hin & Heq)]; rewrite Heq.
    + cbn [flat_map]. rewrite app_nil_r. unfold upperCodePoint. by rewrite Hascii.
    + pose proof upperTable_closed as Hclosed. rewrite Forall_forall in Hclosed.
      by destruct (Hclosed entry Hin).
Qed.

Lemma upperCodePoint_scalar cp :
  isScalar cp = true → Forall (λ cp, isScalar cp = true) (upperCodePoint cp).
Proof.
  intros Hcp. unfold upperCodePoint. destruct (cp <? 0x80) eqn:Hascii.
  - constructor; [|constructor]. case_match eqn:Hc; [|done].
    apply andb_true_iff in Hc as [H1 H2]. apply Z.leb_le in H1, H2.
    unfold isScalar, isSurrogate. rewrite !(proj2 (Z.leb_le _ _)) by lia.
    by rewrite (proj2 (Z.leb_gt _ _)) by lia.
  - destruct (mapping_elem upperTable cp) as [Heq|(entry & Hin & Heq)]; rewrite Heq.
    + by repeat constructor.
    + pose proof upperTable_closed as Hclosed. rewrite Forall_forall in Hclosed.
      by destruct (Hclosed entry Hin).
Qed.

Lemma toUpperCase_idem s : toUpperCase (toUpperCase s) = toUpperCase s.
Proof.
  unfold toUpperCase. rewrite decode_encode.
  - f_equal. induction (decode s) as [|cp l IH]; [done|].
    cbn [flat_map]. by rewrite flat_map_app, upperCodePoint_idem, IH.
  - pose proof (decode_scalar s) as Hs.
    induction Hs as [|cp l Hcp _ IH]; [constructor|].
    cbn [flat_map]. apply Forall_app. split; [by apply upperCodePoint_scalar|done].
Qed.

Lemma toUpperCase_ascii c s :
  byte c < 0x80 → toUpperCase (String c s) = String (upperChar c) (toUpperCase s).
Proof.
  intros Hc. unfold toUpperCase. cbn [decode].
  rewrite (proj2 (Z.ltb_lt _ _) Hc). cbn [flat_map]. rewrite encode_app.
  assert (encode (upperCodePoint (byte c)) = String (upperChar c) EmptyString) as ->;
    [|done].
  destruct c as [[] [] [] [] [] [] [] []];
    first [ by vm_compute | exfalso; revert Hc; by vm_compute ].
Qed.

(** The mappings on text outside ASCII: the dotless i becomes [I], the sharp
    s becomes [SS], the Kelvin sign becomes [k], and a capital sigma at the
    end of a word becomes the final sigma. *)
Lemma case_mapping_examples :
  toUpperCase "freeshıp" = "FREESHIP"
  ∧ toUpperCase "straße" = "STRASSE"
  ∧ toLowerCase "Kate@Example.com" = "kate@example.com"
  ∧ toLowerCase "ΟΔΟΣ Σ" = "οδος σ".
Proof. vm_compute. split_and!; reflexivity. Qed.

(** ** Discount *)

Lemma discountCode_findUnique_Some code w id d :
  discountCode_findUnique code w = Some (id, d) →
  discountCodes w !! id = Some d ∧ dc_code d = code.
Proof.
  unfold discountCode_findUnique. intros Hfind.
  apply fmap_Some in Hfind as ([i [id' d']] & Hfind & [= <- <-]).
  apply list_find_Some in Hfind as (Hi & Hcode & _).
  split; [|done]. apply elem_of_map_to_list. by eapply list_elem_of_lookup_2.
Qed.

Lemma discountCode_findUnique_None code w :
  (∀ id d, discountCodes w !! id = Some d → dc_code d ≠ code) →
  discountCode_findUnique code w = None.
Proof.
  intros Hnone. unfold discountCode_findUnique.
  apply fmap_None, list_find_None, Forall_forall. intros [id d] Hin.
  apply elem_of_map_to_list in Hin. by apply (Hnone id).
Qed.

Lemma discountCode_findUnique_insensitive code w :
  (∀ id d, discountCodes w !! id = Some d →
           toUpperCase (dc_code d) ≠ toUpperCase code) →
  discountCode_findUnique (toUpperCase code) w = None.
Proof.
  intros Hnone. apply discountCode_findUnique_None. intros id d Hd Heq.
  apply (Hnone id d Hd). by rewrite Heq, toUpperCase_idem.
Qed.

Lemma truthy_Some s : s ≠ "" → truthy (Some s) = true.
Proof.
  intros Hs. unfold truthy. apply negb_true_iff.
  destruct (String.eqb_spec s ""); congruence.
Qed.

Lemma checkout_discount_rejected stripe Math_round env rq w rows acc e :
  loadedCart rq w = Some rows → rows ≠ [] →
  verifyStock Math_round rows emptyAcc = inr acc →
  applyDiscount w (env_now env) (rq_discountCode rq) (acc_subtotal acc) = inl e →
  checkout stripe Math_round env rq w = (Done (CheckoutRejected 400 e), w).
Proof.
  intros Hload Hrows Hstock Hdisc. unfold checkout, bind.
  rewrite (cartItem_findManyInclude_loaded _ _ _ Hload).
  destruct rows as [|r rows]; [done|]. cbn [length Nat.eqb].
  fold emptyAcc. rewrite Hstock. unfold gets. by rewrite Hdisc.
Qed.

(** C8, amended. For a checkout whose cart loads, is not empty and is in
    stock, and which supplies a non-empty discount code: it is rejected with
    InvalidDiscountError when no stored code matches case-insensitively;
    otherwise, for the matched code, with DiscountInactiveError when it is
    not active, else DiscountExpiredError when it is past its expiry, else
    DiscountExhaustedError when its max uses is set, not zero and reached by
    the usage counter, else DiscountMinimumNotMetError when the subtotal is
    below its minimum order amount.  In each case the store is left as it
    was. *)
Theorem checkout_discount_errors stripe Math_round env rq w rows acc code :
  loadedCart rq w = Some rows → rows ≠ [] →
  verifyStock Math_round rows emptyAcc = inr acc →
  rq_discountCode rq = Some code → code ≠ "" →
  let rejected e :=
    checkout stripe Math_round env rq w = (Done (CheckoutRejected 400 e), w) in
  ((∀ id d, discountCodes w !! id = Some d →
            toUpperCase (dc_code d) ≠ toUpperCase code) →
   rejected InvalidDiscountError)
  ∧ (∀ id d,
       discountCode_findUnique (toUpperCase code) w = Some (id, d) →
       (dc_isActive d = false → rejected DiscountInactiveError)
       ∧ (dc_isActive d = true →
          (∀ expiresAt, dc_expiresAt d = Some expiresAt → expiresAt < env_now env →
                        rejected DiscountExpiredError)
          ∧ (discountExpired (env_now env) d = false →
             (∀ maxUses, dc_maxUses d = Some maxUses → maxUses ≠ 0 →
                         maxUses ≤ dc_usedCount d →
                         rejected DiscountExhaustedError)
             ∧ (discountExhausted d = false →
                ∀ minOrderAmount,
                  dc_minOrderAmount d = Some minOrderAmount →
                  PrimFloat.ltb (acc_subtotal acc) minOrderAmount = true →
                  rejected (DiscountMinimumNotMetError minOrderAmount))))).
Proof.
  intros Hload Hrows Hstock Hcode Hne rejected.
  assert (Hrej : ∀ e,
    applyDiscount w (env_now env) (Some code) (acc_subtotal acc) = inl e → rejected e).
  { intros e He. unfold rejected.
    eapply checkout_discount_rejected; eauto. by rewrite Hcode. }
  split.
  - intros Hnone. apply Hrej. unfold applyDiscount.
    rewrite (truthy_Some _ Hne).
    by rewrite (discountCode_findUnique_insensitive _ _ Hnone).
  - intros id d Hfind.
    assert (Happ : applyDiscount w (env_now env) (Some code) (acc_subtotal acc)
      = if negb (dc_isActive d) then inl DiscountInactiveError
        else if discountExpired (env_now env) d then inl DiscountExpiredError
        else if discountExhausted d then inl DiscountExhaustedError
        else match dc_minOrderAmount d with
             | Some minOrderAmount =>
                 if PrimFloat.ltb (acc_subtotal acc) minOrderAmount
                 then inl (DiscountMinimumNotMetError minOrderAmount)
                 else inr (discountValue d (acc_subtotal acc), Some (id, d))
             | None => inr (discountValue d (acc_subtotal acc), Some (id, d))
             end).
    { unfold applyDiscount. by rewrite (truthy_Some _ Hne), Hfind. }
    split; [intros Hact; apply Hrej; by rewrite Happ, Hact|].
    intros Hact. rewrite Hact in Happ. cbn [negb] in Happ. split.
    + intros expiresAt Hexp Hlt. apply Hrej. rewrite Happ.
      unfold discountExpired. rewrite Hexp.
      by destruct (Z.ltb_spec expiresAt (env_now env)); [|lia].
    + intros Hnotexp. rewrite Hnotexp in Happ. split.
      * intros maxUses Hmax Hnz Hle. apply Hrej. rewrite Happ.
        unfold discountExhausted, truthyInt. rewrite Hmax.
        destruct (Z.eqb_spec maxUses 0); [done|]. cbn [negb andb].
        by destruct (Z.leb_spec maxUses (dc_usedCount d)); [|lia].
      * intros Hnotexh minOrderAmount Hmin Hlt. apply Hrej.
        by rewrite Happ, Hnotexh, Hmin, Hlt.
Qed.

Lemma await_world {A} (reply : option A) w x w' :
  await reply w = (x, w') → w' = w.
Proof. destruct reply; unfold await, ret, throw; by intros [= <- <-]. Qed.

Lemma getOrCreateStripeCoupon_world stripe Math_round d w x w' :
  getOrCreateStripeCoupon stripe Math_round d w = (x, w') → w' = w.
Proof.
  unfold getOrCreateStripeCoupon.
  destruct (coupons_retrieve stripe (dc_code d)); [by intros [= <- <-]|].
  apply await_world.
Qed.

Lemma verifyStock_inr Math_round rows acc acc' :
  verifyStock Math_round rows acc = inr acc' →
  acc_subtotal acc'
  = fold_left (λ s row, (s + rowPrice row * ofInt (ci_quantity (row_item row)))%float)
      rows (acc_subtotal acc)
  ∧ acc_orderItems acc' = acc_orderItems acc ++ (rowOrderItem <$> rows).
Proof.
  revert acc. induction rows as [|row rows IH]; intros acc; simpl.
  - intros [= <-]. by rewrite app_nil_r.
  - destruct (rowOutOfStock row); [done|]. intros Hrest.
    apply IH in Hrest as [-> ->]. cbn. by rewrite <- app_assoc.
Qed.

Lemma verifyStock_in_stock Math_round rows acc :
  Forall (λ row, rowOutOfStock row = false) rows →
  ∃ acc', verifyStock Math_round rows acc = inr acc'.
Proof.
  intros Hrows. revert acc. induction Hrows as [|row rows Hrow _ IH]; intros acc; simpl.
  - by eexists.
  - rewrite Hrow. apply IH.
Qed.


Lemma applyOp_delta op x : applyOp op x = x + delta op.
Proof. destruct op; unfold delta; simpl; lia. Qed.

Lemma restock_0 p : restock 0 p = p.
Proof. destruct p. unfold restock, product_withQuantity. simpl. f_equal. lia. Qed.

Lemma restockVariant_0 v : restockVariant 0 v = v.
Proof. destruct v. unfold restockVariant, variant_withQuantity. simpl. f_equal. lia. Qed.

Lemma restock_restock a b p : restock b (restock a p) = restock (a + b) p.
Proof. unfold restock, product_withQuantity. simpl. f_equal. lia. Qed.

Lemma restockVariant_restockVariant a b v :
  restockVariant b (restockVariant a v) = restockVariant (a + b) v.
Proof. unfold restockVariant, variant_withQuantity. simpl. f_equal. lia. Qed.

Lemma updateInventory_target op it :
  updateInventory op it
  = match stockTarget it with
    | inl p => product_update p (op (oi_quantity it))
    | inr v => productVariant_update v (op (oi_quantity it))
    end.
Proof.
  unfold updateInventory, stockTarget.
  destruct (oi_variantId it) as [v|]; [|done]. by destruct (truthy (Some v)).
Qed.

Lemma updateInventory_moved op it w :
  inStore w it →
  ∃ w', updateInventory op it w = (Done tt, w')
        ∧ StockMoved (λ p, netFor op (inl p) [it]) (λ v, netFor op (inr v) [it]) w w'.
Proof.
  rewrite updateInventory_target. unfold inStore. cbn [netFor].
  destruct (stockTarget it) as [p0|v0]; intros [x Hx].
  - unfold product_update. rewrite Hx. eexists. split; [done|].
    constructor; try done; cbn.
    + intros p. case_decide as Hp; simplify_eq.
      * rewrite lookup_insert_eq, Hx. cbn. unfold restock.
        by rewrite applyOp_delta, Z.add_0_r.
      * rewrite lookup_insert_ne by congruence.
        destruct (products w !! p); cbn; by rewrite ?restock_0.
    + intros v. rewrite decide_False by done.
      destruct (productVariants w !! v); cbn; by rewrite ?restockVariant_0.
  - unfold productVariant_update. rewrite Hx. eexists. split; [done|].
    constructor; try done; cbn.
    + intros p. rewrite decide_False by done.
      destruct (products w !! p); cbn; by rewrite ?restock_0.
    + intros v. case_decide as Hv; simplify_eq.
      * rewrite lookup_insert_eq, Hx. cbn. unfold restockVariant.
        by rewrite applyOp_delta, Z.add_0_r.
      * rewrite lookup_insert_ne by congruence.
        destruct (productVariants w !! v); cbn; by rewrite ?restockVariant_0.
Qed.

Lemma StockMoved_inStore dp dv w w' it :
  StockMoved dp dv w w' → inStore w it → inStore w' it.
Proof.
  intros [Hp Hv _ _ _ _ _ _ _]. unfold inStore.
  destruct (stockTarget it) as [p|v].
  - rewrite Hp. intros [x ->]. by eexists.
  - rewrite Hv. intros [x ->]. by eexists.
Qed.

Lemma StockMoved_trans dp1 dv1 dp2 dv2 w1 w2 w3 :
  StockMoved dp1 dv1 w1 w2 → StockMoved dp2 dv2 w2 w3 →
  StockMoved (λ p, dp1 p + dp2 p) (λ v, dv1 v + dv2 v) w1 w3.
Proof.
  intros [Hp1 Hv1 ? ? ? ? ? ? ?] [Hp2 Hv2 ? ? ? ? ? ? ?].
  constructor; try congruence.
  - intros p. rewrite Hp2, Hp1. destruct (products w1 !! p); cbn; [|done].
    by rewrite restock_restock.
  - intros v. rewrite Hv2, Hv1. destruct (productVariants w1 !! v); cbn; [|done].
    by rewrite restockVariant_restockVariant.
Qed.

Lemma forEach_updateInventory op items w :
  Forall (inStore w) items →
  ∃ w', forEach items (updateInventory op) w = (Done tt, w')
        ∧ StockMoved (λ p, netFor op (inl p) items) (λ v, netFor op (inr v) items) w w'.
Proof.
  revert w. induction items as [|it items IH]; intros w Hall.
  - exists w. split; [done|]. constructor; try done; cbn.
    + intros p. destruct (products w !! p); cbn; by rewrite ?restock_0.
    + intros v. destruct (productVariants w !! v); cbn; by rewrite ?restockVariant_0.
  - apply Forall_cons in Hall as [Hit Hall].
    destruct (updateInventory_moved op it w Hit) as (w1 & Hrun1 & Hmoved1).
    destruct (IH w1) as (w' & Hrun & Hmoved).
    { eapply Forall_impl; [done|]. intros it'. by eapply StockMoved_inStore. }
    exists w'. split.
    + cbn. unfold bind. by rewrite Hrun1.
    + pose proof (StockMoved_trans _ _ _ _ _ _ _ Hmoved1 Hmoved) as Htrans.
      destruct Htrans as [Hp Hv ? ? ? ? ? ? ?]. constructor; try done.
      * intros p. rewrite Hp. cbn. by rewrite Z.add_0_r.
      * intros v. rewrite Hv. cbn. by rewrite Z.add_0_r.
Qed.

Lemma netFor_decrement target items :
  netFor decrement target items = - unitsFor target items.
Proof.
  induction items as [|it items IH]; cbn; [done|]. rewrite IH.
  case_decide; unfold delta; cbn; lia.
Qed.

Lemma netFor_increment target items :
  netFor increment target items = unitsFor target items.
Proof.
  induction items as [|it items IH]; cbn; [done|]. rewrite IH.
  case_decide; unfold delta; cbn; lia.
Qed.

Lemma truthy_Some_false s : truthy (Some s) = false → s = "".
Proof.
  unfold truthy. rewrite negb_false_iff. by intros ?%String.eqb_eq.
Qed.

Lemma redeem_0 d : redeem 0 d = d.
Proof. destruct d. unfold redeem, discount_withUsedCount. simpl. f_equal. lia. Qed.

Lemma handleCheckoutComplete_delivered session orderId o w :
  completedSession orderId session →
  orders w !! orderId = Some o →
  Forall (inStore w) (orderItem_findMany orderId w) →
  codeInStore w o →
  ∃ w', handleCheckoutComplete session w = (Done tt, w') ∧ Delivered orderId o w w'.
Proof.
  intros [Hid Hne] Ho Hstore Hcode.
  unfold handleCheckoutComplete. rewrite Hid, (truthy_Some _ Hne).
  unfold tryCatch, bind, order_update. rewrite Ho. unfold gets.
  match goal with |- context [forEach ?items _ ?w1] =>
    destruct (forEach_updateInventory decrement items w1) as (w2 & -> & Hmoved)
  end.
  { eapply Forall_impl; [exact Hstore|]. intros it. unfold inStore.
    by destruct (stockTarget it). }
  destruct Hmoved as [Hp Hv Hd Hords Hcart Hitems Htl Haddr Href].
  cbn in Hp, Hv, Hd, Hords, Hcart, Hitems, Htl, Haddr, Href.
  assert (Hdisc : ∃ w3,
    match o_discountCodeId (order_confirmPayment o) with
    | Some discountCodeId =>
        if truthy (Some discountCodeId)
        then discountCode_update discountCodeId (increment 1)
        else ret tt
    | None => ret tt
    end w2 = (Done tt, w3)
    ∧ (∀ c, discountCodes w3 !! c = redeem (usesOf o c) <$> discountCodes w !! c)
    ∧ products w3 = products w2 ∧ productVariants w3 = productVariants w2
    ∧ orders w3 = orders w2 ∧ orderItems w3 = orderItems w2
    ∧ refundCalls w3 = refundCalls w2 ∧ cartItems w3 = cartItems w2).
  { cbn [order_confirmPayment o_discountCodeId]. unfold usesOf. destruct (o_discountCodeId o) as [c0|] eqn:Hc0.
    - destruct (truthy (Some c0)) eqn:Htruthy.
      + assert (c0 ≠ "") as Hc0ne by (intros ->; done).
        destruct (Hcode c0 Hc0 Hc0ne) as [d Hd0].
        unfold discountCode_update. rewrite Hd, Hd0. eexists. split; [done|].
        split_and!; try done. intros c. cbn. rewrite Hd.
        case_decide as Hcase.
        * destruct Hcase as [[= ->] _]. rewrite lookup_insert_eq, Hd0. cbn.
          done.
        * rewrite lookup_insert_ne by (intros ->; by apply Hcase).
          destruct (discountCodes w !! c); cbn; by rewrite ?redeem_0.
      + exists w2. split; [done|]. split_and!; try done. intros c. rewrite Hd.
        apply truthy_Some_false in Htruthy as ->.
        rewrite decide_False by (intros [[= <-] ?]; done).
        destruct (discountCodes w !! c); cbn; by rewrite ?redeem_0.
    - exists w2. split; [done|]. split_and!; try done. intros c. rewrite Hd.
      rewrite decide_False by (intros [[=] ?]).
      destruct (discountCodes w !! c); cbn; by rewrite ?redeem_0. }
  destruct Hdisc as (w3 & -> & Hd3 & Hp3 & Hv3 & Hords3 & Hitems3 & Href3 & Hcart3).
  assert (Hclear : ∃ w4,
    match o_userId (order_confirmPayment o) with
    | Some userId => if truthy (Some userId) then cartItem_deleteMany userId else ret tt
    | None => ret tt
    end w3 = (Done tt, w4)
    ∧ products w4 = products w3 ∧ productVariants w4 = productVariants w3
    ∧ discountCodes w4 = discountCodes w3
    ∧ orders w4 = orders w3 ∧ orderItems w4 = orderItems w3
    ∧ refundCalls w4 = refundCalls w3
    ∧ cartItems w4
      = match o_userId o with
        | Some userId =>
            if truthy (Some userId)
            then filter (λ c, ci_userId c ≠ Some userId) (cartItems w3)
            else cartItems w3
        | None => cartItems w3
        end).
  { cbn [order_confirmPayment o_userId]. destruct (o_userId o) as [u|]; [|by exists w3].
    destruct (truthy (Some u)); [|by exists w3].
    unfold cartItem_deleteMany, modify. by eexists. }
  destruct Hclear as (w4 & -> & Hp4 & Hv4 & Hd4 & Hords4 & Hitems4 & Href4 & Hcart4).
  exists w4. split; [done|].
  constructor.
  - by rewrite Hords4, Hords3, Hords.
  - intros p. by rewrite Hp4, Hp3, Hp, netFor_decrement.
  - intros v. by rewrite Hv4, Hv3, Hv, netFor_decrement.
  - intros c. by rewrite Hd4, Hd3.
  - by rewrite Hitems4, Hitems3, Hitems.
  - by rewrite Hcart4, Hcart3, Hcart.
  - by rewrite Href4, Href3, Href.
Qed.

Lemma Delivered_again orderId o w w' :
  orders w !! orderId = Some o →
  Forall (inStore w) (orderItem_findMany orderId w) →
  codeInStore w o →
  Delivered orderId o w w' →
  orders w' !! orderId = Some (order_confirmPayment o)
  ∧ orderItem_findMany orderId w' = orderItem_findMany orderId w
  ∧ Forall (inStore w') (orderItem_findMany orderId w')
  ∧ codeInStore w' (order_confirmPayment o).
Proof.
  intros Ho Hstore Hcode [Hords Hp Hv Hd Hitems _ _].
  assert (Hsame : orderItem_findMany orderId w' = orderItem_findMany orderId w)
    by (unfold orderItem_findMany; by rewrite Hitems).
  split_and!.
  - rewrite Hords. apply lookup_insert_eq.
  - done.
  - rewrite Hsame. eapply Forall_impl; [exact Hstore|]. intros it. unfold inStore.
    destruct (stockTarget it) as [p|v].
    + rewrite Hp. intros [x ->]. by eexists.
    + rewrite Hv. intros [x ->]. by eexists.
  - intros c Hc Hne. rewrite Hd. destruct (Hcode c Hc Hne) as [d ->]. by eexists.
Qed.

Lemma stripeWebhook_completed stripe webhookSecret body sig event w :
  webhooks_constructEvent stripe body sig webhookSecret = Some event →
  ev_type event = "checkout.session.completed" →
  stripeWebhook stripe webhookSecret body sig w
  = (handleCheckoutComplete (ev_object event) ;;; ret WebhookReceived) w.
Proof. intros Hev Htype. unfold stripeWebhook. by rewrite Hev, Htype. Qed.

(** C1, amended. Every delivery of a verified "checkout session completed"
    event for a stored order takes the ordered quantity of each line item off
    its stock row and adds one use to the discount code the order references,
    whatever the payment status of the order: the second delivery of the same
    event decrements and increments again. *)
Theorem stripeWebhook_redelivery stripe webhookSecret body sig event orderId o w :
  webhooks_constructEvent stripe body sig webhookSecret = Some event →
  ev_type event = "checkout.session.completed" →
  completedSession orderId (ev_object event) →
  orders w !! orderId = Some o →
  Forall (inStore w) (orderItem_findMany orderId w) →
  codeInStore w o →
  let items := orderItem_findMany orderId w in
  let first := stripeWebhook stripe webhookSecret body sig w in
  let second := stripeWebhook stripe webhookSecret body sig first.2 in
  first.1 = Done WebhookReceived
  ∧ second.1 = Done WebhookReceived
  ∧ (∀ p,
       p_quantity <$> products first.2 !! p
       = (λ q, q - unitsFor (inl p) items) <$> (p_quantity <$> products w !! p)
       ∧ p_quantity <$> products second.2 !! p
         = (λ q, q - unitsFor (inl p) items) <$> (p_quantity <$> products first.2 !! p))
  ∧ (∀ v,
       v_quantity <$> productVariants first.2 !! v
       = (λ q, q - unitsFor (inr v) items) <$> (v_quantity <$> productVariants w !! v)
       ∧ v_quantity <$> productVariants second.2 !! v
         = (λ q, q - unitsFor (inr v) items)
             <$> (v_quantity <$> productVariants first.2 !! v))
  ∧ (∀ c,
       dc_usedCount <$> discountCodes first.2 !! c
       = (λ n, n + usesOf o c) <$> (dc_usedCount <$> discountCodes w !! c)
       ∧ dc_usedCount <$> discountCodes second.2 !! c
         = (λ n, n + usesOf o c) <$> (dc_usedCount <$> discountCodes first.2 !! c)).
Proof.
  intros Hev Htype Hsession Ho Hstore Hcode items first second.
  destruct (handleCheckoutComplete_delivered _ _ _ _ Hsession Ho Hstore Hcode)
    as (w1 & Hrun1 & Hd1).
  destruct (Delivered_again _ _ _ _ Ho Hstore Hcode Hd1)
    as (Ho1 & Hitems1 & Hstore1 & Hcode1).
  destruct (handleCheckoutComplete_delivered _ _ _ _ Hsession Ho1 Hstore1 Hcode1)
    as (w2 & Hrun2 & Hd2).
  assert (Hfirst : first = (Done WebhookReceived, w1)).
  { subst first. rewrite (stripeWebhook_completed _ _ _ _ _ _ Hev Htype).
    unfold bind. by rewrite Hrun1. }
  assert (Hsecond : second = (Done WebhookReceived, w2)).
  { subst second. rewrite Hfirst. cbn [snd].
    rewrite (stripeWebhook_completed _ _ _ _ _ _ Hev Htype).
    unfold bind. by rewrite Hrun2. }
  rewrite Hsecond, Hfirst. cbn [fst snd].
  destruct Hd1 as [_ Hp1 Hv1 Hc1 _ _ _], Hd2 as [_ Hp2 Hv2 Hc2 _ _ _].
  rewrite Hitems1 in Hp2, Hv2. fold items in Hp1, Hv1, Hp2, Hv2.
  split_and!; try done.
  - intros p. rewrite Hp2, Hp1.
    destruct (products w !! p); cbn; split; try done; do 2 f_equal; lia.
  - intros v. rewrite Hv2, Hv1.
    destruct (productVariants w !! v); cbn; split; try done; do 2 f_equal; lia.
  - intros c. rewrite Hc2, Hc1.
    destruct (discountCodes w !! c); cbn; split; try done.
Qed.


(** ** Cart merge *)


Lemma uniqueKeys_inj l x y :
  uniqueKeys l → x ∈ l → y ∈ l → ci_id x = ci_id y → x = y.
Proof.
  unfold uniqueKeys. induction l as [|c l IH]; intros Hnd Hx Hy Heq.
  - by apply elem_of_nil in Hx.
  - rewrite fmap_cons in Hnd. apply NoDup_cons in Hnd as [Hc Hnd].
    apply elem_of_cons in Hx as [->|Hx], Hy as [->|Hy]; try done.
    + destruct Hc. rewrite Heq. by apply list_elem_of_fmap_2.
    + destruct Hc. rewrite <- Heq. by apply list_elem_of_fmap_2.
    + by apply IH.
Qed.

Lemma sumOver_cons h c l : sumOver h (c :: l) = h c + sumOver h l.
Proof. done. Qed.

Lemma updateRow_keys id data l :
  (∀ c, ci_id (data c) = ci_id c) →
  ci_id <$> map (updateRow id data) l = ci_id <$> l.
Proof.
  intros Hid. induction l as [|c l IH]; [done|]. cbn. rewrite <- IH. f_equal.
  unfold updateRow. by case_decide.
Qed.

Lemma sumOver_update h x data l :
  uniqueKeys l → x ∈ l →
  sumOver h (map (updateRow (ci_id x) data) l) = sumOver h l - h x + h (data x).
Proof.
  unfold uniqueKeys. induction l as [|c l IH]; intros Hnd Hx.
  - by apply elem_of_nil in Hx.
  - rewrite fmap_cons in Hnd. apply NoDup_cons in Hnd as [Hc Hnd].
    cbn [map]. rewrite !sumOver_cons.
    apply elem_of_cons in Hx as [->|Hx].
    + unfold updateRow at 1. rewrite decide_True by done.
      assert (map (updateRow (ci_id c) data) l = l) as ->; [|lia].
      clear IH Hnd. induction l as [|c' l IH]; [done|]. cbn [map].
      rewrite fmap_cons, not_elem_of_cons in Hc. destruct Hc as [Hne Hc].
      rewrite IH by done. unfold updateRow. by rewrite decide_False by done.
    + unfold updateRow at 1. rewrite decide_False.
      * rewrite IH by done. lia.
      * intros Heq. destruct Hc. rewrite Heq. by apply list_elem_of_fmap_2.
Qed.

Lemma sumOver_delete h x l :
  uniqueKeys l → x ∈ l →
  sumOver h (filter (λ c, ci_id c ≠ ci_id x) l) = sumOver h l - h x.
Proof.
  unfold uniqueKeys. induction l as [|c l IH]; intros Hnd Hx.
  - by apply elem_of_nil in Hx.
  - rewrite fmap_cons in Hnd. apply NoDup_cons in Hnd as [Hc Hnd].
    apply elem_of_cons in Hx as [->|Hx].
    + rewrite filter_cons_False by (intros ?; done). rewrite sumOver_cons.
      assert (filter (λ c', ci_id c' ≠ ci_id c) l = l) as ->; [|lia].
      clear IH Hnd. induction l as [|c' l IH]; [done|].
      rewrite fmap_cons, not_elem_of_cons in Hc. destruct Hc as [Hne Hc].
      rewrite filter_cons_True by done. by rewrite IH.
    + rewrite filter_cons_True.
      * rewrite !sumOver_cons, IH by done. lia.
      * intros Heq. destruct Hc. rewrite Heq. by apply list_elem_of_fmap_2.
Qed.

Lemma sumOver_zero h l : (∀ c, c ∈ l → h c = 0) → sumOver h l = 0.
Proof.
  induction l as [|c l IH]; intros Hz; [done|]. rewrite sumOver_cons.
  rewrite (Hz c) by apply list_elem_of_here. rewrite IH; [done|].
  intros c' Hc'. apply Hz. by apply list_elem_of_further.
Qed.

Lemma sumOver_plus h1 h2 l :
  sumOver (λ c, h1 c + h2 c) l = sumOver h1 l + sumOver h2 l.
Proof. induction l as [|c l IH]; [done|]. rewrite !sumOver_cons, IH. lia. Qed.

Lemma CartOnly_refl w : CartOnly w w.
Proof. by constructor. Qed.

Lemma CartOnly_trans w1 w2 w3 : CartOnly w1 w2 → CartOnly w2 w3 → CartOnly w1 w3.
Proof. intros [] []. constructor; congruence. Qed.

Lemma cartWhere_user u p v c :
  cartWhere (Some u) None (Some p) (Some v) c = ofUser u c && samePair p v c.
Proof. unfold cartWhere, ofUser, samePair. by rewrite andb_true_r, andb_assoc. Qed.

Lemma cartWhere_session s c : cartWhere None (Some s) None None c = ofSession s c.
Proof. unfold cartWhere, ofSession. by rewrite !andb_true_r. Qed.

Lemma uniqueKeys_filter (P : CartItem → Prop) `{∀ c, Decision (P c)} l :
  uniqueKeys l → uniqueKeys (filter P l).
Proof.
  unfold uniqueKeys. intros Hnd. eapply sublist_NoDup; [exact Hnd|].
  apply fmap_sublist, sublist_filter.
Qed.

Lemma Exists_key l x : x ∈ l → Exists (λ c, ci_id c = ci_id x) l.
Proof. intros Hx. apply Exists_exists. by exists x. Qed.

Lemma elem_of_updateRow id data l c :
  c ∈ map (updateRow id data) l ↔ ∃ c0, c0 ∈ l ∧ c = updateRow id data c0.
Proof.
  change (map (updateRow id data) l) with (updateRow id data <$> l).
  rewrite list_elem_of_fmap. split; intros (c0 & ? & ?); by exists c0.
Qed.

Lemma heldBy_total u s p v l :
  sumOver (heldBy u s p v) l
  = pairQuantity (ofUser u) p v l + pairQuantity (ofSession s) p v l.
Proof. unfold heldBy, pairQuantity. apply sumOver_plus. Qed.

Lemma mergeGuestItem_step u s g gs w :
  MergeInv u s (cartItems w) (g :: gs) →
  ∃ w', mergeGuestItem u g w = (Done tt, w')
        ∧ MergeInv u s (cartItems w') gs
        ∧ CartOnly w w'
        ∧ ∀ p v, sumOver (heldBy u s p v) (cartItems w')
                 = sumOver (heldBy u s p v) (cartItems w).
Proof.
  intros [Hkeys Hpend Hpres Hcompl Hexcl].
  set (l := cartItems w) in *.
  destruct (Hpres g) as [Hg Hgs]; [apply list_elem_of_here|].
  pose proof (Hexcl g Hg Hgs) as Hgu.
  apply NoDup_cons in Hpend as [Hgnotin Hpend].
  assert (Hother : ∀ g', g' ∈ gs → g' ∈ l ∧ ofSession s g' = true
                                  ∧ ci_id g' ≠ ci_id g).
  { intros g' Hg'. destruct (Hpres g') as [? ?]; [by apply list_elem_of_further|].
    split_and!; try done. intros Heq.
    assert (g' = g) as -> by (by apply (uniqueKeys_inj l)). done. }
  unfold mergeGuestItem, bind, gets, cartItem_findFirst. fold l.
  destruct (List.find _ l) as [e|] eqn:Hfind.
  - apply find_some in Hfind as [He Hmatch].
    apply list_elem_of_In in He. rewrite cartWhere_user in Hmatch.
    apply andb_true_iff in Hmatch as [Heu Hepair].
    assert (Hes : ofSession s e = false).
    { destruct (ofSession s e) eqn:Hes; [|done].
      pose proof (Hexcl e He Hes). congruence. }
    assert (Hne : ci_id g ≠ ci_id e).
    { intros Heq. assert (g = e) as -> by (by apply (uniqueKeys_inj l)). congruence. }
    set (data := cart_withQuantity (ci_quantity e + ci_quantity g)).
    unfold cartItem_update. fold l.
    rewrite decide_True by (by apply Exists_key).
    set (l1 := map (updateRow (ci_id e) data) l).
    assert (Hkeys1 : uniqueKeys l1).
    { unfold uniqueKeys, l1. by rewrite updateRow_keys. }
    assert (Hkept : ∀ c, c ∈ l → ci_id c ≠ ci_id e → c ∈ l1).
    { intros c Hc Hce. apply elem_of_updateRow. exists c. split; [done|].
      unfold updateRow. by rewrite decide_False. }
    assert (Hfrom : ∀ c, c ∈ l1 → c = data e ∨ (c ∈ l ∧ ci_id c ≠ ci_id e)).
    { intros c (c0 & Hc0 & ->)%elem_of_updateRow. unfold updateRow.
      case_decide as Hid; [left|right; by split].
      f_equal. by apply (uniqueKeys_inj l). }
    assert (Hg1 : g ∈ l1) by (by apply Hkept).
    assert (Hdes : ofSession s (data e) = false) by exact Hes.
    unfold cartItem_delete. cbn [cartItems set_cartItems]. fold l l1.
    rewrite decide_True by (by apply Exists_key).
    eexists. split; [reflexivity|]. cbn [cartItems set_cartItems]. fold l l1.
    split_and!.
    + constructor.
      * by apply uniqueKeys_filter.
      * done.
      * intros g' Hg'. destruct (Hother g' Hg') as (Hin & Hsess & Hid).
        split; [|done]. apply list_elem_of_filter. split; [done|].
        apply Hkept; [done|]. intros Heq.
        assert (g' = e) as -> by (by apply (uniqueKeys_inj l)). congruence.
      * intros c [Hid Hc]%list_elem_of_filter Hsess.
        destruct (Hfrom c Hc) as [->|[Hin _]]; [congruence|].
        pose proof (Hcompl c Hin Hsess) as [->|?]%elem_of_cons; done.
      * intros c [Hid Hc]%list_elem_of_filter Hsess.
        destruct (Hfrom c Hc) as [->|[Hin _]]; [congruence|].
        by apply Hexcl.
    + by constructor.
    + intros p v. rewrite sumOver_delete by done.
      unfold l1. rewrite sumOver_update by done.
      apply andb_true_iff in Hepair as [Hp Hv].
      apply bool_decide_eq_true in Hp, Hv.
      unfold heldBy, samePair, data. cbn [cart_withQuantity ci_quantity ci_productId
        ci_variantId]. unfold ofUser, ofSession in *.
      cbn [cart_withQuantity ci_userId ci_sessionId].
      rewrite Heu, Hes, Hgu, Hgs, Hp, Hv. cbn [andb].
      destruct (bool_decide (ci_productId g = p) && bool_decide (ci_variantId g = v));
        lia.
  - pose proof (find_none _ _ Hfind) as Hnone. clear Hfind.
    set (data := cart_withOwner (Some u) None).
    unfold cartItem_update. fold l.
    rewrite decide_True by (by apply Exists_key).
    set (l1 := map (updateRow (ci_id g) data) l).
    assert (Hfrom : ∀ c, c ∈ l1 → c = data g ∨ (c ∈ l ∧ ci_id c ≠ ci_id g)).
    { intros c (c0 & Hc0 & ->)%elem_of_updateRow. unfold updateRow.
      case_decide as Hid; [left|right; by split].
      f_equal. by apply (uniqueKeys_inj l). }
    assert (Hds : ofSession s (data g) = false) by done.
    eexists. split; [reflexivity|]. cbn [cartItems set_cartItems]. fold l l1.
    split_and!.
    + constructor.
      * unfold uniqueKeys, l1. by rewrite updateRow_keys.
      * done.
      * intros g' Hg'. destruct (Hother g' Hg') as (Hin & Hsess & Hid).
        split; [|done]. apply elem_of_updateRow. exists g'. split; [done|].
        unfold updateRow. by rewrite decide_False.
      * intros c Hc Hsess.
        destruct (Hfrom c Hc) as [->|[Hin Hid]]; [congruence|].
        pose proof (Hcompl c Hin Hsess) as [->|?]%elem_of_cons; done.
      * intros c Hc Hsess.
        destruct (Hfrom c Hc) as [->|[Hin _]]; [congruence|].
        by apply Hexcl.
    + by constructor.
    + intros p v. unfold l1. rewrite sumOver_update by done.
      unfold heldBy, samePair, data, ofUser, ofSession in *.
      cbn [cart_withOwner ci_quantity ci_productId ci_variantId ci_userId ci_sessionId].
      rewrite Hgu, Hgs. rewrite (bool_decide_eq_true_2 (Some u = Some u)) by done.
      rewrite (bool_decide_eq_false_2 (None = Some s)) by done. cbn [andb].
      destruct (bool_decide (ci_productId g = p) && bool_decide (ci_variantId g = v));
        lia.
Qed.

Lemma forEach_mergeGuestItem u s gs w :
  MergeInv u s (cartItems w) gs →
  ∃ w', forEach gs (mergeGuestItem u) w = (Done tt, w')
        ∧ MergeInv u s (cartItems w') []
        ∧ CartOnly w w'
        ∧ ∀ p v, sumOver (heldBy u s p v) (cartItems w')
                 = sumOver (heldBy u s p v) (cartItems w).
Proof.
  revert w. induction gs as [|g gs IH]; intros w Hinv.
  - exists w. split_and!; try done; apply CartOnly_refl.
  - destruct (mergeGuestItem_step u s g gs w Hinv) as (w1 & Hrun1 & Hinv1 & Hco1 & Hsum1).
    destruct (IH w1 Hinv1) as (w' & Hrun & Hinv' & Hco & Hsum).
    exists w'. split_and!.
    + cbn [forEach]. unfold bind. by rewrite Hrun1.
    + done.
    + by eapply CartOnly_trans.
    + intros p v. by rewrite Hsum, Hsum1.
Qed.

Lemma MergeInv_start u s l :
  uniqueKeys l → exclusiveOwner u s l →
  MergeInv u s l (List.filter (ofSession s) l).
Proof.
  intros Hkeys Hexcl. unfold exclusiveOwner in Hexcl. rewrite Forall_forall in Hexcl.
  constructor.
  - done.
  - apply NoDup_ListNoDup, List.NoDup_filter, NoDup_ListNoDup.
    by eapply NoDup_fmap_1.
  - intros g Hg. apply list_elem_of_In, filter_In in Hg as [Hg ?].
    by apply list_elem_of_In in Hg.
  - intros c Hc Hsess. apply list_elem_of_In, filter_In. split; [|done].
    by apply list_elem_of_In.
  - intros c Hc Hsess. unfold ofSession, ofUser in *.
    apply bool_decide_eq_true in Hsess. apply bool_decide_eq_false. by apply Hexcl.
Qed.

(** C10. For a signed-in user and a guest session, when cart keys are unique
    and no row of the session also belongs to the user, the merge succeeds;
    afterwards the user's quantity of every (product, variant) pair is the sum
    of the user's and the guest's quantities before, no row is left under the
    guest session, and nothing but the cart table changed. *)
Theorem mergeCart_preserves_quantities u s w :
  u ≠ "" → s ≠ "" →
  uniqueKeys (cartItems w) →
  exclusiveOwner u s (cartItems w) →
  ∃ w',
    mergeCart (Some u) (Some s) w = (Done MergeDone, w')
    ∧ (∀ p v,
         pairQuantity (ofUser u) p v (cartItems w')
         = pairQuantity (ofUser u) p v (cartItems w)
           + pairQuantity (ofSession s) p v (cartItems w))
    ∧ List.filter (ofSession s) (cartItems w') = []
    ∧ CartOnly w w'.
Proof.
  intros Hu Hs Hkeys Hexcl. unfold mergeCart.
  rewrite (truthy_Some _ Hu), (truthy_Some _ Hs). cbn [negb].
  unfold bind, gets.
  destruct (forEach_mergeGuestItem u s
              (List.filter (cartWhere None (Some s) None None) (cartItems w)) w)
    as (w' & -> & Hinv & Hco & Hsum).
  { erewrite filter_ext; [by apply MergeInv_start|]. apply cartWhere_session. }
  exists w'. split; [done|].
  assert (Hnone : ∀ c, c ∈ cartItems w' → ofSession s c = false).
  { intros c Hc. destruct (ofSession s c) eqn:Hsess; [|done].
    pose proof (mi_complete _ _ _ _ Hinv c Hc Hsess) as Hin.
    by apply elem_of_nil in Hin. }
  split_and!; [|..| done].
  - intros p v. specialize (Hsum p v). rewrite !heldBy_total in Hsum.
    rewrite <- Hsum.
    assert (pairQuantity (ofSession s) p v (cartItems w') = 0) as ->; [|lia].
    apply sumOver_zero. intros c Hc. by rewrite (Hnone c Hc).
  - apply elem_of_nil_inv. intros c Hc%list_elem_of_In%filter_In.
    destruct Hc as [Hc%list_elem_of_In Hsess]. rewrite (Hnone c Hc) in Hsess. done.
Qed.

(** ** Instances on the sample store *)


Lemma checkout_discount_errors_witness :
  Sample.checkout (Some "nope")
  = (Done (CheckoutRejected 400 InvalidDiscountError), Sample.world)
  ∧ Sample.checkout (Some "retired")
    = (Done (CheckoutRejected 400 DiscountInactiveError), Sample.world)
  ∧ Sample.checkout (Some "lapsed")
    = (Done (CheckoutRejected 400 DiscountExpiredError), Sample.world)
  ∧ Sample.checkout (Some "spent")
    = (Done (CheckoutRejected 400 DiscountExhaustedError), Sample.world)
  ∧ Sample.checkout (Some "big500")
    = (Done (CheckoutRejected 400 (DiscountMinimumNotMetError 500%float)),
       Sample.world).
Proof.
  split_and!.
  - destruct (checkout_discount_errors Sample.stripe Sample.round Sample.env
                (Sample.request (Some "nope")) Sample.world Sample.userRows
                Sample.userAcc "nope") as [Hinvalid Hfound];
      [vm_compute; reflexivity | discriminate | vm_compute; reflexivity
      | reflexivity | discriminate | ].
    apply Hinvalid, map_Forall_lookup, (bool_decide_unpack _). vm_compute. exact I.
  - destruct (checkout_discount_errors Sample.stripe Sample.round Sample.env
                (Sample.request (Some "retired")) Sample.world Sample.userRows
                Sample.userAcc "retired") as [Hinvalid Hfound];
      [vm_compute; reflexivity | discriminate | vm_compute; reflexivity
      | reflexivity | discriminate | ].
    destruct (Hfound "dc-retired" Sample.retired) as [Hinactive _];
      [vm_compute; reflexivity|].
    apply Hinactive. reflexivity.
  - destruct (checkout_discount_errors Sample.stripe Sample.round Sample.env
                (Sample.request (Some "lapsed")) Sample.world Sample.userRows
                Sample.userAcc "lapsed") as [Hinvalid Hfound];
      [vm_compute; reflexivity | discriminate | vm_compute; reflexivity
      | reflexivity | discriminate | ].
    destruct (Hfound "dc-lapsed" Sample.lapsed) as [_ Hactive];
      [vm_compute; reflexivity|].
    destruct (Hactive eq_refl) as [Hexpired _].
    apply (Hexpired 1000); reflexivity.
  - destruct (checkout_discount_errors Sample.stripe Sample.round Sample.env
                (Sample.request (Some "spent")) Sample.world Sample.userRows
                Sample.userAcc "spent") as [Hinvalid Hfound];
      [vm_compute; reflexivity | discriminate | vm_compute; reflexivity
      | reflexivity | discriminate | ].
    destruct (Hfound "dc-spent" Sample.spent) as [_ Hactive];
      [vm_compute; reflexivity|].
    destruct (Hactive eq_refl) as [_ Hfresh].
    destruct (Hfresh eq_refl) as [Hexhausted _].
    apply (Hexhausted 3); [reflexivity|discriminate|discriminate].
  - destruct (checkout_discount_errors Sample.stripe Sample.round Sample.env
                (Sample.request (Some "big500")) Sample.world Sample.userRows
                Sample.userAcc "big500") as [Hinvalid Hfound];
      [vm_compute; reflexivity | discriminate | vm_compute; reflexivity
      | reflexivity | discriminate | ].
    destruct (Hfound "dc-big" Sample.big500) as [_ Hactive];
      [vm_compute; reflexivity|].
    destruct (Hactive eq_refl) as [_ Hfresh].
    destruct (Hfresh eq_refl) as [_ Hunused].
    apply (Hunused eq_refl 500%float); reflexivity.
Defined.

(** C8, as stated, fails: the code NEVER has max uses 0 and usage counter 0,
    so its usage counter is at least its max uses, yet checkout accepts it
    and creates the order. *)
Lemma checkout_discount_exhausted_counterexample :
  discountCode_findUnique (toUpperCase "never") Sample.world
  = Some ("dc-never", Sample.never)
  ∧ dc_maxUses Sample.never = Some 0
  ∧ 0 ≤ dc_usedCount Sample.never
  ∧ (Sample.checkout (Some "never")).1
    = Done (CheckoutCreated (Some "https://checkout.stripe.com/cs_1") "cs_1"
              "order-1" "ZPS-20240115-A3B7")
  ∧ o_discountCodeId <$> orders (Sample.ordered (Some "never")) !! "order-1"
    = Some (Some "dc-never").
Proof. vm_compute. split_and!; done. Qed.

Lemma stripeWebhook_redelivery_witness :
  let w := Sample.ordered (Some "welcome10") in
  let first := stripeWebhook Sample.stripe Sample.secret "order-1" Sample.secret w in
  let second :=
    stripeWebhook Sample.stripe Sample.secret "order-1" Sample.secret first.2 in
  p_quantity <$> products first.2 !! "prod-a"
  = (λ q, q - 2) <$> (p_quantity <$> products w !! "prod-a")
  ∧ p_quantity <$> products second.2 !! "prod-a"
    = (λ q, q - 2) <$> (p_quantity <$> products first.2 !! "prod-a")
  ∧ dc_usedCount <$> discountCodes second.2 !! "dc-welcome"
    = (λ n, n + 1) <$> (dc_usedCount <$> discountCodes first.2 !! "dc-welcome").
Proof.
  intros w first second.
  destruct (stripeWebhook_redelivery Sample.stripe Sample.secret "order-1"
              Sample.secret (Sample.event "order-1") "order-1" Sample.welcomeOrder w)
    as (_ & _ & Hp & _ & Hc).
  - reflexivity.
  - reflexivity.
  - split; [reflexivity|discriminate].
  - vm_compute. reflexivity.
  - vm_compute. repeat constructor. by eexists.
  - intros c [= <-] _. vm_compute. by eexists.
  - destruct (Hp "prod-a") as [Hp1 Hp2], (Hc "dc-welcome") as [_ Hc2].
    split_and!; [exact Hp1|exact Hp2|exact Hc2].
Defined.

(** C1, as stated, fails: after the first delivery product A holds 8 units
    and WELCOME10 has been used once; the second delivery of the same event
    leaves 6 units and 2 uses. *)
Lemma stripeWebhook_redelivery_counterexample :
  let w := Sample.ordered (Some "welcome10") in
  let first := stripeWebhook Sample.stripe Sample.secret "order-1" Sample.secret w in
  let second :=
    stripeWebhook Sample.stripe Sample.secret "order-1" Sample.secret first.2 in
  first.1 = Done WebhookReceived
  ∧ second.1 = Done WebhookReceived
  ∧ p_quantity <$> products first.2 !! "prod-a" = Some 8
  ∧ p_quantity <$> products second.2 !! "prod-a" = Some 6
  ∧ dc_usedCount <$> discountCodes first.2 !! "dc-welcome" = Some 1
  ∧ dc_usedCount <$> discountCodes second.2 !! "dc-welcome" = Some 2.
Proof. vm_compute. split_and!; done. Qed.

Lemma mergeCart_preserves_quantities_witness :
  ∃ w',
    mergeCart (Some "user-1") (Some "sess-1") Sample.world = (Done MergeDone, w')
    ∧ (∀ p v,
         pairQuantity (ofUser "user-1") p v (cartItems w')
         = pairQuantity (ofUser "user-1") p v (cartItems Sample.world)
           + pairQuantity (ofSession "sess-1") p v (cartItems Sample.world))
    ∧ List.filter (ofSession "sess-1") (cartItems w') = []
    ∧ CartOnly Sample.world w'.
Proof.
  apply (mergeCart_preserves_quantities "user-1" "sess-1" Sample.world).
  - discriminate.
  - discriminate.
  - apply (bool_decide_unpack _). vm_compute. exact I.
  - repeat constructor; discriminate.
Defined.

(** ** Where the code departs from the specification *)

(** C3. The persisted order does not always satisfy
    total = subtotal − discountAmount + shippingCost.  Five units of a
    product at 169.99 with the code WELCOME10 (10 percent): the handler
    computes subtotal 849.95, discount 84.995, shipping 0 and total 764.955,
    and each money column is rounded to two decimals on its own when the
    order is stored.  The stored order has subtotal 849.95, discount 85.00,
    shipping 0.00 and total 764.96, one cent more than
    849.95 − 85.00 + 0.00; its line item is stored with price 169.99,
    quantity 5 and total 849.95. *)
Theorem checkout_total_off_by_a_cent :
  let run := checkout Sample.stripe Sample.round Sample.env
               (Sample.request3 (Some "WELCOME10")) Sample.boutique in
  (p_price <$> products Sample.boutique !! "prod-w" = Some (ofHundredths 16999)
   ∧ dc_type Sample.welcome10 = PERCENTAGE
   ∧ dc_value Sample.welcome10 = 10%float)
  ∧ (λ it, (hundredths (oi_price it), oi_quantity it, hundredths (oi_total it)))
      <$> orderItem_findMany "order-1" run.2
    = [(16999, 5, 84995)]
  ∧ ∃ o,
      orders run.2 !! "order-1" = Some o
      ∧ hundredths (o_subtotal o) = 84995
      ∧ hundredths (o_discountAmount o) = 8500
      ∧ hundredths (o_shippingCost o) = 0
      ∧ hundredths (o_total o) = 76496
      ∧ hundredths (o_total o)
        ≠ hundredths (o_subtotal o) - hundredths (o_discountAmount o)
          + hundredths (o_shippingCost o)
      ∧ PrimFloat.eqb (o_total o)
          (o_subtotal o - o_discountAmount o + o_shippingCost o)%float = false.
Proof.
  split; [by vm_compute|]. split; [by vm_compute|].
  eexists. split; [vm_compute; reflexivity|]. by vm_compute.
Qed.

(** C2. Cancelling a PENDING, unpaid order sets it to CANCELLED and issues no
    refund, but it also adds the ordered quantities to the stock, which no
    payment had taken off: product A goes from 10 to 12 units. *)
Theorem cancelOrder_pending_restocks :
  let w := Sample.ordered None in
  let run := cancelOrder Sample.stripe 1705314700000 "user-1" "order-1" None w in
  o_status <$> orders w !! "order-1" = Some PENDING
  ∧ o_paymentStatus <$> orders w !! "order-1" = Some PAYMENT_PENDING
  ∧ oi_quantity <$> orderItem_findMany "order-1" w = [2]
  ∧ p_quantity <$> products w !! "prod-a" = Some 10
  ∧ o_status <$> orders run.2 !! "order-1" = Some CANCELLED
  ∧ refundCalls run.2 = []
  ∧ p_quantity <$> products run.2 !! "prod-a" = Some 12.
Proof. vm_compute. split_and!; done. Qed.

(** C4. Checking out 100 ILS of goods with the FREE_SHIPPING code FREESHIP
    persists an order with discount amount 0 and shipping cost 25: the
    shipping cost is not forced to 0. *)
Theorem checkout_free_shipping_code_charges_shipping :
  let w' := Sample.ordered (Some "FREESHIP") in
  discountCode_findUnique "FREESHIP" Sample.world = Some ("dc-ship", Sample.freeship)
  ∧ dc_type Sample.freeship = FREE_SHIPPING
  ∧ o_discountCodeId <$> orders w' !! "order-1" = Some (Some "dc-ship")
  ∧ o_subtotal <$> orders w' !! "order-1" = Some 100%float
  ∧ o_discountAmount <$> orders w' !! "order-1" = Some 0%float
  ∧ o_shippingCost <$> orders w' !! "order-1" = Some 25%float
  ∧ o_total <$> orders w' !! "order-1" = Some 125%float.
Proof. vm_compute. split_and!; done. Qed.

(** C9. When [Math.random()] returns 0.5, whose base-36 rendering is "0.i",
    the generated order number is "ZPS-20240115-I": its random suffix has one
    character, not four. *)
Theorem generateOrderNumber_short_suffix :
  generateOrderNumber "2024-01-15T10:30:00.000Z" "0.i" = "ZPS-20240115-I"
  ∧ isOrderNumber (generateOrderNumber "2024-01-15T10:30:00.000Z" "0.i") = false.
Proof. vm_compute. done. Qed.

(** * Further properties of the handlers *)

(** ** Accepted discount codes *)



Lemma discount_percentage_examples :
  discountValue Sample.welcome10 200 = 20%float
  ∧ (∀ d, dc_type d = PERCENTAGE → dc_value d = 0%float →
          discountValue d 200 = 0%float)
  ∧ (∀ d, dc_type d = PERCENTAGE → dc_value d = 100%float →
          discountValue d 200 = 200%float).
Proof.
  split_and!; [by vm_compute|..]; intros d Ht Hv; unfold discountValue;
    rewrite Ht, Hv; by vm_compute.
Qed.

Lemma order_create_collision id o items timeline w id' o' :
  orders w !! id' = Some o' → o_orderNumber o' = o_orderNumber o →
  order_create id o items timeline w = (Thrown uniqueConstraintFailed, w).
Proof.
  intros Ho' Hsame. unfold order_create. case_decide; [done|].
  rewrite decide_True; [done|]. by exists id', o'.
Qed.

(** ** Merging again *)

(** The merge leaves cart keys unique, and merging the same session a second
    time changes nothing. *)
Theorem mergeCart_again u s w :
  u ≠ "" → s ≠ "" →
  uniqueKeys (cartItems w) →
  exclusiveOwner u s (cartItems w) →
  let w' := (mergeCart (Some u) (Some s) w).2 in
  uniqueKeys (cartItems w')
  ∧ mergeCart (Some u) (Some s) w' = (Done MergeDone, w').
Proof.
  intros Hu Hs Hkeys Hexcl. unfold mergeCart.
  rewrite (truthy_Some _ Hu), (truthy_Some _ Hs). cbn [negb].
  unfold bind, gets.
  destruct (forEach_mergeGuestItem u s
              (List.filter (cartWhere None (Some s) None None) (cartItems w)) w)
    as (w' & -> & Hinv & _ & _).
  { erewrite filter_ext; [by apply MergeInv_start|]. apply cartWhere_session. }
  cbn [snd ret]. split; [apply (mi_keys _ _ _ _ Hinv)|].
  assert (List.filter (cartWhere None (Some s) None None) (cartItems w') = []) as ->;
    [|done].
  apply elem_of_nil_inv. intros c Hc%list_elem_of_In%filter_In.
  destruct Hc as [Hc%list_elem_of_In Hsess]. rewrite cartWhere_session in Hsess.
  pose proof (mi_complete _ _ _ _ Hinv c Hc Hsess) as Hin.
  by apply elem_of_nil in Hin.
Qed.

(** ** Checkout: what it stores and what it leaves alone *)

Lemma Preserves_ret {A} (a : A) : Preserves (ret a).
Proof. by intros w r w' [= <- <-]. Qed.

Lemma Preserves_throw {A} e : Preserves (@throw A e).
Proof. by intros w r w' [= <- <-]. Qed.

Lemma Preserves_gets {A} (f : World → A) : Preserves (gets f).
Proof. by intros w r w' [= <- <-]. Qed.

Lemma Preserves_await {A} (reply : option A) : Preserves (await reply).
Proof. destruct reply; [apply Preserves_ret|apply Preserves_throw]. Qed.

Lemma Preserves_bind {A B} (m : Task A) (k : A → Task B) :
  Preserves m → (∀ a, Preserves (k a)) → Preserves (bind m k).
Proof.
  intros Hm Hk w r w'. unfold bind.
  destruct (m w) as [[a|e] w1] eqn:Hrun.
  - intros Hrun'. rewrite (Hk a _ _ _ Hrun'). by eapply Hm.
  - intros [= <- <-]. by eapply Hm.
Qed.

Lemma Preserves_cartItem_findManyInclude where_ :
  Preserves (cartItem_findManyInclude where_).
Proof.
  intros w r w'. unfold cartItem_findManyInclude.
  by destruct (mapM _ _); intros [= <- <-].
Qed.

Lemma Preserves_address_create id userId fields :
  Preserves (address_create id userId fields).
Proof. intros w r w'. unfold address_create. by case_decide; intros [= <- <-]. Qed.

Lemma Preserves_order_create id o items timeline :
  Preserves (order_create id o items timeline).
Proof.
  intros w r w'. unfold order_create. by repeat case_decide; intros [= <- <-].
Qed.

Lemma Preserves_order_update id data timeline :
  Preserves (order_update id data timeline).
Proof.
  intros w r w'. unfold order_update. by destruct (orders w !! id); intros [= <- <-].
Qed.

Lemma Preserves_getOrCreateStripeCoupon stripe Math_round d :
  Preserves (getOrCreateStripeCoupon stripe Math_round d).
Proof.
  unfold getOrCreateStripeCoupon.
  destruct (coupons_retrieve stripe (dc_code d)); [apply Preserves_ret|].
  apply Preserves_await.
Qed.

(** Checkout reserves nothing: however it ends, it leaves every stock
    quantity, every discount code with its usage counter, every cart row and
    the refund ledger as they were. *)
Theorem checkout_reserves_nothing stripe Math_round env rq w :
  let w' := (checkout stripe Math_round env rq w).2 in
  products w' = products w
  ∧ productVariants w' = productVariants w
  ∧ discountCodes w' = discountCodes w
  ∧ cartItems w' = cartItems w
  ∧ refundCalls w' = refundCalls w.
Proof.
  assert (Hp : Preserves (checkout stripe Math_round env rq)).
  { unfold checkout.
    apply Preserves_bind; [apply Preserves_cartItem_findManyInclude|intros rows].
    destruct (length rows =? 0)%nat; [apply Preserves_ret|].
    destruct (verifyStock Math_round rows emptyAcc) as [e|acc]; [apply Preserves_ret|].
    apply Preserves_bind; [apply Preserves_gets|intros [e|[amount discount]]];
      [apply Preserves_ret|].
    apply Preserves_bind.
    { destruct (rq_userId rq) as [userId|]; [|apply Preserves_ret].
      destruct (truthy (Some userId)); [|apply Preserves_ret].
      apply Preserves_bind; [apply Preserves_address_create|intros; apply Preserves_ret]. }
    intros addressId.
    apply Preserves_bind; [apply Preserves_order_create|intros order].
    apply Preserves_bind.
    { destruct discount as [[? d]|]; [|apply Preserves_ret].
      apply Preserves_bind; [apply Preserves_getOrCreateStripeCoupon|].
      intros; apply Preserves_ret. }
    intros coupon.
    apply Preserves_bind; [apply Preserves_await|intros session].
    apply Preserves_bind; [apply Preserves_order_update|intros; apply Preserves_ret]. }
  intros w'. subst w'.
  destruct (checkout stripe Math_round env rq w) as [r w'] eqn:Hrun.
  specialize (Hp _ _ _ Hrun). unfold stockAndCart in Hp. cbn [snd].
  by simplify_eq.
Qed.



(** An order number that is already taken makes checkout throw the
    unique-constraint failure of [Order_orderNumber_key]; no stored order is
    overwritten and no line item is added. *)
Theorem checkout_order_number_collision
    stripe Math_round env rq w rows amount discount id o' :
  loadedCart rq w = Some rows → rows ≠ [] →
  Forall (λ row, rowOutOfStock row = false) rows →
  applyDiscount w (env_now env) (rq_discountCode rq) (cartSubtotal rows)
  = inr (amount, discount) →
  Forall (λ a, a_id a ≠ env_addressId env) (addresses w) →
  orders w !! id = Some o' →
  o_orderNumber o' = generateOrderNumber (env_isoNow env) (env_random36 env) →
  let run := checkout stripe Math_round env rq w in
  run.1 = Thrown uniqueConstraintFailed
  ∧ orders run.2 = orders w
  ∧ orderItems run.2 = orderItems w.
Proof.
  intros Hload Hne Hstock Hdisc Haddr Ho' Hsame run. subst run.
  destruct (verifyStock_in_stock Math_round rows emptyAcc Hstock) as [acc Hacc].
  pose proof (verifyStock_inr _ _ _ _ Hacc) as [Hsub _].
  change (acc_subtotal acc = cartSubtotal rows) in Hsub.
  unfold checkout, bind, cartItem_findManyInclude. fold (loadedCart rq w).
  rewrite Hload. destruct rows as [|row rows]; [done|]. cbn [length Nat.eqb].
  rewrite Hacc. unfold gets. rewrite Hsub, Hdisc.
  match goal with |- context [match rq_userId rq with Some _ => _ | None => _ end w] =>
    set (address := match rq_userId rq with Some _ => _ | None => _ end) end.
  assert (∃ addressId w0, address w = (Done addressId, w0) ∧ orders w0 = orders w
                          ∧ orderItems w0 = orderItems w)
    as (addressId & w0 & -> & Hord0 & Hitems0).
  { subst address. unfold ret, bind, address_create.
    destruct (rq_userId rq); [|by eauto]. case_match; [|by eauto].
    case_decide as Hex; [|by eauto].
    apply Exists_exists in Hex as (a & Hin & Ha).
    rewrite Forall_forall in Haddr. by destruct (Haddr a Hin). }
  unfold order_create. rewrite Hord0.
  case_decide; [done|].
  rewrite decide_True; [done|]. by exists id, o'.
Qed.


(** When checkout succeeds, the session id answered to the client is the one
    stored on the order, and the order id and number answered are those of
    the stored order. *)
Theorem checkout_links_session stripe Math_round env rq w url sid oid number w' :
  checkout stripe Math_round env rq w = (Done (CheckoutCreated url sid oid number), w') →
  oid = env_orderId env
  ∧ ∃ o, orders w' !! oid = Some o
         ∧ o_stripePaymentId o = Some sid
         ∧ o_orderNumber o = number
         ∧ o_status o = PENDING.
Proof.
  unfold checkout, bind, cartItem_findManyInclude.
  destruct (mapM _ _) as [rows|]; [|done].
  destruct (length rows =? 0)%nat; [done|].
  destruct (verifyStock Math_round rows emptyAcc) as [e|acc]; [done|].
  unfold gets.
  destruct (applyDiscount _ _ _ _) as [e|[amount discount]]; [done|].
  match goal with |- context [let (_, _) := ?t in _] =>
    destruct t as [[addressId|e] w0] end; [|done].
  match goal with |- context [let (_, _) := ?t in _] =>
    destruct t as [[order|e] w1] eqn:Hcreate end; [|done].
  assert (orders w1 !! env_orderId env = Some order
          ∧ o_stripePaymentId order = None ∧ o_status order = PENDING)
    as (Hw1 & Hnone & Hpending).
  { unfold order_create in Hcreate. repeat case_decide; simplify_eq.
    split; [apply lookup_insert_eq|done]. }
  match goal with |- context [let (_, _) := ?t in _] =>
    destruct t as [[coupon|e] w2] eqn:Hcoupon end; [|done].
  assert (w2 = w1) as ->.
  { destruct discount as [[? d]|]; [|by unfold ret in Hcoupon; simplify_eq].
    unfold bind in Hcoupon.
    destruct (getOrCreateStripeCoupon stripe Math_round d w1) as [[?|?] ?] eqn:Hc;
      [|done]. unfold ret in Hcoupon. simplify_eq.
    by eapply getOrCreateStripeCoupon_world. }
  match goal with |- context [let (_, _) := ?t in _] =>
    destruct t as [[session|e] w3] eqn:Hsession end;
    apply await_world in Hsession as ->; [|done].
  unfold order_update. rewrite Hw1. unfold ret. intros [= <- <- <- <- <-].
  split; [done|]. eexists. cbn. rewrite lookup_insert_eq. by split_and!.
Qed.

(** ** The order number format *)

Lemma isDigit_not_dash c : isDigit c = true → Ascii.eqb c "-" = false.
Proof. by destruct c as [[] [] [] [] [] [] [] []]. Qed.

Lemma upperChar_base36 c : isBase36 c = true → isUpperAlnum (upperChar c) = true.
Proof. by destruct c as [[] [] [] [] [] [] [] []]. Qed.

Lemma isBase36_ascii c : isBase36 c = true → byte c < 0x80.
Proof. by destruct c as [[] [] [] [] [] [] [] []]; vm_compute. Qed.

(** With a four-digit year and a random number whose base-36 rendering has
    at least four digits after "0.", the order number has the documented
    format [ZPS-YYYYMMDD-XXXX]. *)
Theorem generateOrderNumber_format isoNow random36 :
  isIsoDate (slice0 10 isoNow) = true →
  String.length (substring 2 6 random36) = 4%nat →
  allChars isBase36 (substring 2 6 random36) = true →
  isOrderNumber (generateOrderNumber isoNow random36) = true.
Proof.
  unfold generateOrderNumber.
  generalize (slice0 10 isoNow) (substring 2 6 random36). intros d r Hd Hlen Hr.
  destruct d as [|y1 [|y2 [|y3 [|y4 [|h1 [|m1 [|m2 [|h2 [|d1 [|d2 [|? ?]]]]]]]]]]];
    try discriminate.
  destruct r as [|r1 [|r2 [|r3 [|r4 [|? ?]]]]]; try discriminate.
  cbn [isIsoDate] in Hd. cbn [allChars] in Hr.
  do 9 (apply andb_true_iff in Hd as [Hd ?]).
  do 4 (apply andb_true_iff in Hr as [? Hr]).
  cbn [removeDashes].
  repeat match goal with
         | H : isDigit ?c = true |- context [Ascii.eqb ?c "-"] =>
             rewrite (isDigit_not_dash c H)
         | H : Ascii.eqb ?c "-" = true |- context [Ascii.eqb ?c "-"] => rewrite H
         end.
  rewrite !toUpperCase_ascii by (by apply isBase36_ascii).
  change (toUpperCase EmptyString) with EmptyString.
  unfold isOrderNumber, substring.
  Opaque isUpperAlnum isDigit upperChar.
  simpl.
  Transparent isUpperAlnum isDigit upperChar.
  rewrite !upperChar_base36 by done.
  repeat match goal with H : isDigit ?c = true |- _ => rewrite H; clear H end.
  reflexivity.
Qed.

Lemma generateOrderNumber_format_witness :
  isOrderNumber (generateOrderNumber "2024-01-15T10:30:00.000Z" "0.a3b7k2m9x1") = true.
Proof. apply generateOrderNumber_format; reflexivity. Defined.

(** ** Cancellation *)

Lemma cancelOrder_after_refund stripe now userId id reason o refunds w w0 :
  orders w !! id = Some o →
  cancellable userId o →
  Forall (inStore w) (orderItem_findMany id w) →
  refundIfPaid stripe o w = (Done tt, w0) →
  w0 = set_refundCalls (app refunds) w →
  ∃ w', cancelOrder stripe now userId id reason w
        = (Done (Cancelled (order_cancel now o)), w')
        ∧ CancelEffect id now reason o refunds w w'.
Proof.
  intros Ho [Hown Hstat] Hstore Hrefund ->.
  unfold cancelOrder, bind, order_findUnique, gets. rewrite Ho.
  rewrite (bool_decide_eq_true_2 _ Hown). cbn [negb].
  replace (bool_decide (o_status o = PENDING) || bool_decide (o_status o = CONFIRMED))
    with true
    by (destruct Hstat as [-> | ->]; done).
  cbn [negb]. rewrite Hrefund.
  unfold order_update. cbn [orders set_refundCalls]. rewrite Ho.
  match goal with |- context [forEach ?items _ ?w1] =>
    destruct (forEach_updateInventory increment items w1) as (w2 & -> & Hmoved)
  end.
  { eapply Forall_impl; [exact Hstore|]. intros it. unfold inStore.
    by destruct (stockTarget it). }
  destruct Hmoved as [Hp Hv Hd Hords Hcart Hitems Htl Haddr Href].
  cbn in Hp, Hv, Hd, Hords, Hcart, Hitems, Htl, Haddr, Href.
  eexists. split; [reflexivity|]. constructor; try done.
  - intros p. by rewrite Hp, netFor_increment.
  - intros v. by rewrite Hv, netFor_increment.
Qed.

Lemma refundIfPaid_unpaid stripe o w :
  o_paymentStatus o ≠ PAID → refundIfPaid stripe o w = (Done tt, w).
Proof.
  intros Hpay. unfold refundIfPaid. by rewrite bool_decide_eq_false_2.
Qed.

Lemma refundIfPaid_no_reference stripe o w :
  truthy (o_stripePaymentId o) = false → refundIfPaid stripe o w = (Done tt, w).
Proof. intros Href. unfold refundIfPaid. by rewrite Href, andb_false_r. Qed.

Lemma refundIfPaid_paid stripe o sid session w :
  o_paymentStatus o = PAID →
  o_stripePaymentId o = Some sid → sid ≠ "" →
  checkout_sessions_retrieve stripe sid = Some session →
  refundIfPaid stripe o w
  = match so_payment_intent session with
    | Some payment_intent =>
        if truthy (Some payment_intent) then refund stripe payment_intent w
        else (Done tt, w)
    | None => (Done tt, w)
    end.
Proof.
  intros Hpay Hsid Hne Hsession. unfold refundIfPaid.
  rewrite (bool_decide_eq_true_2 _ Hpay), Hsid, (truthy_Some _ Hne). cbn.
  rewrite Hsession. unfold bind, ret. cbn.
  destruct (so_payment_intent session) as [pi|]; [|done].
  by destruct (negb (pi =? "")%string).
Qed.

Lemma set_refundCalls_nil w : w = set_refundCalls (app []) w.
Proof. by destruct w. Qed.

(** Cancelling a pending or confirmed order that is not paid issues no
    refund call and keeps its payment status; the stock rows of its line
    items grow by the ordered quantities. *)
Theorem cancelOrder_unpaid stripe now userId id reason o w :
  orders w !! id = Some o →
  cancellable userId o →
  o_paymentStatus o ≠ PAID →
  Forall (inStore w) (orderItem_findMany id w) →
  ∃ w', cancelOrder stripe now userId id reason w
        = (Done (Cancelled (order_cancel now o)), w')
        ∧ CancelEffect id now reason o [] w w'
        ∧ o_status (order_cancel now o) = CANCELLED
        ∧ o_paymentStatus (order_cancel now o) = o_paymentStatus o.
Proof.
  intros Ho Hcan Hpay Hstore.
  destruct (cancelOrder_after_refund stripe now userId id reason o [] w w)
    as (w' & Hrun & Heff); try done.
  - by apply refundIfPaid_unpaid.
  - apply set_refundCalls_nil.
  - exists w'. split_and!; try done. cbn. by rewrite decide_False.
Qed.

Lemma refundIfPaid_refunds stripe o sid session payment_intent w :
  o_paymentStatus o = PAID →
  o_stripePaymentId o = Some sid → sid ≠ "" →
  checkout_sessions_retrieve stripe sid = Some session →
  so_payment_intent session = Some payment_intent → payment_intent ≠ "" →
  refunds_create stripe payment_intent = true →
  refundIfPaid stripe o w = (Done tt, set_refundCalls (cons payment_intent) w).
Proof.
  intros Hpay Hsid Hne Hsession Hpi Hpine Hok.
  rewrite (refundIfPaid_paid _ _ _ _ _ Hpay Hsid Hne Hsession), Hpi.
  rewrite (truthy_Some _ Hpine). unfold refund, bind, modify. by rewrite Hok.
Qed.

(** Cancelling a paid order with a stored payment-session reference whose
    session carries a payment intent, when the gateway accepts the refund:
    exactly one refund call, for that intent; the order becomes
    CANCELLED / REFUNDED and every stock row gets back the ordered
    quantities. *)
Theorem cancelOrder_paid_refunds_and_restocks
    stripe now userId id reason o sid session payment_intent w :
  orders w !! id = Some o →
  cancellable userId o →
  o_paymentStatus o = PAID →
  o_stripePaymentId o = Some sid → sid ≠ "" →
  checkout_sessions_retrieve stripe sid = Some session →
  so_payment_intent session = Some payment_intent → payment_intent ≠ "" →
  refunds_create stripe payment_intent = true →
  Forall (inStore w) (orderItem_findMany id w) →
  ∃ w', cancelOrder stripe now userId id reason w
        = (Done (Cancelled (order_cancel now o)), w')
        ∧ CancelEffect id now reason o [payment_intent] w w'
        ∧ o_status (order_cancel now o) = CANCELLED
        ∧ o_paymentStatus (order_cancel now o) = PAYMENT_REFUNDED.
Proof.
  intros Ho Hcan Hpay Hsid Hne Hsession Hpi Hpine Hok Hstore.
  destruct (cancelOrder_after_refund stripe now userId id reason o [payment_intent] w
              (set_refundCalls (cons payment_intent) w))
    as (w' & Hrun & Heff); try done.
  - by apply (refundIfPaid_refunds stripe o sid session).
  - exists w'. split_and!; try done. cbn. by rewrite decide_True.
Qed.

(** A paid order without a usable payment reference is cancelled and marked
    REFUNDED although no refund call is made. *)
Theorem cancelOrder_paid_without_reference stripe now userId id reason o w :
  orders w !! id = Some o →
  cancellable userId o →
  o_paymentStatus o = PAID →
  truthy (o_stripePaymentId o) = false →
  Forall (inStore w) (orderItem_findMany id w) →
  ∃ w', cancelOrder stripe now userId id reason w
        = (Done (Cancelled (order_cancel now o)), w')
        ∧ refundCalls w' = refundCalls w
        ∧ o_paymentStatus <$> orders w' !! id = Some PAYMENT_REFUNDED.
Proof.
  intros Ho Hcan Hpay Href Hstore.
  destruct (cancelOrder_after_refund stripe now userId id reason o [] w w)
    as (w' & Hrun & Heff); try done.
  - by apply refundIfPaid_no_reference.
  - apply set_refundCalls_nil.
  - exists w'. destruct Heff as [Hords _ _ _ _ _ _ Hcalls]. split_and!; try done.
    rewrite Hords, lookup_insert_eq. cbn. by rewrite decide_True.
Qed.

(** When the gateway rejects the refund, the handler throws after the refund
    call: the order keeps its status and the stock is not touched. *)
Theorem cancelOrder_refund_rejected
    stripe now userId id reason o sid session payment_intent w :
  orders w !! id = Some o →
  cancellable userId o →
  o_paymentStatus o = PAID →
  o_stripePaymentId o = Some sid → sid ≠ "" →
  checkout_sessions_retrieve stripe sid = Some session →
  so_payment_intent session = Some payment_intent → payment_intent ≠ "" →
  refunds_create stripe payment_intent = false →
  cancelOrder stripe now userId id reason w
  = (Thrown stripeError, set_refundCalls (cons payment_intent) w).
Proof.
  intros Ho [Hown Hstat] Hpay Hsid Hne Hsession Hpi Hpine Hok.
  unfold cancelOrder, bind, order_findUnique, gets. rewrite Ho.
  rewrite (bool_decide_eq_true_2 _ Hown). cbn [negb].
  replace (bool_decide (o_status o = PENDING) || bool_decide (o_status o = CONFIRMED))
    with true
    by (destruct Hstat as [-> | ->]; done).
  cbn [negb].
  rewrite (refundIfPaid_paid _ _ _ _ _ Hpay Hsid Hne Hsession), Hpi.
  rewrite (truthy_Some _ Hpine). unfold refund, bind, modify. by rewrite Hok.
Qed.

(** Every answer other than "cancelled" leaves the store as it was, and
    tells why: "not found" for an order that is not stored, "access denied"
    for an order of somebody else, "cannot be cancelled at this stage" for
    an own order that is past CONFIRMED. *)
Theorem cancelOrder_rejection_unchanged stripe now userId id reason w r w' :
  cancelOrder stripe now userId id reason w = (Done r, w') →
  (∀ o, r ≠ Cancelled o) →
  w' = w
  ∧ match orders w !! id with
    | None => r = CancelNotFound
    | Some o =>
        if decide (o_userId o = Some userId) then r = CancelTooLate
        else r = CancelDenied
    end.
Proof.
  unfold cancelOrder, bind, order_findUnique, gets.
  destruct (orders w !! id) as [o|]; [|by intros [= <- <-]].
  case_bool_decide as Hown; cbn [negb].
  2:{ intros [= <- <-] _. by rewrite decide_False. }
  rewrite decide_True by done.
  destruct (negb _); [by intros [= <- <-]|].
  intros Hrun Hr. exfalso.
  destruct (refundIfPaid stripe o w) as [[[]|e] w0]; [|done].
  destruct (order_update _ _ _ w0) as [[updated|e] w1]; [|done].
  destruct (forEach _ _ w1) as [[[]|e] w2]; [|done].
  unfold ret in Hrun. simplify_eq. by eapply Hr.
Qed.

(** ** The webhook: acknowledgement and other effects *)

Lemma handleCheckoutComplete_done session w :
  (handleCheckoutComplete session w).1 = Done tt.
Proof.
  unfold handleCheckoutComplete.
  destruct (so_orderId session) as [orderId|]; [|done].
  destruct (truthy (Some orderId)); [|done].
  unfold tryCatch. by destruct (bind _ _ w) as [[[]|e] w'].
Qed.

(** Once the signature verifies, the gateway is always answered
    [{ received: true }]: no event, known or not, and no failure while
    processing it makes the handler answer an error or throw. *)
Theorem stripeWebhook_always_acknowledges stripe webhookSecret body sig event w :
  webhooks_constructEvent stripe body sig webhookSecret = Some event →
  (stripeWebhook stripe webhookSecret body sig w).1 = Done WebhookReceived.
Proof.
  intros Hev. unfold stripeWebhook. rewrite Hev. unfold bind.
  destruct (String.eqb (ev_type event) "checkout.session.completed").
  - pose proof (handleCheckoutComplete_done (ev_object event) w) as Hdone.
    by destruct (handleCheckoutComplete (ev_object event) w) as [[[]|e] w'].
  - destruct (String.eqb (ev_type event) "payment_intent.succeeded"); [done|].
    by destruct (String.eqb (ev_type event) "payment_intent.payment_failed").
Qed.

(** A verified event changes nothing when it is not a completed checkout
    session, when the session names no order, or when the order it names is
    not stored. *)
Theorem stripeWebhook_foreign_event stripe webhookSecret body sig event w :
  webhooks_constructEvent stripe body sig webhookSecret = Some event →
  ev_type event ≠ "checkout.session.completed"
  ∨ truthy (so_orderId (ev_object event)) = false
  ∨ (∃ orderId, so_orderId (ev_object event) = Some orderId
                ∧ orders w !! orderId = None) →
  stripeWebhook stripe webhookSecret body sig w = (Done WebhookReceived, w).
Proof.
  intros Hev Hcase. unfold stripeWebhook. rewrite Hev. unfold bind.
  destruct (String.eqb_spec (ev_type event) "checkout.session.completed") as [Htype|Htype].
  - destruct Hcase as [?|[Hfalsy|(orderId & Hid & Hnone)]]; [done| |].
    + unfold handleCheckoutComplete.
      destruct (so_orderId (ev_object event)) as [orderId|]; [|done].
      by rewrite Hfalsy.
    + unfold handleCheckoutComplete. rewrite Hid.
      destruct (truthy (Some orderId)); [|done].
      unfold tryCatch, bind, order_update. by rewrite Hnone.
  - destruct (String.eqb (ev_type event) "payment_intent.succeeded"); [done|].
    by destruct (String.eqb (ev_type event) "payment_intent.payment_failed").
Qed.

(** Paying and then cancelling an order gives every stock row back exactly
    what the payment took: the quantities are those from before the payment.
    The use of the discount code is not given back. *)
Theorem pay_then_cancel_restores_stock
    stripe webhookSecret body sig event now userId orderId reason o sid session
    payment_intent w :
  webhooks_constructEvent stripe body sig webhookSecret = Some event →
  ev_type event = "checkout.session.completed" →
  completedSession orderId (ev_object event) →
  orders w !! orderId = Some o →
  o_userId o = Some userId →
  o_stripePaymentId o = Some sid → sid ≠ "" →
  checkout_sessions_retrieve stripe sid = Some session →
  so_payment_intent session = Some payment_intent → payment_intent ≠ "" →
  refunds_create stripe payment_intent = true →
  Forall (inStore w) (orderItem_findMany orderId w) →
  codeInStore w o →
  let paid := (stripeWebhook stripe webhookSecret body sig w).2 in
  let cancelled := (cancelOrder stripe now userId orderId reason paid).2 in
  products cancelled = products w
  ∧ productVariants cancelled = productVariants w
  ∧ (∀ c, discountCodes cancelled !! c = redeem (usesOf o c) <$> discountCodes w !! c)
  ∧ refundCalls cancelled = payment_intent :: refundCalls w
  ∧ o_status <$> orders cancelled !! orderId = Some CANCELLED
  ∧ o_paymentStatus <$> orders cancelled !! orderId = Some PAYMENT_REFUNDED.
Proof.
  intros Hev Htype Hsession Ho Hown Hsid Hne Hretrieve Hpi Hpine Hok Hstore Hcode
    paid cancelled.
  destruct (handleCheckoutComplete_delivered _ _ _ _ Hsession Ho Hstore Hcode)
    as (w1 & Hrun1 & Hd1).
  destruct (Delivered_again _ _ _ _ Ho Hstore Hcode Hd1)
    as (Ho1 & Hitems1 & Hstore1 & Hcode1).
  assert (paid = w1) as ->.
  { subst paid. rewrite (stripeWebhook_completed _ _ _ _ _ _ Hev Htype).
    unfold bind. by rewrite Hrun1. }
  destruct (cancelOrder_after_refund stripe now userId orderId reason
              (order_confirmPayment o) [payment_intent] w1
              (set_refundCalls (cons payment_intent) w1))
    as (w2 & Hrun2 & Heff); try done.
  { split; [done|by right]. }
  { by apply (refundIfPaid_refunds stripe _ sid session). }
  subst cancelled. rewrite Hrun2. cbn [snd].
  destruct Hd1 as [_ Hp1 Hv1 Hc1 _ _ Hr1].
  destruct Heff as [Hords2 Hp2 Hv2 Hc2 _ _ _ Hr2].
  rewrite Hitems1 in Hp2, Hv2.
  split_and!.
  - apply map_eq. intros p. rewrite Hp2, Hp1.
    destruct (products w !! p) as [x|]; [|done]. cbn.
    rewrite restock_restock, Z.add_opp_diag_l. by rewrite restock_0.
  - apply map_eq. intros v. rewrite Hv2, Hv1.
    destruct (productVariants w !! v) as [x|]; [|done]. cbn.
    rewrite restockVariant_restockVariant, Z.add_opp_diag_l.
    by rewrite restockVariant_0.
  - intros c. by rewrite Hc2, Hc1.
  - by rewrite Hr2, Hr1.
  - by rewrite Hords2, lookup_insert_eq.
  - by rewrite Hords2, lookup_insert_eq.
Qed.

(** What a delivery does besides stock and usage: the order becomes
    CONFIRMED / PAID by "stripe", no other order changes, the cart of the
    signed-in buyer is emptied and no other cart row is touched. *)
Theorem stripeWebhook_confirms_order
    stripe webhookSecret body sig event orderId o userId w :
  webhooks_constructEvent stripe body sig webhookSecret = Some event →
  ev_type event = "checkout.session.completed" →
  completedSession orderId (ev_object event) →
  orders w !! orderId = Some o →
  o_userId o = Some userId → userId ≠ "" →
  Forall (inStore w) (orderItem_findMany orderId w) →
  codeInStore w o →
  let w' := (stripeWebhook stripe webhookSecret body sig w).2 in
  (∃ o', orders w' !! orderId = Some o'
         ∧ o_status o' = CONFIRMED ∧ o_paymentStatus o' = PAID
         ∧ o_paymentMethod o' = Some "stripe" ∧ o_total o' = o_total o)
  ∧ (∀ id, id ≠ orderId → orders w' !! id = orders w !! id)
  ∧ (∀ c, c ∈ cartItems w' ↔ c ∈ cartItems w ∧ ci_userId c ≠ Some userId).
Proof.
  intros Hev Htype Hsession Ho Hown Hne Hstore Hcode w'.
  destruct (handleCheckoutComplete_delivered _ _ _ _ Hsession Ho Hstore Hcode)
    as (w1 & Hrun1 & Hd1).
  assert (Hw' : w' = w1).
  { subst w'. rewrite (stripeWebhook_completed _ _ _ _ _ _ Hev Htype).
    unfold bind. by rewrite Hrun1. }
  clearbody w'. subst w'.
  destruct Hd1 as [Hords _ _ _ _ Hcart _]. split_and!.
  - exists (order_confirmPayment o). by rewrite Hords, lookup_insert_eq.
  - intros id Hid. by rewrite Hords, lookup_insert_ne.
  - intros c. rewrite Hown, (truthy_Some _ Hne) in Hcart.
    rewrite Hcart, list_elem_of_filter. tauto.
Qed.

(** A guest order has no user, so paying it clears no cart: the rows of the
    guest session survive the purchase. *)
Theorem stripeWebhook_guest_cart_survives
    stripe webhookSecret body sig event orderId o w :
  webhooks_constructEvent stripe body sig webhookSecret = Some event →
  ev_type event = "checkout.session.completed" →
  completedSession orderId (ev_object event) →
  orders w !! orderId = Some o →
  o_userId o = None →
  Forall (inStore w) (orderItem_findMany orderId w) →
  codeInStore w o →
  cartItems (stripeWebhook stripe webhookSecret body sig w).2 = cartItems w.
Proof.
  intros Hev Htype Hsession Ho Hown Hstore Hcode.
  destruct (handleCheckoutComplete_delivered _ _ _ _ Hsession Ho Hstore Hcode)
    as (w1 & Hrun1 & Hd1).
  rewrite (stripeWebhook_completed _ _ _ _ _ _ Hev Htype).
  unfold bind. rewrite Hrun1. unfold ret. cbn [snd].
  destruct Hd1 as [_ _ _ _ _ Hcart _]. by rewrite Hcart, Hown.
Qed.

(** ** The cart router *)

Lemma find_elem_of {A} (f : A → bool) l x :
  List.find f l = Some x → x ∈ l ∧ f x = true.
Proof. intros [Hin ?]%find_some. split; [by apply list_elem_of_In|done]. Qed.

Lemma elem_of_updateRow_data id data l x :
  x ∈ l → ci_id x = id → data x ∈ map (updateRow id data) l.
Proof.
  intros Hx Hid. apply elem_of_updateRow. exists x. split; [done|].
  unfold updateRow. by rewrite decide_True.
Qed.

Lemma cartItem_create_Done c w created w' :
  cartItem_create c w = (Done created, w') →
  created = c ∧ w' = set_cartItems (λ l, l ++ [c]) w.
Proof. unfold cartItem_create. by repeat case_match; intros [= <- <-]. Qed.

(** A row saved by [POST /add] is stored, belongs to an active product and,
    unless the product allows backorder, never holds more than the stock that
    was available: the variant's for a variant, the product's otherwise. *)
Theorem addToCart_within_stock newId userId sessionId productId variantId quantity
    w item w' :
  addToCart newId userId sessionId productId variantId quantity w
  = (Done (CartSaved item), w') →
  item ∈ cartItems w'
  ∧ ci_productId item = productId
  ∧ ∃ product,
      products w !! productId = Some product
      ∧ p_isActive product = true
      ∧ (p_allowBackorder product = false →
         ci_quantity item ≤ availableFor w productId variantId).
Proof.
  unfold addToCart, bind, gets, ret, availableFor.
  destruct (products w !! productId) as [product|] eqn:Hproduct; [|done].
  destruct (p_isActive product) eqn:Hactive; [|done]. cbn [negb].
  set (variant := v ← variantId; product_variant w productId v).
  destruct (truthy variantId && _); [done|].
  set (availableQty := if truthy variantId then _ else _).
  assert (Hbound : ∀ n, negb (p_allowBackorder product) && (availableQty <? n) = false →
                        p_allowBackorder product = false → n ≤ availableQty).
  { intros n Hn Hback. rewrite Hback in Hn. cbn in Hn. by apply Z.ltb_ge in Hn. }
  destruct (negb (p_allowBackorder product) && (availableQty <? quantity)) eqn:Hfits;
    [done|].
  destruct (cartItem_findFirst _ w) as [existing|] eqn:Hfind.
  - unfold cartItem_findFirst in Hfind. apply find_elem_of in Hfind as [Hin Hmatch].
    destruct (negb (p_allowBackorder product)
              && (availableQty <? ci_quantity existing + quantity)) eqn:Hfits';
      [done|].
    unfold cartItem_update. rewrite decide_True by (by apply Exists_key).
    intros [= <- <-]. split; [|split].
    + cbn [cartItems set_cartItems]. by apply elem_of_updateRow_data.
    + unfold identityWhere, cartWhere in Hmatch.
      destruct (truthy userId);
        repeat (apply andb_true_iff in Hmatch as [Hmatch ?]);
        by match goal with H : bool_decide (ci_productId _ = _) = true |- _ =>
             apply bool_decide_eq_true in H end.
    + exists product. split_and!; try done. by apply Hbound.
  - destruct (cartItem_create _ w) as [[created|e] w1] eqn:Hcreate; [|done].
    apply cartItem_create_Done in Hcreate as [-> ->].
    intros [= <- <-]. split; [|split; [done|]].
    + cbn. apply elem_of_app. right. apply list_elem_of_here.
    + exists product. split_and!; try done. by apply Hbound.
Qed.

(** [POST /add] answers "product not found" for a product that is missing or
    inactive and "variant not found" for a variant that is missing, inactive
    or of another product; the cart is left as it was. *)
Theorem addToCart_not_found newId userId sessionId productId variantId quantity w :
  let run := addToCart newId userId sessionId productId variantId quantity w in
  (match products w !! productId with
   | Some product => p_isActive product = false
   | None => True
   end → run = (Done CartProductNotFound, w))
  ∧ (∀ product v,
       products w !! productId = Some product → p_isActive product = true →
       variantId = Some v → v ≠ "" →
       match product_variant w productId v with
       | Some variant => v_isActive variant = false
       | None => True
       end → run = (Done CartVariantNotFound, w)).
Proof.
  intros run. subst run. unfold addToCart, bind, gets, ret. split.
  - destruct (products w !! productId) as [product|]; [|done]. by intros ->.
  - intros product v -> -> -> Hv Hvariant. cbn [negb mbind option_bind].
    rewrite (truthy_Some _ Hv). cbn [andb].
    destruct (product_variant w productId v) as [variant|]; [|done].
    by rewrite Hvariant.
Qed.

Lemma sumOver_app h l1 l2 : sumOver h (l1 ++ l2) = sumOver h l1 + sumOver h l2.
Proof. unfold sumOver. induction l1 as [|c l1 IH]; [done|]. cbn. rewrite IH. lia. Qed.

Lemma identityWhere_pair userId sessionId p v c :
  identityWhere userId sessionId (Some p) (Some v) c
  = ownedBy userId sessionId c && samePair p v c.
Proof.
  unfold ownedBy, identityWhere, cartWhere, samePair.
  destruct (truthy userId), userId; cbn; by rewrite ?andb_true_r, ?andb_assoc.
Qed.

Lemma ownedBy_withQuantity userId sessionId n c :
  ownedBy userId sessionId (cart_withQuantity n c) = ownedBy userId sessionId c.
Proof. unfold ownedBy, identityWhere. by destruct (truthy userId). Qed.

Lemma samePair_withQuantity p v n c :
  samePair p v (cart_withQuantity n c) = samePair p v c.
Proof. done. Qed.

(** Every successful [POST /add] raises what the identity's cart holds of the
    (product, variant) pair by exactly the requested quantity, and changes
    what it holds of no other pair. *)
Theorem addToCart_adds_quantity newId userId sessionId productId variantId quantity
    w item w' :
  uniqueKeys (cartItems w) →
  variantId ≠ Some "" →
  addToCart newId userId sessionId productId variantId quantity w
  = (Done (CartSaved item), w') →
  ∀ p v,
    pairQuantity (ownedBy userId sessionId) p v (cartItems w')
    = pairQuantity (ownedBy userId sessionId) p v (cartItems w)
      + (if samePair productId variantId
              {| ci_id := newId; ci_userId := None; ci_sessionId := None;
                 ci_productId := p; ci_variantId := v; ci_quantity := 0 |}
         then quantity else 0).
Proof.
  intros Hkeys Hvariant.
  assert (Hkey : variantKey variantId = variantId).
  { unfold variantKey. destruct variantId as [v|]; [|done].
    rewrite truthy_Some; [done|]. by intros ->. }
  unfold addToCart, bind, gets, ret.
  destruct (products w !! productId) as [product|]; [|done].
  destruct (negb (p_isActive product)); [done|].
  destruct (truthy variantId && _); [done|].
  destruct (negb (p_allowBackorder product) && _); [done|].
  fold (variantKey variantId). rewrite Hkey.
  destruct (cartItem_findFirst _ w) as [existing|] eqn:Hfind.
  - unfold cartItem_findFirst in Hfind. apply find_elem_of in Hfind as [Hin Hmatch].
    rewrite identityWhere_pair in Hmatch.
    apply andb_true_iff in Hmatch as [Hown Hpair].
    destruct (negb (p_allowBackorder product) && _); [done|].
    unfold cartItem_update. rewrite decide_True by (by apply Exists_key).
    intros [= <- <-] p v. cbn [cartItems set_cartItems]. unfold pairQuantity.
    rewrite sumOver_update by done.
    cbv beta. rewrite ownedBy_withQuantity, samePair_withQuantity, Hown. cbn [andb cart_withQuantity ci_quantity].
    unfold samePair in *. cbn [ci_productId ci_variantId].
    apply andb_true_iff in Hpair as [Hp Hv]. apply bool_decide_eq_true in Hp, Hv.
    rewrite Hp, Hv.
    rewrite (bool_decide_ext (productId = p) (p = productId)) by done.
    rewrite (bool_decide_ext (variantId = v) (v = variantId)) by done.
    destruct (bool_decide (p = productId) && bool_decide (v = variantId)); lia.
  - destruct (cartItem_create _ w) as [[created|e] w1] eqn:Hcreate; [|done].
    apply cartItem_create_Done in Hcreate as [-> ->].
    intros [= <- <-] p v. cbn [cartItems set_cartItems]. unfold pairQuantity.
    rewrite sumOver_app. f_equal. rewrite sumOver_cons. cbn [sumOver foldr].
    unfold ownedBy, identityWhere, cartWhere, samePair.
    cbn [ci_userId ci_sessionId ci_productId ci_variantId ci_quantity].
    rewrite (bool_decide_ext (productId = p) (p = productId)) by done.
    rewrite (bool_decide_ext (variantId = v) (v = variantId)) by done.
    destruct (truthy userId) eqn:Huser.
    + destruct userId as [u|]; [|done]. rewrite bool_decide_eq_true_2 by done.
      cbn. destruct (bool_decide (p = productId) && bool_decide (v = variantId)); lia.
    + rewrite (bool_decide_eq_true_2 (Some sessionId = Some sessionId)) by done.
      cbn. destruct (bool_decide (p = productId) && bool_decide (v = variantId)); lia.
Qed.

(** An identity cannot change or remove a cart row that is not its own: both
    requests answer "not found" and leave the cart as it was. *)
Theorem cart_item_of_another_identity userId sessionId itemId quantity w :
  (∀ c, c ∈ cartItems w → ci_id c = itemId → ownedBy userId sessionId c = false) →
  updateCartItem userId sessionId itemId quantity w = (Done CartItemNotFound, w)
  ∧ removeCartItem userId sessionId itemId w = (Done CartItemNotFound, w).
Proof.
  intros Hforeign.
  assert (Hfind : cartItem_findFirst (ownItem userId sessionId itemId) w = None).
  { unfold cartItem_findFirst. destruct (List.find _ _) as [c|] eqn:Hfind; [|done].
    apply find_elem_of in Hfind as [Hin Hown]. unfold ownItem in Hown.
    apply andb_true_iff in Hown as [Hid Hown]. apply String.eqb_eq in Hid.
    unfold ownedBy in Hforeign. by rewrite (Hforeign c Hin Hid) in Hown. }
  unfold updateCartItem, removeCartItem, bind, gets. by rewrite Hfind.
Qed.

(** [DELETE /:itemId] on a row of the identity removes the rows with that key
    and no other row. *)
Theorem removeCartItem_removes userId sessionId itemId c w :
  c ∈ cartItems w → ci_id c = itemId → ownedBy userId sessionId c = true →
  ∃ w', removeCartItem userId sessionId itemId w = (Done CartItemRemoved, w')
        ∧ (∀ c', c' ∈ cartItems w' ↔ c' ∈ cartItems w ∧ ci_id c' ≠ itemId)
        ∧ CartOnly w w'.
Proof.
  intros Hin Hid Hown. unfold removeCartItem, bind, gets, cartItem_findFirst.
  destruct (List.find _ _) as [found|] eqn:Hfind.
  - unfold cartItem_delete. rewrite decide_True.
    + eexists. split; [done|]. split; [|by constructor].
      intros c'. cbn. rewrite list_elem_of_filter. tauto.
    + apply Exists_exists. by exists c.
  - pose proof (find_none _ _ Hfind c) as Hnone. unfold ownItem in Hnone.
    rewrite Hid, String.eqb_refl in Hnone. unfold ownedBy in Hown.
    rewrite Hown in Hnone. by apply list_elem_of_In, Hnone in Hin.
Qed.

Lemma filter_negb_filter {A} (f : A → bool) l :
  List.filter f (List.filter (λ x, negb (f x)) l) = [].
Proof.
  induction l as [|x l IH]; [done|]. cbn.
  destruct (f x) eqn:Hx; cbn; [done|]. by rewrite Hx.
Qed.

(** After [DELETE /] the identity's cart reads as empty, and the rows of
    every other identity are still there. *)
Theorem clearCart_then_getCart userId sessionId w :
  let w' := (clearCart userId sessionId w).2 in
  getCart userId sessionId w'
  = (Done {| cv_items := []; cv_itemCount := 0; cv_subtotal := 0%float |}, w')
  ∧ (∀ c, c ∈ cartItems w' ↔ c ∈ cartItems w ∧ ownedBy userId sessionId c = false).
Proof.
  intros w'. subst w'. unfold clearCart, bind, cartItem_deleteManyWhere, modify, ret.
  cbn [snd]. split.
  - unfold getCart, bind, cartItem_findManyInclude. cbn [cartItems set_cartItems].
    by rewrite filter_negb_filter.
  - intros c. cbn [cartItems set_cartItems]. rewrite !list_elem_of_In, filter_In.
    unfold ownedBy. by rewrite negb_true_iff.
Qed.

Lemma cart_fold_total rows s :
  fold_left (λ subtotal item, (subtotal + cl_total item)%float) (cartLine <$> rows) s
  = fold_left (λ s row, (s + rowPrice row * ofInt (ci_quantity (row_item row)))%float)
      rows s.
Proof. revert s. induction rows as [|row rows IH]; intros s; [done|apply IH]. Qed.

Lemma cart_fold_count rows n :
  fold_left (λ sum item, sum + cl_quantity item) (cartLine <$> rows) n
  = n + foldr (λ row m, ci_quantity (row_item row) + m) 0 rows.
Proof.
  revert n. induction rows as [|row rows IH]; intros n; cbn; [lia|].
  rewrite IH. lia.
Qed.

(** The cart page and checkout agree: for the same identity, the subtotal
    [GET /] shows is the subtotal checkout computes, over the same rows, and
    the item count is the sum of their quantities. *)
Theorem getCart_agrees_with_checkout rq sessionId w rows :
  (truthy (rq_userId rq) = false → rq_cartSession rq = Some sessionId) →
  loadedCart rq w = Some rows →
  ∃ view,
    getCart (rq_userId rq) sessionId w = (Done view, w)
    ∧ cv_subtotal view = cartSubtotal rows
    ∧ cv_itemCount view = foldr (λ row m, ci_quantity (row_item row) + m) 0 rows
    ∧ length (cv_items view) = length rows.
Proof.
  intros Hsession Hload. unfold getCart, bind, cartItem_findManyInclude, ret.
  assert (Hwhere : identityWhere (rq_userId rq) sessionId None None
                   = checkoutCartWhere rq).
  { unfold identityWhere, checkoutCartWhere.
    destruct (truthy (rq_userId rq)); [done|]. by rewrite Hsession. }
  rewrite Hwhere. unfold loadedCart in Hload. rewrite Hload.
  eexists. split; [done|]. cbn [cv_subtotal cv_itemCount cv_items]. split_and!.
  - apply cart_fold_total.
  - by rewrite cart_fold_count.
  - by rewrite length_fmap.
Qed.


(** A successful [PUT /:itemId] sets the quantity of a row of the requesting
    identity to the requested value, which the stock of the row's variant
    (or of its product, without one) covers unless the product allows
    backorders; the other rows stay, and nothing but the cart changes. *)
Theorem updateCartItem_sets_quantity userId sessionId itemId quantity w item w' :
  updateCartItem userId sessionId itemId quantity w = (Done (CartSaved item), w') →
  ci_id item = itemId
  ∧ ci_quantity item = quantity
  ∧ ownedBy userId sessionId item = true
  ∧ item ∈ cartItems w'
  ∧ (∀ c, c ∈ cartItems w → ci_id c ≠ itemId → c ∈ cartItems w')
  ∧ length (cartItems w') = length (cartItems w)
  ∧ CartOnly w w'
  ∧ ∃ product,
      products w !! ci_productId item = Some product
      ∧ (p_allowBackorder product = false →
         quantity ≤ match ci_variantId item ≫= (productVariants w !!.) with
                    | Some variant => v_quantity variant
                    | None => p_quantity product
                    end).
Proof.
  unfold updateCartItem, bind, gets, ret.
  destruct (cartItem_findFirst _ w) as [old|] eqn:Hfind; [|done].
  unfold cartItem_findFirst in Hfind. apply find_elem_of in Hfind as [Hin Hown].
  unfold ownItem in Hown. apply andb_true_iff in Hown as [Hid Hown].
  apply String.eqb_eq in Hid.
  unfold includeProductVariant.
  destruct (products w !! ci_productId old) as [product|] eqn:Hproduct; [|done].
  cbn [mbind option_bind].
  set (row := {| row_item := old; row_product := product; row_variant := _ |}).
  destruct (negb (p_allowBackorder (row_product row)) && (rowAvailableQty row <? quantity))
    eqn:Hstock; [done|].
  unfold cartItem_update. rewrite decide_True by (rewrite <- Hid; by apply Exists_key).
  intros [= <- <-]. cbn [cartItems set_cartItems]. split_and!; try done.
  - by rewrite ownedBy_withQuantity.
  - by apply elem_of_updateRow_data.
  - intros c Hc Hne. apply elem_of_updateRow. exists c. split; [done|].
    unfold updateRow. by rewrite decide_False.
  - by rewrite length_map.
  - exists product. split; [done|]. intros Hback.
    cbn [row_product row] in Hstock. rewrite Hback in Hstock. cbn [negb andb] in Hstock.
    apply Z.ltb_ge in Hstock. exact Hstock.
Qed.

(** ** Reading an order *)

(** [GET /:id] shows a stored order exactly to the signed-in user it belongs
    to and to the role [ADMIN]; everyone else is denied, and the store is
    never changed.  An order placed by a guest has no owner, so only [ADMIN]
    can read it: neither the guest nor a [SUPER_ADMIN] can. *)
Theorem getOrder_access userId userRole id order w :
  orders w !! id = Some order →
  let allowed := (∃ u, userId = Some u ∧ o_userId order = Some u)
                 ∨ userRole = Some "ADMIN" in
  (allowed → getOrder userId userRole id w = (Done (OrderFound order), w))
  ∧ (¬ allowed → getOrder userId userRole id w = (Done OrderAccessDenied, w))
  ∧ (o_userId order = None → userRole ≠ Some "ADMIN" → ¬ allowed).
Proof.
  intros Horder allowed. subst allowed.
  unfold getOrder, order_findUnique, bind, gets, ret. rewrite Horder.
  split_and!.
  - intros [(u & -> & Hu) | ->]; [rewrite Hu|].
    + cbn [sameUser]. by rewrite String.eqb_refl.
    + rewrite bool_decide_eq_true_2 by done. by rewrite andb_false_r.
  - intros Hdenied.
    assert (sameUser userId (o_userId order) = false) as ->.
    { destruct userId as [a|], (o_userId order) as [b|]; cbn; try done.
      apply String.eqb_neq. intros ->. apply Hdenied. left. by exists b. }
    rewrite bool_decide_eq_false_2; [done|]. intros ->. apply Hdenied. by right.
  - intros Hguest Hrole [(u & _ & Hu)|Hadmin]; congruence.
Qed.

Lemma order_findByNumber_unique id order w :
  orders w !! id = Some order →
  (∀ id' o', orders w !! id' = Some o' →
             o_orderNumber o' = o_orderNumber order → id' = id) →
  order_findByNumber (o_orderNumber order) w = Some order.
Proof.
  intros Horder Hunique. unfold order_findByNumber.
  destruct (list_find _ _) as [[i [id' o']]|] eqn:Hfind.
  - apply list_find_Some in Hfind as (Hi & Hnumber & _). cbn in Hnumber |- *.
    apply list_elem_of_lookup_2, elem_of_map_to_list in Hi.
    pose proof (Hunique id' o' Hi Hnumber) as ->. congruence.
  - apply list_find_None in Hfind. rewrite Forall_forall in Hfind.
    exfalso. apply (Hfind (id, order)); [|done]. by apply elem_of_map_to_list.
Qed.

Lemma order_findByNumber_missing number w :
  (∀ id o, orders w !! id = Some o → o_orderNumber o ≠ number) →
  order_findByNumber number w = None.
Proof.
  intros Hnone. unfold order_findByNumber.
  destruct (list_find _ _) as [[i [id o]]|] eqn:Hfind; [|done].
  apply list_find_Some in Hfind as (Hi & Hnumber & _). cbn in Hnumber.
  apply list_elem_of_lookup_2, elem_of_map_to_list in Hi. by destruct (Hnone id o Hi).
Qed.

(** [GET /track/:orderNumber] finds the order with that number
    ([Order_orderNumber_key]).  The email check is optional: with no [email]
    in the query, or an empty one, the order is returned to anyone who knows
    the number; with one, it is returned exactly when the two addresses are
    equal up to letter case. *)
Theorem trackOrder_email_check id order email w :
  orders w !! id = Some order →
  (∀ id' o', orders w !! id' = Some o' →
             o_orderNumber o' = o_orderNumber order → id' = id) →
  trackOrder (o_orderNumber order) email w
  = (Done (match email with
           | Some e =>
               if bool_decide (e = "")
                  || String.eqb (toLowerCase (o_email order)) (toLowerCase e)
               then OrderFound order else OrderAccessDenied
           | None => OrderFound order
           end), w).
Proof.
  intros Horder Hunique. unfold trackOrder, bind, gets, ret.
  rewrite (order_findByNumber_unique id order w Horder Hunique).
  destruct email as [e|]; [|done]. case_bool_decide as He.
  - subst e. done.
  - rewrite (truthy_Some _ He). cbn [andb orb]. by destruct (String.eqb _ _).
Qed.

(** A number no order carries is "not found", whatever the email. *)
Theorem trackOrder_unknown_number number email w :
  (∀ id o, orders w !! id = Some o → o_orderNumber o ≠ number) →
  trackOrder number email w = (Done OrderNotFound, w).
Proof.
  intros Hnone. unfold trackOrder, bind, gets, ret.
  by rewrite (order_findByNumber_missing number w Hnone).
Qed.

(** ** Status changes by an administrator *)

(** [PATCH /:id/status] has no transition table: an administrator moves a
    stored order to any status from any status.  Only the order row and its
    timeline change: stock, discount codes, carts and refunds are untouched
    (so a status [CANCELLED] or [REFUNDED] set here neither restocks nor
    refunds), and the payment status stays what it was.  The shipping date is
    set only by [SHIPPED] with a tracking number, the delivery date only by
    [DELIVERED]. *)
Theorem updateOrderStatus_any_transition now userRole id status trackingNumber note
    order w :
  isAdmin userRole = true →
  orders w !! id = Some order →
  ∃ updated w',
    updateOrderStatus now userRole id status trackingNumber note w
    = (Done (StatusUpdated updated), w')
    ∧ orders w' = <[id := updated]> (orders w)
    ∧ o_status updated = status
    ∧ o_paymentStatus updated = o_paymentStatus order
    ∧ o_total updated = o_total order
    ∧ (o_shippedAt updated ≠ o_shippedAt order →
       status = SHIPPED ∧ truthy trackingNumber = true)
    ∧ (o_deliveredAt updated ≠ o_deliveredAt order → status = DELIVERED)
    ∧ stockAndCart w' = stockAndCart w
    ∧ orderItems w' = orderItems w
    ∧ length (orderTimeline w') = S (length (orderTimeline w)).
Proof.
  intros Hadmin Horder.
  unfold updateOrderStatus, order_findUnique, order_update, bind, gets, ret.
  rewrite Hadmin. cbn [negb]. cbv beta. rewrite Horder. cbv beta iota. rewrite Horder.
  eexists _, _. split; [reflexivity|].
  split_and!; try done.
  - cbn [order_withStatus o_shippedAt].
    destruct (bool_decide (status = SHIPPED)) eqn:Hs; [|done].
    apply bool_decide_eq_true in Hs. cbn [andb].
    by destruct (truthy trackingNumber).
  - cbn [order_withStatus o_deliveredAt]. by case_bool_decide.
  - cbn. by rewrite length_app, Nat.add_comm.
Qed.

(** Only the roles [ADMIN] and [SUPER_ADMIN] pass the [isAdmin] middleware;
    any other request is refused before the store is read. *)
Lemma updateOrderStatus_forbidden now userRole id status trackingNumber note w :
  userRole ≠ Some "ADMIN" → userRole ≠ Some "SUPER_ADMIN" →
  updateOrderStatus now userRole id status trackingNumber note w
  = (Done StatusForbidden, w).
Proof.
  intros Ha Hs. unfold updateOrderStatus, isAdmin.
  by rewrite !bool_decide_eq_false_2.
Qed.

(** ** Further instances on the sample store *)


Lemma mergeCart_again_witness :
  let w' := (mergeCart (Some "user-1") (Some "sess-1") Sample.world).2 in
  uniqueKeys (cartItems w')
  ∧ mergeCart (Some "user-1") (Some "sess-1") w' = (Done MergeDone, w').
Proof.
  apply (mergeCart_again "user-1" "sess-1" Sample.world).
  - discriminate.
  - discriminate.
  - apply (bool_decide_unpack _). vm_compute. exact I.
  - repeat constructor; discriminate.
Defined.


Lemma checkout_order_number_collision_witness :
  let run := checkout Sample.stripe Sample.round Sample.env2 (Sample.request None)
               (Sample.ordered None) in
  run.1 = Thrown uniqueConstraintFailed
  ∧ orders run.2 = orders (Sample.ordered None)
  ∧ orderItems run.2 = orderItems (Sample.ordered None).
Proof.
  apply (checkout_order_number_collision Sample.stripe Sample.round Sample.env2
           (Sample.request None) (Sample.ordered None) Sample.userRows 0%float None
           "order-1" Sample.plainOrder).
  - vm_compute. reflexivity.
  - discriminate.
  - repeat constructor.
  - vm_compute. reflexivity.
  - vm_compute. repeat constructor. discriminate.
  - vm_compute. reflexivity.
  - vm_compute. reflexivity.
Defined.


Lemma checkout_links_session_witness :
  "order-1" = env_orderId Sample.env
  ∧ ∃ o, orders (Sample.ordered None) !! "order-1" = Some o
         ∧ o_stripePaymentId o = Some "cs_1"
         ∧ o_orderNumber o = "ZPS-20240115-A3B7"
         ∧ o_status o = PENDING.
Proof.
  apply (checkout_links_session Sample.stripe Sample.round Sample.env
           (Sample.request None) Sample.world
           (Some "https://checkout.stripe.com/cs_1")).
  vm_compute. reflexivity.
Defined.

Lemma cancelOrder_unpaid_witness :
  ∃ w', cancelOrder Sample.stripe 1705314700000 "user-1" "order-1" None
          (Sample.ordered None)
        = (Done (Cancelled (order_cancel 1705314700000 Sample.plainOrder)), w')
        ∧ CancelEffect "order-1" 1705314700000 None Sample.plainOrder []
            (Sample.ordered None) w'
        ∧ o_status (order_cancel 1705314700000 Sample.plainOrder) = CANCELLED
        ∧ o_paymentStatus (order_cancel 1705314700000 Sample.plainOrder)
          = o_paymentStatus Sample.plainOrder.
Proof.
  apply (cancelOrder_unpaid Sample.stripe 1705314700000 "user-1" "order-1" None
           Sample.plainOrder (Sample.ordered None)).
  - vm_compute. reflexivity.
  - split; [reflexivity|by left].
  - discriminate.
  - vm_compute. repeat constructor. by eexists.
Defined.

Lemma cancelOrder_paid_refunds_and_restocks_witness :
  ∃ w', cancelOrder Sample.stripe 1705314700000 "user-1" "order-1" None
          (Sample.paid None)
        = (Done (Cancelled (order_cancel 1705314700000
                              (order_confirmPayment Sample.plainOrder))), w')
        ∧ CancelEffect "order-1" 1705314700000 None
            (order_confirmPayment Sample.plainOrder) ["pi_1"] (Sample.paid None) w'
        ∧ o_status (order_cancel 1705314700000
                      (order_confirmPayment Sample.plainOrder)) = CANCELLED
        ∧ o_paymentStatus (order_cancel 1705314700000
                             (order_confirmPayment Sample.plainOrder))
          = PAYMENT_REFUNDED.
Proof.
  apply (cancelOrder_paid_refunds_and_restocks Sample.stripe 1705314700000 "user-1"
           "order-1" None (order_confirmPayment Sample.plainOrder) "cs_1"
           (Sample.session "cs_1") "pi_1" (Sample.paid None)).
  - vm_compute. reflexivity.
  - split; [reflexivity|by right].
  - reflexivity.
  - reflexivity.
  - discriminate.
  - reflexivity.
  - reflexivity.
  - discriminate.
  - reflexivity.
  - vm_compute. repeat constructor. by eexists.
Defined.

Lemma cancelOrder_paid_without_reference_witness :
  ∃ w', cancelOrder Sample.stripe 1705314700000 "user-1" "order-9" None
          Sample.unreferenced
        = (Done (Cancelled (order_cancel 1705314700000 Sample.unreferencedOrder)), w')
        ∧ refundCalls w' = refundCalls Sample.unreferenced
        ∧ o_paymentStatus <$> orders w' !! "order-9" = Some PAYMENT_REFUNDED.
Proof.
  apply (cancelOrder_paid_without_reference Sample.stripe 1705314700000 "user-1"
           "order-9" None Sample.unreferencedOrder Sample.unreferenced).
  - vm_compute. reflexivity.
  - split; [reflexivity|by right].
  - reflexivity.
  - reflexivity.
  - constructor.
Defined.

Lemma cancelOrder_refund_rejected_witness :
  cancelOrder Sample.stripeDown 1705314700000 "user-1" "order-1" None (Sample.paid None)
  = (Thrown stripeError, set_refundCalls (cons "pi_1") (Sample.paid None)).
Proof.
  apply (cancelOrder_refund_rejected Sample.stripeDown 1705314700000 "user-1"
           "order-1" None (order_confirmPayment Sample.plainOrder) "cs_1"
           (Sample.session "cs_1") "pi_1" (Sample.paid None)).
  - vm_compute. reflexivity.
  - split; [reflexivity|by right].
  - reflexivity.
  - reflexivity.
  - discriminate.
  - reflexivity.
  - reflexivity.
  - discriminate.
  - reflexivity.
Defined.

Lemma cancelOrder_rejection_unchanged_witness :
  (cancelOrder Sample.stripe 1705314700000 "user-2" "order-1" None
     (Sample.ordered None)).2
  = Sample.ordered None.
Proof.
  apply (cancelOrder_rejection_unchanged Sample.stripe 1705314700000 "user-2"
           "order-1" None (Sample.ordered None) CancelDenied).
  - vm_compute. reflexivity.
  - discriminate.
Defined.

Lemma stripeWebhook_always_acknowledges_witness :
  (stripeWebhook Sample.stripe Sample.secret "order-1" Sample.secret
     (Sample.ordered None)).1
  = Done WebhookReceived.
Proof.
  apply (stripeWebhook_always_acknowledges Sample.stripe Sample.secret "order-1"
           Sample.secret (Sample.event "order-1") (Sample.ordered None)).
  reflexivity.
Defined.

Lemma stripeWebhook_foreign_event_witness :
  stripeWebhook Sample.stripe Sample.secret "order-404" Sample.secret Sample.world
  = (Done WebhookReceived, Sample.world).
Proof.
  apply (stripeWebhook_foreign_event Sample.stripe Sample.secret "order-404"
           Sample.secret (Sample.event "order-404") Sample.world).
  - reflexivity.
  - right. right. exists "order-404". split; reflexivity.
Defined.

Lemma pay_then_cancel_restores_stock_witness :
  let w := Sample.ordered (Some "welcome10") in
  let paid := (stripeWebhook Sample.stripe Sample.secret "order-1" Sample.secret w).2 in
  let cancelled :=
    (cancelOrder Sample.stripe 1705314700000 "user-1" "order-1" None paid).2 in
  products cancelled = products w
  ∧ productVariants cancelled = productVariants w
  ∧ (∀ c, discountCodes cancelled !! c
          = redeem (usesOf Sample.welcomeOrder c) <$> discountCodes w !! c)
  ∧ refundCalls cancelled = "pi_1" :: refundCalls w
  ∧ o_status <$> orders cancelled !! "order-1" = Some CANCELLED
  ∧ o_paymentStatus <$> orders cancelled !! "order-1" = Some PAYMENT_REFUNDED.
Proof.
  apply (pay_then_cancel_restores_stock Sample.stripe Sample.secret "order-1"
           Sample.secret (Sample.event "order-1") 1705314700000 "user-1" "order-1"
           None Sample.welcomeOrder "cs_1" (Sample.session "cs_1") "pi_1"
           (Sample.ordered (Some "welcome10"))).
  - reflexivity.
  - reflexivity.
  - split; [reflexivity|discriminate].
  - vm_compute. reflexivity.
  - reflexivity.
  - reflexivity.
  - discriminate.
  - reflexivity.
  - reflexivity.
  - discriminate.
  - reflexivity.
  - vm_compute. repeat constructor. by eexists.
  - intros c [= <-] _. vm_compute. by eexists.
Defined.

Lemma stripeWebhook_confirms_order_witness :
  let w := Sample.ordered (Some "welcome10") in
  let w' := (stripeWebhook Sample.stripe Sample.secret "order-1" Sample.secret w).2 in
  (∃ o', orders w' !! "order-1" = Some o'
         ∧ o_status o' = CONFIRMED ∧ o_paymentStatus o' = PAID
         ∧ o_paymentMethod o' = Some "stripe"
         ∧ o_total o' = o_total Sample.welcomeOrder)
  ∧ (∀ id, id ≠ "order-1" → orders w' !! id = orders w !! id)
  ∧ (∀ c, c ∈ cartItems w' ↔ c ∈ cartItems w ∧ ci_userId c ≠ Some "user-1").
Proof.
  apply (stripeWebhook_confirms_order Sample.stripe Sample.secret "order-1"
           Sample.secret (Sample.event "order-1") "order-1" Sample.welcomeOrder
           "user-1" (Sample.ordered (Some "welcome10"))).
  - reflexivity.
  - reflexivity.
  - split; [reflexivity|discriminate].
  - vm_compute. reflexivity.
  - reflexivity.
  - discriminate.
  - vm_compute. repeat constructor. by eexists.
  - intros c [= <-] _. vm_compute. by eexists.
Defined.

Lemma stripeWebhook_guest_cart_survives_witness :
  cartItems (stripeWebhook Sample.stripe Sample.secret "order-1" Sample.secret
               Sample.guestOrdered).2
  = cartItems Sample.guestOrdered.
Proof.
  apply (stripeWebhook_guest_cart_survives Sample.stripe Sample.secret "order-1"
           Sample.secret (Sample.event "order-1") "order-1" Sample.guestOrder
           Sample.guestOrdered).
  - reflexivity.
  - reflexivity.
  - split; [reflexivity|discriminate].
  - vm_compute. reflexivity.
  - reflexivity.
  - vm_compute. repeat constructor; by eexists.
  - intros c Hc. discriminate Hc.
Defined.

Lemma addToCart_within_stock_witness :
  let w' := (addToCart "ci-9" (Some "user-1") "sess-9" "prod-a" None 3 Sample.world).2 in
  Sample.cartOf "ci-1" (Some "user-1") None "prod-a" None 5 ∈ cartItems w'
  ∧ ci_productId (Sample.cartOf "ci-1" (Some "user-1") None "prod-a" None 5) = "prod-a"
  ∧ ∃ product,
      products Sample.world !! "prod-a" = Some product
      ∧ p_isActive product = true
      ∧ (p_allowBackorder product = false →
         ci_quantity (Sample.cartOf "ci-1" (Some "user-1") None "prod-a" None 5)
         ≤ availableFor Sample.world "prod-a" None).
Proof.
  apply (addToCart_within_stock "ci-9" (Some "user-1") "sess-9" "prod-a" None 3
           Sample.world).
  vm_compute. reflexivity.
Defined.

Lemma addToCart_not_found_witness :
  addToCart "ci-9" (Some "user-1") "sess-9" "prod-x" None 1 Sample.world
  = (Done CartProductNotFound, Sample.world)
  ∧ addToCart "ci-9" (Some "user-1") "sess-9" "prod-a" (Some "var-small") 1 Sample.world
    = (Done CartVariantNotFound, Sample.world).
Proof.
  split.
  - apply (addToCart_not_found "ci-9" (Some "user-1") "sess-9" "prod-x" None 1
             Sample.world).
    vm_compute. exact I.
  - apply (addToCart_not_found "ci-9" (Some "user-1") "sess-9" "prod-a"
             (Some "var-small") 1 Sample.world) with (product := Sample.productA)
                                                     (v := "var-small").
    + reflexivity.
    + reflexivity.
    + reflexivity.
    + discriminate.
    + vm_compute. exact I.
Defined.

Lemma addToCart_adds_quantity_witness :
  let w' := (addToCart "ci-9" (Some "user-1") "sess-9" "prod-a" (Some "var-large") 1
               Sample.world).2 in
  pairQuantity (ownedBy (Some "user-1") "sess-9") "prod-a" (Some "var-large")
    (cartItems w')
  = pairQuantity (ownedBy (Some "user-1") "sess-9") "prod-a" (Some "var-large")
      (cartItems Sample.world) + 1
  ∧ pairQuantity (ownedBy (Some "user-1") "sess-9") "prod-a" None (cartItems w')
    = pairQuantity (ownedBy (Some "user-1") "sess-9") "prod-a" None
        (cartItems Sample.world) + 0.
Proof.
  pose proof (addToCart_adds_quantity "ci-9" (Some "user-1") "sess-9" "prod-a"
                (Some "var-large") 1 Sample.world
                (Sample.cartOf "ci-9" (Some "user-1") None "prod-a" (Some "var-large") 1)
                (addToCart "ci-9" (Some "user-1") "sess-9" "prod-a" (Some "var-large") 1
                   Sample.world).2) as Hadd.
  split; apply Hadd; first
    [ apply (bool_decide_unpack _); vm_compute; exact I
    | discriminate
    | vm_compute; reflexivity ].
Defined.

Lemma cart_item_of_another_identity_witness :
  updateCartItem (Some "user-1") "sess-9" "ci-2" 1 Sample.world
  = (Done CartItemNotFound, Sample.world)
  ∧ removeCartItem (Some "user-1") "sess-9" "ci-2" Sample.world
    = (Done CartItemNotFound, Sample.world).
Proof.
  apply (cart_item_of_another_identity (Some "user-1") "sess-9" "ci-2" 1 Sample.world).
  apply (Forall_forall
           (λ c, ci_id c = "ci-2" → ownedBy (Some "user-1") "sess-9" c = false)).
  repeat constructor; discriminate.
Defined.

Lemma removeCartItem_removes_witness :
  ∃ w', removeCartItem (Some "user-1") "sess-9" "ci-1" Sample.world
        = (Done CartItemRemoved, w')
        ∧ (∀ c', c' ∈ cartItems w' ↔ c' ∈ cartItems Sample.world ∧ ci_id c' ≠ "ci-1")
        ∧ CartOnly Sample.world w'.
Proof.
  apply (removeCartItem_removes (Some "user-1") "sess-9" "ci-1"
           (Sample.cartOf "ci-1" (Some "user-1") None "prod-a" None 2) Sample.world).
  - apply list_elem_of_here.
  - reflexivity.
  - reflexivity.
Defined.

Lemma getCart_agrees_with_checkout_witness :
  ∃ view,
    getCart (rq_userId (Sample.guestRequest "sess-1")) "sess-1" Sample.world
    = (Done view, Sample.world)
    ∧ cv_subtotal view = cartSubtotal Sample.sessionRows
    ∧ cv_itemCount view
      = foldr (λ row m, ci_quantity (row_item row) + m) 0 Sample.sessionRows
    ∧ length (cv_items view) = length Sample.sessionRows.
Proof.
  apply (getCart_agrees_with_checkout (Sample.guestRequest "sess-1") "sess-1"
           Sample.world Sample.sessionRows).
  - reflexivity.
  - vm_compute. reflexivity.
Defined.

Lemma getOrder_access_witness :
  getOrder (Some "user-1") None "order-1" (Sample.ordered None)
  = (Done (OrderFound Sample.plainOrder), Sample.ordered None)
  ∧ getOrder None (Some "SUPER_ADMIN") "order-1" Sample.guestOrdered
    = (Done OrderAccessDenied, Sample.guestOrdered).
Proof.
  split.
  - apply (getOrder_access (Some "user-1") None "order-1" Sample.plainOrder
             (Sample.ordered None)).
    + vm_compute. reflexivity.
    + left. by exists "user-1".
  - apply (getOrder_access None (Some "SUPER_ADMIN") "order-1" Sample.guestOrder
             Sample.guestOrdered).
    + vm_compute. reflexivity.
    + apply (getOrder_access None (Some "SUPER_ADMIN") "order-1" Sample.guestOrder
               Sample.guestOrdered).
      * vm_compute. reflexivity.
      * reflexivity.
      * discriminate.
Defined.

Lemma trackOrder_email_check_witness :
  trackOrder (o_orderNumber Sample.plainOrder) (Some "Rana@Example.COM")
    (Sample.ordered None)
  = (Done (if bool_decide ("Rana@Example.COM" = "")
              || String.eqb (toLowerCase (o_email Sample.plainOrder))
                   (toLowerCase "Rana@Example.COM")
           then OrderFound Sample.plainOrder else OrderAccessDenied),
     Sample.ordered None).
Proof.
  apply (trackOrder_email_check "order-1" Sample.plainOrder (Some "Rana@Example.COM")
           (Sample.ordered None)).
  - vm_compute. reflexivity.
  - apply (map_Forall_lookup
             (λ id' o', o_orderNumber o' = o_orderNumber Sample.plainOrder
                        → id' = "order-1")).
    apply (bool_decide_unpack _). vm_compute. exact I.
Defined.

Lemma trackOrder_unknown_number_witness :
  trackOrder "ZPS-20240115-A3B7" None Sample.world = (Done OrderNotFound, Sample.world).
Proof.
  apply (trackOrder_unknown_number "ZPS-20240115-A3B7" None Sample.world).
  intros id o Ho. cbn in Ho. by apply lookup_empty_Some in Ho.
Defined.

Lemma updateOrderStatus_any_transition_witness :
  let w := (cancelOrder Sample.stripe 1705314700000 "user-1" "order-1" None
              (Sample.ordered None)).2 in
  ∃ updated w',
    updateOrderStatus 1705314800000 (Some "SUPER_ADMIN") "order-1" DELIVERED None None w
    = (Done (StatusUpdated updated), w')
    ∧ orders w' = <["order-1" := updated]> (orders w)
    ∧ o_status updated = DELIVERED
    ∧ o_paymentStatus updated
      = o_paymentStatus (order_cancel 1705314700000 Sample.plainOrder)
    ∧ o_total updated = o_total (order_cancel 1705314700000 Sample.plainOrder)
    ∧ (o_shippedAt updated ≠ o_shippedAt (order_cancel 1705314700000 Sample.plainOrder) →
       DELIVERED = SHIPPED ∧ truthy None = true)
    ∧ (o_deliveredAt updated
       ≠ o_deliveredAt (order_cancel 1705314700000 Sample.plainOrder) →
       DELIVERED = DELIVERED)
    ∧ stockAndCart w' = stockAndCart w
    ∧ orderItems w' = orderItems w
    ∧ length (orderTimeline w') = S (length (orderTimeline w)).
Proof.
  apply (updateOrderStatus_any_transition 1705314800000 (Some "SUPER_ADMIN") "order-1"
           DELIVERED None None (order_cancel 1705314700000 Sample.plainOrder)).
  - reflexivity.
  - vm_compute. reflexivity.
Defined.

Lemma updateCartItem_sets_quantity_witness :
  let item := Sample.cartOf "ci-1" (Some "user-1") None "prod-a" None 7 in
  let w' := (updateCartItem (Some "user-1") "sess-9" "ci-1" 7 Sample.world).2 in
  ci_id item = "ci-1"
  ∧ ci_quantity item = 7
  ∧ ownedBy (Some "user-1") "sess-9" item = true
  ∧ item ∈ cartItems w'
  ∧ (∀ c, c ∈ cartItems Sample.world → ci_id c ≠ "ci-1" → c ∈ cartItems w')
  ∧ length (cartItems w') = length (cartItems Sample.world)
  ∧ CartOnly Sample.world w'
  ∧ ∃ product,
      products Sample.world !! ci_productId item = Some product
      ∧ (p_allowBackorder product = false →
         7 ≤ match ci_variantId item ≫= (productVariants Sample.world !!.) with
             | Some variant => v_quantity variant
             | None => p_quantity product
             end).
Proof.
  apply (updateCartItem_sets_quantity (Some "user-1") "sess-9" "ci-1" 7 Sample.world).
  vm_compute. reflexivity.
Defined.
